(* ===== verification/_CoqProject ===== *)
-Q . S2P
Prelude.v
PyStr.v
Utf8.v
Comments.v
PyDict.v
Automaton.v
Examples.v
Repr.v
Dump.v
Validator.v
Parser.v
Engine.v
Spec.v
Invariants.v
Scenarios.v
Main.v
