(* ===== verification/Prelude.v ===== *)
(** * A verification library for the pushdown-automaton emulator

    The program ([src/PDA.py], [src/emulatePDA.py]) reads the text
    definition of a pushdown automaton, checks it, and runs it on an input
    string.  Its parts, leaves first, and how they call each other:

    - Python's [str], [list] and [dict]: [PyStr.v] models a string as the
      list of its code points ([list Z]) with the methods the code calls
      written out ([strip] with Python's whitespace set, [find], [rfind],
      [in], slicing with Python's bound normalisation, [split], [join],
      [lower] and [upper] on the characters that matter for the code's
      comparisons); [PyDict.v] models a [dict] as an association list in
      insertion order (a new key is appended, an existing key keeps its
      place), which fixes the order [isPDAValid] reports errors in.
    - [fixUtf8Corruption] (lines 46-60, [Utf8.v]): Latin-1 encoding, which
      fails above U+00FF, then Python's strict UTF-8 decoder (the
      well-formed sequences of Unicode table 3-7), the input itself when
      either fails.
    - The comment stripping of [parseFile] (lines 35-44, 72-131,
      [Comments.v]): [cleanLine] maps the block-comment flag and a raw line
      to the new flag and the cleaned line, or [None] for [continue];
      [cleanLines] runs it over the lines of a file.
    - The section parser of [parseFile] (lines 62-205, [Parser.v]): the
      parser state is the current section and the 6-tuple being built;
      [parseLine] is the dispatch of lines 133-195 with its fall-throughs,
      [parseRule] the [Rules] branch (five-field unpacking, repair and
      strip in the code's order, epsilon normalisation, the nested
      insertion [addRule]); [parseLines] is the loop, [parseFile] adds
      [readlines] and the final [isPDAValid].
    - The automaton data ([Automaton.v]): the exception classes (lines
      1-31) with Python's [ValueError] and [IndexError] as one inductive
      [pda_error]; the rule entry as a record; the three-level rule
      dictionary [rules[src][symbol][pop]]; the 6-tuple as a record.  The
      engine reads the rules through an interface, the class [RuleTable]
      (membership of a source state, of a symbol, lookup of an entry) with
      its laws [RuleTableLaws]; the nested dictionary of the code and the
      flat finite map of the specification ([gmap] keyed by the triple)
      are its two instances, related by [flatten].  [Examples.v] holds
      concrete automata and definition files.
    - What [parseFile] prints at line 200 ([printPDADataStructures],
      lines 278-290, [Repr.v]): the six lines, with CPython's [repr] of a
      [str] (the quote it chooses, its escapes, and [\x], [\u], [\U] for
      the characters [str.isprintable] rejects), of a [list] and of a
      [dict].  [str.isprintable] is the Unicode database's, a parameter;
      [isprintable_bmp0] is its table below U+0400, which the examples
      use.  [parseFile_io] ([Parser.v]) is [parseFile] with these lines,
      and [emulate] prints them first.  [Dump.v] is a reference reader of
      Python's literal syntax ([str_unrepr], [seq_unrepr], [undump]) built
      from codecs: records of a printer, its reader and the round-trip
      law, composed from strings up to the nested rule dictionary.
    - The validator ([Validator.v]): [isPDAValid] (lines 213-276), every
      check in the code's order, raising the code's exception.
    - The execution engine ([Engine.v]): [getNextState] (299-324),
      [epsilonClosure] (334-358), [splitIncludingNoSeparator] (328-332),
      [isStringValid] (292-297) and [runPDA] (361-403), generic in the rule
      table, with the stack as the Python list (top at the end) and the
      printed trace as an output list of lines.
    - The abstract machine ([Spec.v]): the moves of the specification as
      inductive relations [sym_step], [eps_step], [run_word] over
      configurations, keyed by a lookup function, and [accepts].
    - The front end [emulatePDA.py] ([Main.v]): [readArguments] (lines
      33-79, the interactive answers or the command-line arguments, with
      Python's [int] as a section parameter), [startup] (the two folders
      and files, in the code's order, over an explicit working directory:
      which folders exist and the text of each file), [emulate] (lines
      82-92: parse and print the automaton, run, print the trace and the
      verdict) and [main], the whole script.

    What the theorems show, by file:
    - [Main.v]: the whole program refines the specification: on a file
      [parseFile] accepts, the verdict printed is ["Accepted"] exactly when
      the machine over the flat transition map accepts the tokenised
      input; its only errors are the parser's and [InputStringError];
      with verbosity off it still prints the six lines of the automaton; the
      start-up fails in the code's order (one argument, then the
      definitions folder, then the definition file); how the arguments
      set verbosity and separator (and that a separator argument turns
      verbosity off).
    - [Spec.v]: [getNextState], [epsilonClosure] and [runPDA] compute
      exactly the machine's moves and acceptance for every rule table
      obeying the laws; the nested and flat tables give the same runs;
      [runPDA]'s exceptions.
    - [Parser.v]: the loop equals the specification's pipeline
      (preprocessor, parser, validator); the dispatch on section names
      refines the specification's parser over a closed variant of
      sections ([spec_parse]); it raises only [ValueError] (never
      [IndexError]); a [Rules] line overwrites its key (last write wins);
      the parser keeps the rule dictionary well formed and free of ["ε"],
      so what [parseFile] returns meets every assumption of the engine's
      theorems; what line 200 prints is the automaton [parseFile] returns
      and reading it back gives that automaton (for a file of code
      points, whose automaton is made of code points); concrete files (scenario A, scenario D, a
      mojibake file, names with quotes printed as CPython prints them).
    - [Dump.v]: [str_unrepr] inverts [str_repr], the list and dictionary
      readers invert [repr] of their items, [undump] inverts
      [printPDADataStructures], so two automata that print the same are
      equal.
    - [Comments.v]: cleaned lines are non-empty and free of ["#"], lines
      inside an open block comment vanish, and the two cases where the
      code and section 4.1 of the specification part, for every line: a
      line whose last [/*] follows its last [*/] is kept whole and opens
      a comment, and the text after a closing [*/] is passed on without
      looking for a new [/*].
    - [Scenarios.v]: the code's unexpected cases as general theorems (a
      start state named ["None"] is always rejected, an empty input under
      a separator raises [InputStringError]) and the scenarios of the
      specification evaluated.
    - [Utf8.v]: [fixUtf8Corruption] inverts the Latin-1 reading of UTF-8
      text and leaves ASCII and wide text alone.
    - [Validator.v]: [isPDAValid] accepts exactly the automata satisfying
      the data-model invariants, every exception names a real defect, and
      it never returns [False].
    - [Invariants.v]: runs keep the configuration declared, never put
      ["epsilon"] on the stack, grow the stack by at most one symbol per
      move, and print a trace of known length (which leaves out the state
      the first epsilon move reaches).

    Bounds and fuel: every definition is structurally recursive except
    [split], which runs on fuel [length s + 1]; [split_fuel_enough] proves
    that any larger fuel gives the same result, so the fuel never cuts a
    split short.  The literal reader of [Dump.v] runs on fuel: [unquote]
    takes a step per character and [seq_items] a step per item, each given
    the length of its input; the round-trip lemmas hold for any fuel at
    least the number of characters or items, and [repr_body_length] and
    [join_enc_length] show that the length of the printed text is that
    much.  Every loop of the program is a [for] over a finite list (the
    lines of the file, the input's symbols, the keys of a dictionary), so
    every definition is structurally recursive and every run terminates;
    no theorem is needed for it ([runPDA_accepts] states that a run
    returns its verdict).  Integers are
    code points and bytes, kept in [Z] with their ranges stated where they
    matter ([0 <= b < 256] for Latin-1, the scalar values for UTF-8).

    Not modelled: the lines printed before an exception (a run that raises
    returns its error only; the printed lines of a run that completes are
    returned as a list); [str.isprintable] beyond its parameter; of the
    file system, only which folders exist and the
    text of each file are modelled (paths are names inside the two
    folders; [open] errors other than a missing file are outside the
    model); the newline translation of text mode ([parseFile] is given the
    translated text).  [int] is a parameter, and the Unicode case tables
    are used only where the code compares their result with fixed ASCII
    words; the comments of [lower] and [upper] say why the partial tables
    decide those comparisons exactly.

    This file holds what every component shares: the result monad that
    models Python exceptions, its notation, the hint databases [pda] and
    [parser], the tactics, and generic lemmas on lists and booleans. *)

From Stdlib Require Export ZArith String Ascii.
From stdpp Require Export base list gmap strings decidable.

(** ** Results: a value or a raised exception *)

Inductive result (E A : Type) : Type :=
| Ok (a : A)
| Err (e : E).
Arguments Ok {E A} a.
Arguments Err {E A} e.

Definition bind {E A B} (r : result E A) (k : A -> result E B) : result E B :=
  match r with
  | Ok a => k a
  | Err e => Err e
  end.

Declare Scope result_scope.
Delimit Scope result_scope with result.
Notation "'let*' x ':=' c 'in' k" := (bind c (fun x => k))
  (at level 10, x name, c at level 100, k at level 200) : result_scope.
Notation "'raise' e" := (Err e) (at level 10, e at level 9) : result_scope.
Open Scope result_scope.

(** [for x in xs: body(x)] where the body may raise: the first exception
    stops the loop. *)
Fixpoint for_each {E A} (body : A -> result E unit) (xs : list A) : result E unit :=
  match xs with
  | [] => Ok tt
  | x :: xs' => let* _ := body x in for_each body xs'
  end.

Lemma bind_Ok {E A B} (r : result E A) (k : A -> result E B) b :
  bind r k = Ok b <-> exists a, r = Ok a /\ k a = Ok b.
Proof. destruct r; simpl; split; [eauto|intros (?&?&?); congruence|done|intros (?&?&?); done]. Qed.

Lemma bind_Err {E A B} (r : result E A) (k : A -> result E B) e :
  bind r k = Err e <-> r = Err e \/ exists a, r = Ok a /\ k a = Err e.
Proof.
  destruct r; simpl; split.
  - eauto.
  - intros [?|(?&?&?)]; congruence.
  - intros [=->]. auto.
  - intros [?|(?&?&?)]; congruence.
Qed.

Lemma for_each_Ok {E A} (body : A -> result E unit) xs :
  for_each body xs = Ok tt <-> forall x, x ∈ xs -> body x = Ok tt.
Proof.
  rewrite <- list.Forall_forall.
  induction xs as [|x xs IH]; simpl; [split; auto|].
  rewrite Forall_cons_iff, <- IH. destruct (body x) as [[]|e]; simpl; split;
    intuition congruence.
Qed.

Lemma for_each_Err {E A} (body : A -> result E unit) xs e :
  for_each body xs = Err e -> exists x, x ∈ xs /\ body x = Err e.
Proof.
  induction xs as [|x xs IH]; simpl; [done|].
  destruct (body x) as [[]|e'] eqn:Hx; simpl.
  - intros H. destruct (IH H) as (y&?&?). exists y. split; [by right|done].
  - intros [=->]. exists x. split; [left|done].
Qed.

(** Every value of a loop body is [Ok tt] or an exception. *)
Lemma result_unit_cases {E} (r : result E unit) : r = Ok tt \/ exists e, r = Err e.
Proof. destruct r as [[]|e]; eauto. Qed.

(** ** Generic list lemmas *)

Lemma removelast_snoc {A} (l : list A) (x : A) : removelast (l ++ [x]) = l.
Proof. apply removelast_last. Qed.

Lemma removelast_length {A} (l : list A) : length (removelast l) = pred (length l).
Proof.
  induction l as [|x [|y l] IH]; simpl in *; auto.
Qed.

Lemma elem_of_removelast {A} (l : list A) x : x ∈ removelast l -> x ∈ l.
Proof.
  induction l as [|y l IH]; simpl; [done|].
  destruct l as [|z l]; [set_solver|].
  rewrite elem_of_cons. intros [->|H]; [left|]. right. by apply IH.
Qed.

(** [List.last l d] is Python's [l[-1]] on a non-empty list. *)
Lemma last_elem_of {A} (l : list A) (d : A) : l <> [] -> List.last l d ∈ l.
Proof.
  intros Hne. rewrite (app_removelast_last d Hne) at 2. set_solver.
Qed.


(** ** Automation *)

Create HintDb pda discriminated.
Create HintDb parser discriminated.
#[export] Hint Resolve elem_of_removelast last_elem_of : pda.
Create Rewrite HintDb pda_rw.
#[export] Hint Rewrite @removelast_snoc @last_last : pda_rw.

(** Split the [if]s and [match]es of a goal produced by unfolding a model,
    naming the equations. *)
Ltac case_splits :=
  repeat match goal with
  | |- context [if ?b then _ else _] => let E := fresh "E" in destruct b eqn:E
  | |- context [match ?x with _ => _ end] =>
      lazymatch x with
      | context [match _ with _ => _ end] => fail
      | _ => let E := fresh "E" in destruct x eqn:E
      end
  end.

(** Case on the first [if] of the goal, keeping its equation as [E]. *)
Ltac case_if_eq E :=
  match goal with |- context [if ?b then _ else _] => destruct b eqn:E end.

(** Turn [bool_decide] equations and negations in the context into
    propositions. *)
Ltac bool_props :=
  repeat match goal with
  | H : bool_decide _ = true |- _ => apply bool_decide_eq_true_1 in H
  | H : bool_decide _ = false |- _ => apply bool_decide_eq_false_1 in H
  | H : negb _ = true |- _ => apply negb_true_iff in H
  | H : negb _ = false |- _ => apply negb_false_iff in H
  | H : (_ && _)%bool = true |- _ => apply andb_prop in H as [? ?]
  | H : (_ || _)%bool = false |- _ => apply orb_false_iff in H as [? ?]
  | H : (_ && _)%bool = false |- _ => apply andb_false_iff in H as [?|?]
  | H : (_ || _)%bool = true |- _ => apply orb_true_iff in H as [?|?]
  end.

(** Case on every [if] of the goal, in order. *)
Ltac case_ifs := repeat (let E := fresh "E" in case_if_eq E).

(** Decide the comparisons of a goal on integers by [lia]. *)
Ltac zbool :=
  repeat match goal with
  | |- context [(?a <=? ?b)%Z] =>
      first [ rewrite (proj2 (Z.leb_le a b)) by lia | rewrite (proj2 (Z.leb_gt a b)) by lia ]
  | |- context [(?a <? ?b)%Z] =>
      first [ rewrite (proj2 (Z.ltb_lt a b)) by lia | rewrite (proj2 (Z.ltb_ge a b)) by lia ]
  | |- context [(?a =? ?b)%Z] =>
      first [ rewrite (proj2 (Z.eqb_eq a b)) by lia | rewrite (proj2 (Z.eqb_neq a b)) by lia ]
  end.

(** Turn the integer tests of the context into propositions. *)
Ltac zprops :=
  repeat match goal with
  | H : (_ =? _)%Z = true |- _ => apply Z.eqb_eq in H
  | H : (_ =? _)%Z = false |- _ => apply Z.eqb_neq in H
  | H : (_ <? _)%Z = true |- _ => apply Z.ltb_lt in H
  | H : (_ <? _)%Z = false |- _ => apply Z.ltb_ge in H
  | H : (_ <=? _)%Z = true |- _ => apply Z.leb_le in H
  | H : (_ <=? _)%Z = false |- _ => apply Z.leb_gt in H
  end.
