(* ===== verification/PyStr.v ===== *)
(** Python's [str] as the program uses it.  A Python string is a sequence
    of Unicode code points; [pystr] is the list of those code points.  The
    operations are the built-in methods [PDA.py] calls: [strip],
    [startswith], [in], [find], [rfind], [index], slicing [s[a:b]],
    [split(sep)], [lower] (only compared with ["epsilon"]) and [upper]
    (only compared with ["SPACE"] and ["NOSEPARATOR"], in
    [emulatePDA.py]).  Then lemmas on them, and [infix], the contiguous
    substring relation that [strip] and slicing keep, and [code_points],
    the range of the characters of a [str]. *)

From S2P Require Import Prelude.

Local Open Scope Z_scope.

Definition pystr := list Z.

(** A string literal of the source, written in ASCII. *)
Definition py (s : string) : pystr :=
  map (fun a => Z.of_nat (nat_of_ascii a)) (list_ascii_of_string s).

(** [c.isspace()] for one code point: Python's whitespace characters
    (bidirectional class WS, B or S, or category Zs). *)
Definition is_space (c : Z) : bool :=
  ((9 <=? c) && (c <=? 13)) || ((28 <=? c) && (c <=? 32)) || (c =? 133)
  || (c =? 160) || (c =? 5760) || ((8192 <=? c) && (c <=? 8202))
  || (c =? 8232) || (c =? 8233) || (c =? 8239) || (c =? 8287) || (c =? 12288).

Fixpoint lstrip (s : pystr) : pystr :=
  match s with
  | [] => []
  | c :: s' => if is_space c then lstrip s' else s
  end.

Definition rstrip (s : pystr) : pystr := rev (lstrip (rev s)).

(** [s.strip()] *)
Definition strip (s : pystr) : pystr := rstrip (lstrip s).

(** [s.startswith(p)] *)
Fixpoint startswith (s p : pystr) : bool :=
  match p, s with
  | [], _ => true
  | c :: p', d :: s' => (c =? d) && startswith s' p'
  | _ :: _, [] => false
  end.

(** The first index at which [sub] occurs in [s]. *)
Fixpoint find_idx (s sub : pystr) : option nat :=
  if startswith s sub then Some 0%nat
  else match s with
       | [] => None
       | _ :: s' => S <$> find_idx s' sub
       end.

(** The last index at which [sub] occurs in [s]. *)
Fixpoint rfind_idx (s sub : pystr) : option nat :=
  match s with
  | [] => if startswith [] sub then Some 0%nat else None
  | _ :: s' =>
      match rfind_idx s' sub with
      | Some n => Some (S n)
      | None => if startswith s sub then Some 0%nat else None
      end
  end.

(** [sub in s] *)
Definition contains (s sub : pystr) : bool :=
  match find_idx s sub with Some _ => true | None => false end.

(** [s.find(sub)] and [s.rfind(sub)]: the index, or [-1]. *)
Definition find (s sub : pystr) : Z :=
  match find_idx s sub with Some n => Z.of_nat n | None => -1 end.
Definition rfind (s sub : pystr) : Z :=
  match rfind_idx s sub with Some n => Z.of_nat n | None => -1 end.

(** Python's normalisation of a slice bound against the length [n]. *)
Definition slice_bound (i n : Z) : Z :=
  if i <? 0 then Z.max 0 (i + n) else Z.min i n.

(** [s[a:b]]; [s[:b]] is [s[0:b]] and [s[a:]] is [s[a:len(s)]]. *)
Definition slice (s : pystr) (a b : Z) : pystr :=
  let n := Z.of_nat (length s) in
  let a' := slice_bound a n in
  let b' := slice_bound b n in
  take (Z.to_nat (b' - a')) (drop (Z.to_nat a') s).
Definition slice_to (s : pystr) (b : Z) : pystr := slice s 0 b.
Definition slice_from (s : pystr) (a : Z) : pystr := slice s a (Z.of_nat (length s)).

(** [s.split(sep)] for a non-empty [sep]: cut at each occurrence of [sep],
    from left to right.  Each round removes at least one character, so
    [length s + 1] rounds are enough ([split_fuel_enough]). *)
Fixpoint split_fuel (fuel : nat) (s sep : pystr) : list pystr :=
  match fuel with
  | O => [s]
  | S fuel' =>
      match find_idx s sep with
      | Some i => take i s :: split_fuel fuel' (drop (i + length sep) s) sep
      | None => [s]
      end
  end.
Definition split (s sep : pystr) : list pystr := split_fuel (S (length s)) s sep.

(** ["x".join(parts)] *)
Fixpoint join (sep : pystr) (parts : list pystr) : pystr :=
  match parts with
  | [] => []
  | [p] => p
  | p :: ps => p ++ sep ++ join sep ps
  end.

(** [s.lower()], on the code points that can lower to an ASCII letter.
    The program only tests [x.lower() == "epsilon"]; among Unicode
    characters only 'A'-'Z' lower to a single letter of "epsilon" (U+0130
    lowers to two code points, the Kelvin sign to 'k'), so lowering the
    ASCII capitals decides that comparison exactly. *)
Definition lower (s : pystr) : pystr :=
  map (fun c => if (65 <=? c) && (c <=? 90) then c + 32 else c) s.

(** [s.upper()], on the code points that can upper to an ASCII letter.
    The program only tests [s.upper() == "SPACE"] and [== "NOSEPARATOR"].
    Besides 'a'-'z', the characters whose upper case is one ASCII letter
    are U+017F (long s, to 'S') and U+0131 (dotless i, to 'I'); those
    whose upper case is several ASCII letters (U+00DF to "SS", the
    ligatures U+FB00-U+FB06 to "FF", "FI", "FL", "FFI", "FFL", "ST")
    cannot occur in these two words, and every other upper case keeps a
    character outside ASCII.  So this map decides the two comparisons
    exactly. *)
Definition upper (s : pystr) : pystr :=
  map (fun c => if (97 <=? c) && (c <=? 122) then c - 32
                else if c =? 383 then 83 else if c =? 305 then 73 else c) s.

(** [x in xs] for a list of strings. *)
Definition py_in (x : pystr) (xs : list pystr) : bool := bool_decide (x ∈ xs).

(** [t] occurs contiguously in [s]: what [strip], slicing and the
    comment stripping of [parseFile] keep of a line. *)
Definition infix (t s : pystr) : Prop := exists k l, s = k ++ t ++ l.

(** A Python [str] holds code points [0 <= c <= 0x10FFFF]. *)
Definition code_point (ch : Z) : bool := (0 <=? ch) && (ch <? 1114112).

Definition code_points (s : pystr) : bool := forallb code_point s.

(** ** Lemmas *)

Lemma startswith_spec (s p : pystr) : startswith s p = true <-> exists r, s = p ++ r.
Proof.
  revert s. induction p as [|c p IH]; intros [|d s]; simpl.
  - split; eauto.
  - split; eauto.
  - split; [done|]. intros (r&?). done.
  - rewrite andb_true_iff, Z.eqb_eq, IH. split.
    + intros [-> (r&->)]. eauto.
    + intros (r&[=-> ->]). eauto.
Qed.

Lemma startswith_app (p r : pystr) : startswith (p ++ r) p = true.
Proof. apply startswith_spec. eauto. Qed.

Lemma find_idx_Some (s sub : pystr) i :
  find_idx s sub = Some i -> exists r, s = take i s ++ sub ++ r.
Proof.
  revert i. induction s as [|c s IH]; intros i; cbn [find_idx]; case_if_eq E.
  1,3: intros [=<-]; apply startswith_spec in E as (r&?); exists r; by rewrite take_0.
  - done.
  - destruct (find_idx s sub) as [j|] eqn:Ej; simpl; [|done].
    intros [=<-]. destruct (IH j eq_refl) as (r&Hr). exists r. simpl. by rewrite Hr at 1.
Qed.

Lemma find_idx_le (s sub : pystr) i :
  find_idx s sub = Some i -> (i + length sub <= length s)%nat.
Proof.
  revert i. induction s as [|c s IH]; intros i; cbn [find_idx]; case_if_eq E.
  1,3: intros [=<-]; apply startswith_spec in E as (r&->); rewrite length_app; lia.
  - done.
  - destruct (find_idx s sub) as [j|] eqn:Ej; simpl; [|done].
    intros [=<-]. specialize (IH j eq_refl). lia.
Qed.

(** [find] returns the first occurrence: no earlier index matches. *)
Lemma find_idx_first (s sub : pystr) i :
  find_idx s sub = Some i -> forall j, (j < i)%nat -> startswith (drop j s) sub = false.
Proof.
  revert i. induction s as [|c s IH]; intros i; cbn [find_idx]; case_if_eq E.
  - intros [=<-]. lia.
  - done.
  - intros [=<-]. lia.
  - destruct (find_idx s sub) as [k|] eqn:Ek; simpl; [|done].
    intros [=<-] [|j] Hj; simpl; [done|]. apply (IH k); [done|lia].
Qed.

Lemma find_idx_None (s sub : pystr) :
  find_idx s sub = None -> forall j, startswith (drop j s) sub = false.
Proof.
  induction s as [|c s IH]; cbn [find_idx]; case_if_eq E; try done.
  - intros _ j. by rewrite drop_nil.
  - destruct (find_idx s sub); simpl; [done|]. intros _ [|j]; simpl; auto.
Qed.

Lemma contains_spec (s sub : pystr) :
  contains s sub = true <-> exists l r, s = l ++ sub ++ r.
Proof.
  unfold contains. split.
  - destruct (find_idx s sub) as [i|] eqn:E; [|done]. intros _.
    destruct (find_idx_Some _ _ _ E) as (r&?). eauto.
  - intros (l&r&->). destruct (find_idx _ sub) eqn:E; [done|].
    pose proof (find_idx_None _ _ E (length l)) as H.
    rewrite drop_app_length, startswith_app in H. done.
Qed.

(** [split_fuel] with more fuel than the length of the string. *)
Lemma split_fuel_enough (n m : nat) (s sep : pystr) :
  sep <> [] -> (length s < n)%nat -> (length s < m)%nat ->
  split_fuel n s sep = split_fuel m s sep.
Proof.
  intros Hsep. revert m s. induction n as [|n IH]; intros [|m] s Hn Hm; try lia.
  simpl. destruct (find_idx s sep) as [i|] eqn:E; [|done]. f_equal.
  apply find_idx_le in E. destruct sep; [done|]. simpl in E.
  apply IH; rewrite length_drop; simpl; lia.
Qed.

Lemma split_unfold (s sep : pystr) : sep <> [] ->
  split s sep =
  match find_idx s sep with
  | Some i => take i s :: split (drop (i + length sep) s) sep
  | None => [s]
  end.
Proof.
  intros Hsep. unfold split at 1. simpl.
  destruct (find_idx s sep) as [i|] eqn:E; [|done]. f_equal.
  apply find_idx_le in E. destruct sep; [done|]. simpl in E.
  unfold split. apply split_fuel_enough; [done|rewrite length_drop; simpl; lia|lia].
Qed.

Lemma split_not_nil (s sep : pystr) : sep <> [] -> split s sep <> [].
Proof. intros Hsep. rewrite split_unfold by done. by destruct (find_idx s sep). Qed.

(** [sep.join(s.split(sep)) == s]: splitting loses nothing. *)
Lemma join_split (s sep : pystr) : sep <> [] -> join sep (split s sep) = s.
Proof.
  intros Hsep. induction s as [s IH] using (induction_ltof1 _ (@length Z)).
  rewrite split_unfold by done. destruct (find_idx s sep) as [i|] eqn:E; [|done].
  destruct (find_idx_Some _ _ _ E) as (r & Hr).
  assert (drop (i + length sep) s = r) as Hd.
  { rewrite Hr at 1. rewrite drop_app_add'; [|rewrite length_take; pose proof (find_idx_le _ _ _ E); lia].
    by rewrite drop_app_length. }
  pose proof (split_not_nil (drop (i + length sep) s) sep Hsep) as Hne.
  destruct (split (drop (i + length sep) s) sep) as [|p ps] eqn:Hs; [done|].
  change (join sep (take i s :: p :: ps)) with (take i s ++ sep ++ join sep (p :: ps)).
  rewrite <- Hs, IH; [by rewrite Hd|].
  unfold ltof. rewrite length_drop. pose proof (find_idx_le _ _ _ E).
  destruct sep; [done|simpl in *; lia].
Qed.

(** ** Substrings *)

Lemma infix_refl (s : pystr) : infix s s.
Proof. exists [], []. by rewrite app_nil_r. Qed.

Lemma infix_trans (r s t : pystr) : infix r s -> infix s t -> infix r t.
Proof. intros (k1 & l1 & ->) (k2 & l2 & ->). exists (k2 ++ k1), (l1 ++ l2). by rewrite !app_assoc. Qed.

Lemma infix_elem_of (t s : pystr) c : infix t s -> c ∈ t -> c ∈ s.
Proof. intros (k & l & ->) Hc. set_solver. Qed.

Lemma infix_contains (t s sub : pystr) :
  infix t s -> contains t sub = true -> contains s sub = true.
Proof.
  intros (k & l & ->) (k' & l' & ->)%contains_spec. apply contains_spec.
  exists (k ++ k'), (l' ++ l). by rewrite !app_assoc.
Qed.

Lemma lstrip_suffix (s : pystr) : exists k, s = k ++ lstrip s /\ Forall (fun c => is_space c = true) k.
Proof.
  induction s as [|c s (k & Hk & Hsp)]; simpl; [by exists []|].
  destruct (is_space c) eqn:Hc; [|by exists []]. exists (c :: k). simpl. rewrite <- Hk. split; [done|by constructor].
Qed.

Lemma lstrip_head (s : pystr) c r : lstrip s = c :: r -> is_space c = false.
Proof.
  induction s as [|d s IH]; simpl; [done|].
  destruct (is_space d) eqn:Hd; [done|]. by intros [=<- _].
Qed.

Lemma lstrip_nil (s : pystr) : lstrip s = [] <-> Forall (fun c => is_space c = true) s.
Proof.
  induction s as [|c s IH]; simpl; [split; constructor|].
  rewrite Forall_cons_iff, <- IH. destruct (is_space c); naive_solver.
Qed.

Lemma strip_infix (s : pystr) : infix (strip s) s.
Proof.
  unfold strip, rstrip. destruct (lstrip_suffix s) as (k & Hk & _).
  destruct (lstrip_suffix (rev (lstrip s))) as (k' & Hk' & _).
  exists k, (rev k'). rewrite Hk at 1. f_equal.
  rewrite <- (rev_involutive (lstrip s)) at 1. rewrite Hk' at 1. by rewrite rev_app_distr.
Qed.

Lemma strip_nil (s : pystr) : strip s = [] <-> Forall (fun c => is_space c = true) s.
Proof.
  unfold strip, rstrip. destruct (lstrip_suffix s) as (k & Hk & Hsp).
  split.
  - intros Hnil. apply (f_equal length) in Hnil. rewrite length_rev in Hnil.
    apply nil_length_inv, lstrip_nil, Forall_rev in Hnil.
    rewrite rev_involutive in Hnil. rewrite Hk. by apply Forall_app.
  - intros Hall. rewrite Hk in Hall. apply Forall_app in Hall as [_ Hall].
    by rewrite (proj2 (lstrip_nil (rev (lstrip s)))) by (by apply Forall_rev).
Qed.

Lemma strip_head (s : pystr) c r : strip s = c :: r -> is_space c = false.
Proof.
  unfold strip, rstrip. destruct (lstrip s) as [|d t] eqn:Hl; [done|]. intros Hs.
  destruct (lstrip_suffix (rev (d :: t))) as (k & Hk & _).
  apply (f_equal (@rev Z)) in Hk. rewrite rev_involutive, rev_app_distr, Hs in Hk.
  simpl in Hk. injection Hk as <- _. by apply (lstrip_head s d t).
Qed.

(** A string with a character that is not whitespace does not strip to
    the empty string. *)
Lemma strip_not_nil (s : pystr) c : c ∈ s -> is_space c = false -> strip s <> [].
Proof.
  intros Hc Hsp Hnil. apply strip_nil in Hnil. rewrite list.Forall_forall in Hnil.
  rewrite (Hnil c Hc) in Hsp. done.
Qed.

Lemma slice_infix (s : pystr) a b : infix (slice s a b) s.
Proof.
  unfold slice. set (i := Z.to_nat (slice_bound a _)). set (n := Z.to_nat (_ - _)).
  exists (take i s), (drop n (drop i s)). by rewrite !take_drop.
Qed.

Lemma slice_0 (s : pystr) (i : nat) : slice s 0 (Z.of_nat i) = take i s.
Proof.
  unfold slice, slice_bound.
  rewrite (proj2 (Z.ltb_ge (Z.of_nat i) 0)) by lia.
  replace (Z.min 0 _) with 0%Z by lia. rewrite drop_0.
  replace (Z.to_nat (Z.min (Z.of_nat i) _ - 0)) with (Nat.min i (length s)) by lia.
  destruct (Nat.min_spec i (length s)) as [[_ ->]|[? ->]]; [done|].
  by rewrite !take_ge by lia.
Qed.

(** ** Code points *)

Lemma code_points_incl (t s : pystr) :
  (forall c, c ∈ t -> c ∈ s) -> code_points s = true -> code_points t = true.
Proof.
  unfold code_points. rewrite !forallb_forall. intros Hts Hs c Hc.
  apply Hs, list_elem_of_In, Hts, list_elem_of_In, Hc.
Qed.

Lemma code_points_infix (t s : pystr) : infix t s -> code_points s = true -> code_points t = true.
Proof. intros Hinf. apply code_points_incl. intros c. by apply infix_elem_of. Qed.

Lemma code_points_app (s t : pystr) : code_points (s ++ t) = code_points s && code_points t.
Proof. apply forallb_app. Qed.

Lemma code_points_concat (ls : list pystr) : code_points (concat ls) = forallb code_points ls.
Proof. induction ls as [|l ls IH]; [done|]. simpl. by rewrite code_points_app, IH. Qed.

Lemma code_points_Forall (s : pystr) : code_points s = true <-> Forall (fun c => 0 <= c < 1114112) s.
Proof.
  unfold code_points, code_point. rewrite forallb_forall, list.Forall_forall.
  split; intros H c Hc; [apply list_elem_of_In in Hc|apply list_elem_of_In in Hc];
    specialize (H c Hc); [bool_props; zprops; lia|apply andb_true_intro; split; zbool; lia].
Qed.
