(* ===== verification/Utf8.v ===== *)
(** [fixUtf8Corruption] ([PDA.py] lines 46-60): [s.encode("latin1")
    .decode("utf-8")], or [s] itself when either step raises.  Latin-1
    encoding maps each code point below 256 to the byte of the same value
    and fails on any other; UTF-8 decoding is Python's strict decoder,
    which accepts exactly the well-formed byte sequences of the Unicode
    standard (table 3-7: no overlong forms, no surrogates, nothing above
    U+10FFFF, no truncated sequence).  The theorems: the function repairs
    a UTF-8 text that was read as Latin-1, leaves ASCII and text with a
    character above U+00FF unchanged, and the decoder inverts the encoder. *)

From S2P Require Import Prelude PyStr.

Local Open Scope Z_scope.

(** [s.encode("latin1")] *)
Definition latin1_encode (s : pystr) : option (list Z) :=
  if forallb (fun c => (0 <=? c) && (c <? 256)) s then Some s else None.

(** A continuation byte [10xxxxxx], and its six bits. *)
Definition cont (b : Z) : bool := (128 <=? b) && (b <=? 191).
Definition low6 (b : Z) : Z := b - 128.

(** The range of the second byte of a three- or four-byte sequence,
    which depends on the first (table 3-7). *)
Definition second3_ok (b0 b1 : Z) : bool :=
  if b0 =? 224 then (160 <=? b1) && (b1 <=? 191)
  else if b0 =? 237 then (128 <=? b1) && (b1 <=? 159)
  else cont b1.
Definition second4_ok (b0 b1 : Z) : bool :=
  if b0 =? 240 then (144 <=? b1) && (b1 <=? 191)
  else if b0 =? 244 then (128 <=? b1) && (b1 <=? 143)
  else cont b1.

(** [bytes.decode("utf-8")]: [None] is the [UnicodeDecodeError]. *)
Fixpoint utf8_decode (bs : list Z) : option pystr :=
  match bs with
  | [] => Some []
  | b0 :: rest =>
      if (0 <=? b0) && (b0 <=? 127) then cons b0 <$> utf8_decode rest
      else if (194 <=? b0) && (b0 <=? 223) then
        match rest with
        | b1 :: rest' =>
            if cont b1 then cons ((b0 - 192) * 64 + low6 b1) <$> utf8_decode rest'
            else None
        | [] => None
        end
      else if (224 <=? b0) && (b0 <=? 239) then
        match rest with
        | b1 :: b2 :: rest' =>
            if second3_ok b0 b1 && cont b2 then
              cons ((b0 - 224) * 4096 + low6 b1 * 64 + low6 b2) <$> utf8_decode rest'
            else None
        | _ => None
        end
      else if (240 <=? b0) && (b0 <=? 244) then
        match rest with
        | b1 :: b2 :: b3 :: rest' =>
            if second4_ok b0 b1 && cont b2 && cont b3 then
              cons ((b0 - 240) * 262144 + low6 b1 * 4096 + low6 b2 * 64 + low6 b3)
                <$> utf8_decode rest'
            else None
        | _ => None
        end
      else None
  end.

(** Lines 46-60 *)
Definition fixUtf8Corruption (possiblyCorruptedString : pystr) : pystr :=
  match latin1_encode possiblyCorruptedString with
  | Some bs =>
      match utf8_decode bs with
      | Some s => s
      | None => possiblyCorruptedString
      end
  | None => possiblyCorruptedString
  end.

(** ** The encoder the decoder inverts *)

(** A Unicode scalar value: a code point that is not a surrogate. *)
Definition scalar (c : Z) : Prop := 0 <= c <= 1114111 /\ ~ (55296 <= c <= 57343).

Definition utf8_encode_char (c : Z) : list Z :=
  if c <? 128 then [c]
  else if c <? 2048 then [192 + c / 64; 128 + c mod 64]
  else if c <? 65536 then [224 + c / 4096; 128 + (c / 64) mod 64; 128 + c mod 64]
  else [240 + c / 262144; 128 + (c / 4096) mod 64; 128 + (c / 64) mod 64; 128 + c mod 64].

Definition utf8_encode (s : pystr) : list Z := concat (map utf8_encode_char s).

(** ** Theorems *)

(** The quotient and remainder facts of every division by a positive
    constant in the goal, for [lia]. *)
Ltac add_divmod a b :=
  lazymatch goal with
  | _ : a = b * (a / b) + a mod b |- _ => fail
  | _ => pose proof (Z.div_mod a b ltac:(discriminate));
         pose proof (Z.mod_pos_bound a b ltac:(reflexivity))
  end.
Ltac divmod :=
  repeat match goal with
  | |- context [?a / ?b] => add_divmod a b
  | |- context [?a mod ?b] => add_divmod a b
  | _ : context [?a / ?b] |- _ => add_divmod a b
  | _ : context [?a mod ?b] |- _ => add_divmod a b
  end.

Lemma utf8_decode_char (c : Z) rest :
  scalar c -> utf8_decode (utf8_encode_char c ++ rest) = cons c <$> utf8_decode rest.
Proof.
  intros [Hc Hs]. unfold utf8_encode_char.
  destruct (Z.ltb_spec c 128); [simpl; by zbool|].
  destruct (Z.ltb_spec c 2048).
  { simpl. unfold cont, low6. divmod. zbool. simpl.
    by replace ((192 + c / 64 - 192) * 64 + (128 + c mod 64 - 128)) with c by lia. }
  destruct (Z.ltb_spec c 65536).
  { simpl. unfold second3_ok, cont, low6. divmod. zbool. simpl.
    destruct (Z.eqb_spec (224 + c / 4096) 224); [zbool|];
      (destruct (Z.eqb_spec (224 + c / 4096) 237); [zbool|]); zbool; simpl;
      by replace ((224 + c / 4096 - 224) * 4096 + (128 + c / 64 mod 64 - 128) * 64 +
                  (128 + c mod 64 - 128)) with c by lia. }
  simpl. unfold second4_ok, cont, low6. divmod. zbool. simpl.
  destruct (Z.eqb_spec (240 + c / 262144) 240); [zbool|];
    (destruct (Z.eqb_spec (240 + c / 262144) 244); [zbool|]); zbool; simpl;
    by replace ((240 + c / 262144 - 240) * 262144 + (128 + c / 4096 mod 64 - 128) * 4096 +
                (128 + c / 64 mod 64 - 128) * 64 + (128 + c mod 64 - 128)) with c by lia.
Qed.

Lemma utf8_decode_encode (s : pystr) :
  Forall scalar s -> utf8_decode (utf8_encode s) = Some s.
Proof.
  induction 1 as [|c s Hc Hs IH]; [done|].
  unfold utf8_encode in *. simpl. rewrite utf8_decode_char by done. by rewrite IH.
Qed.

Lemma utf8_encode_char_bytes (c : Z) :
  scalar c -> Forall (fun b => 0 <= b < 256) (utf8_encode_char c).
Proof.
  intros [Hc Hs]. unfold utf8_encode_char. divmod.
  destruct (Z.ltb_spec c 128), (Z.ltb_spec c 2048), (Z.ltb_spec c 65536);
    repeat first [apply Forall_nil | apply Forall_cons; [lia|]].
Qed.

Lemma latin1_encode_bytes (bs : list Z) :
  Forall (fun b => 0 <= b < 256) bs -> latin1_encode bs = Some bs.
Proof.
  intros Hbs. unfold latin1_encode. replace (forallb _ bs) with true; [done|].
  symmetry. apply forallb_forall. intros b Hb%list_elem_of_In.
  rewrite list.Forall_forall in Hbs. destruct (Hbs b Hb). zbool. done.
Qed.

Lemma utf8_decode_ascii (s : pystr) :
  Forall (fun c => 0 <= c < 128) s -> utf8_decode s = Some s.
Proof. induction 1 as [|c s Hc Hs IH]; [done|]. simpl. zbool. simpl. by rewrite IH. Qed.

(** What the decoder returns is Unicode scalar values: the ranges of
    table 3-7 exclude overlong forms, surrogates and values above
    [U+10FFFF]. *)
Lemma utf8_decode_scalar (bs : list Z) s : utf8_decode bs = Some s -> Forall scalar s.
Proof.
  revert s. induction bs as [bs IH] using (induction_ltof1 _ (@length Z)); intros s Hd.
  destruct bs as [|b0 rest]; simpl in Hd; [injection Hd as <-; constructor|].
  unfold second3_ok, second4_ok, cont, low6 in Hd.
  repeat match type of Hd with
  | context [if ?b then _ else _] => let E := fresh "E" in destruct b eqn:E; try discriminate
  | context [match ?l with [] => _ | _ :: _ => _ end] => destruct l; try discriminate
  end; bool_props; zprops;
    (destruct (utf8_decode _) as [s'|] eqn:Hs'; [injection Hd as <-|discriminate]);
    (constructor; [unfold scalar; lia|]);
    (eapply IH; [|exact Hs']); unfold ltof; simpl; lia.
Qed.

(** [fixUtf8Corruption] returns a [str]: code points in, code points
    out. *)
Lemma fixUtf8Corruption_code_points (s : pystr) :
  code_points s = true -> code_points (fixUtf8Corruption s) = true.
Proof.
  intros Hs. unfold fixUtf8Corruption.
  destruct (latin1_encode s) as [bs|]; [|done].
  destruct (utf8_decode bs) as [s'|] eqn:Hd; [|done].
  apply code_points_Forall. eapply list.Forall_impl; [by apply utf8_decode_scalar in Hd|].
  unfold scalar. lia.
Qed.

(** C19: [fixUtf8Corruption] repairs mojibake: a text whose UTF-8 bytes were
    read as Latin-1 characters (each byte became the code point of the same
    value, as ["Îµ"] for ["ε"]) is turned back into the text. *)
Theorem fixUtf8Corruption_repairs (s : pystr) :
  Forall scalar s -> fixUtf8Corruption (utf8_encode s) = s.
Proof.
  intros Hs. unfold fixUtf8Corruption.
  rewrite latin1_encode_bytes.
  - by rewrite utf8_decode_encode.
  - unfold utf8_encode. apply Forall_concat, Forall_map.
    eapply list.Forall_impl; [exact Hs|]. apply utf8_encode_char_bytes.
Qed.

(** C20: [fixUtf8Corruption] leaves unchanged an ASCII text, and a text with a
    character above U+00FF (such as a correctly read ["ε"]), which Latin-1
    cannot encode. *)
Theorem fixUtf8Corruption_unchanged (s : pystr) :
  Forall (fun c => 0 <= c < 128) s \/ Exists (fun c => 256 <= c) s ->
  fixUtf8Corruption s = s.
Proof.
  unfold fixUtf8Corruption. intros [Hascii | Hwide].
  - rewrite latin1_encode_bytes.
    + by rewrite utf8_decode_ascii.
    + eapply list.Forall_impl; [exact Hascii|]. simpl. lia.
  - unfold latin1_encode. replace (forallb _ s) with false; [done|].
    symmetry. apply not_true_iff_false. rewrite forallb_forall.
    apply Exists_exists in Hwide as (c & Hin & Hc). intros Hall.
    specialize (Hall c Hin). apply andb_prop in Hall as [_ Hlt]. apply Z.ltb_lt in Hlt. lia.
Qed.

(** The example of the code's comment (line 51): ["Îµ"], the two
    Latin-1 characters of the UTF-8 bytes of ["ε"], becomes ["ε"]; a text
    whose bytes are not UTF-8 (a lone U+00C3) is returned as it is. *)
Example fixUtf8Corruption_epsilon :
  fixUtf8Corruption [206; 181] = [949] /\ fixUtf8Corruption [195] = [195].
Proof. split; reflexivity. Qed.

(** ** Witnesses *)

Lemma fixUtf8Corruption_repairs_witness : fixUtf8Corruption (utf8_encode [113; 233; 949]) = [113; 233; 949].
Proof. apply fixUtf8Corruption_repairs. repeat constructor; unfold scalar; lia. Defined.

Lemma fixUtf8Corruption_unchanged_witness : fixUtf8Corruption [113; 949] = [113; 949].
Proof. apply fixUtf8Corruption_unchanged. right. right. left. lia. Defined.
