(* ===== verification/Comments.v ===== *)
(** The comment stripping at the top of the loop of [parseFile]
    ([PDA.py] lines 35-44 and 74-131): [cleanLine] is the part of the loop
    body before the section dispatch, from the block-comment flag and a raw
    line to the new flag and either the cleaned line or [continue];
    [cleanLines] runs it over the lines of a file, which is the
    preprocessor of the specification (section 4.1).  The theorems: a
    cleaned line is never empty (so [line[0]] of line 133 never raises) and
    holds no [#]; the lines inside a block comment are dropped; and the
    cases where the code and the specification part. *)

From S2P Require Import Prelude PyStr.

Local Open Scope Z_scope.

(** ** The helpers of lines 35-44 *)

(** Lines 35-36 *)
Definition isComment (s : pystr) : bool := startswith s (py "#").

(** Lines 39-40: [string[0 : string.index("#")]].  [index] raises when
    there is no ["#"]; the function is only called when there is one, and
    then [index] and [find] agree. *)
Definition stringWithoutComments (s : pystr) : pystr := slice s 0 (find s (py "#")).

(** Lines 43-44 *)
Definition isEmptyLine (s : pystr) : bool := bool_decide (s = []).

(** ** One line *)

(** Lines 83-85: the text before the first ["#"], stripped. *)
Definition dropLineComment (line : pystr) : pystr :=
  if contains line (py "#") then strip (stringWithoutComments line) else line.

(** Lines 113-114 and 127-128: [continue] ([None]) on an empty line. *)
Definition keepNonEmpty (inMultipleLineComment : bool) (line : pystr) : bool * option pystr :=
  if isEmptyLine line then (inMultipleLineComment, None)
  else (inMultipleLineComment, Some line).

(** Lines 75-131, for the line [line0] and the flag of the previous
    line: the new flag, and [Some line] when the loop goes on to the
    section dispatch of line 133 with [line], [None] on [continue]. *)
Definition cleanLine (inMultipleLineComment : bool) (line0 : pystr) : bool * option pystr :=
  let line := strip line0 in
  if isComment line || isEmptyLine line then (inMultipleLineComment, None)
  else
    let line := dropLineComment line in
    if negb inMultipleLineComment then
      if contains line (py "/*") then
        let multipleLineCommentStartIndex := find line (py "/*") in
        if contains line (py "*/") then
          let multipleLineCommentLastStartIndex := rfind line (py "/*") in
          let multipleLineCommentLastEndIndex := rfind line (py "*/") in
          if multipleLineCommentLastStartIndex <? multipleLineCommentLastEndIndex then
            keepNonEmpty false
              (strip (slice_to line multipleLineCommentStartIndex ++
                      slice_from line (multipleLineCommentLastEndIndex + 2)))
          else keepNonEmpty true line
        else keepNonEmpty true (strip (slice_to line multipleLineCommentStartIndex))
      else (inMultipleLineComment, Some line)
    else
      if contains line (py "*/") then
        let multipleLineCommentEndIndex := rfind line (py "*/") in
        keepNonEmpty false (strip (slice_from line (multipleLineCommentEndIndex + 2)))
      else (inMultipleLineComment, None).

(** ** The lines of a file *)

(** Lines 72-131 over all the lines: the cleaned lines, in order, that
    reach the section dispatch, starting outside a block comment. *)
Fixpoint cleanLines (inMultipleLineComment : bool) (lines : list pystr) : list pystr :=
  match lines with
  | [] => []
  | line :: rest =>
      let '(flag, out) := cleanLine inMultipleLineComment line in
      match out with
      | Some l => l :: cleanLines flag rest
      | None => cleanLines flag rest
      end
  end.

(** ** Lemmas *)

Lemma keepNonEmpty_Some b line b' l :
  keepNonEmpty b line = (b', Some l) -> b' = b /\ l = line /\ l <> [].
Proof. unfold keepNonEmpty, isEmptyLine. case_bool_decide; naive_solver. Qed.

Lemma keepNonEmpty_None b line b' : keepNonEmpty b line = (b', None) -> b' = b.
Proof. unfold keepNonEmpty. by case_match; intros [=]. Qed.

Lemma contains_hash (s : pystr) : contains s (py "#") = false -> 35 ∉ s.
Proof.
  intros Hc Hin. apply list_elem_of_split in Hin as (l & r & ->).
  change (py "#") with [35] in Hc.
  assert (contains (l ++ 35 :: r) [35] = true) by (apply contains_spec; by exists l, r).
  congruence.
Qed.

(** The text before the first ["#"] has no ["#"]. *)
Lemma stringWithoutComments_no_hash (s : pystr) i :
  find_idx s (py "#") = Some i -> 35 ∉ take i s.
Proof.
  intros Hi Hin. apply list_elem_of_lookup in Hin as (j & Hj).
  rewrite lookup_take_Some in Hj. destruct Hj as [Hj Hlt].
  pose proof (find_idx_first s _ i Hi j Hlt) as Hs.
  rewrite (drop_S _ _ _ Hj) in Hs. simpl in Hs. by destruct (drop (S j) s).
Qed.

Lemma dropLineComment_no_hash (s : pystr) : 35 ∉ dropLineComment s.
Proof.
  unfold dropLineComment, stringWithoutComments, contains, find.
  destruct (find_idx s (py "#")) as [i|] eqn:Hi; simpl.
  - rewrite slice_0. intros Hin. apply (stringWithoutComments_no_hash s i Hi).
    apply (infix_elem_of _ _ _ (strip_infix _) Hin).
  - apply contains_hash. unfold contains. by rewrite Hi.
Qed.

Lemma dropLineComment_infix (s : pystr) : infix (dropLineComment s) s.
Proof.
  unfold dropLineComment. case_match; [|apply infix_refl].
  eapply infix_trans; [apply strip_infix|apply slice_infix].
Qed.

(** A line that starts with a character other than whitespace and is not
    a comment keeps that character before the first ["#"]. *)
Lemma dropLineComment_not_nil c r :
  is_space c = false -> isComment (c :: r) = false -> dropLineComment (c :: r) <> [].
Proof.
  intros Hsp Hcom. unfold dropLineComment, stringWithoutComments, contains, find.
  destruct (find_idx (c :: r) (py "#")) as [[|i]|] eqn:Hi; [| |done].
  - revert Hi. cbn [find_idx]. unfold isComment in Hcom. rewrite Hcom. simpl.
    by destruct (find_idx r _).
  - rewrite slice_0. simpl. by apply (strip_not_nil _ c); [left|].
Qed.

(** Every character of a line kept by the comment stripping comes from
    the text before its first ["#"]. *)
Ltac kept_chars :=
  unfold slice_to, slice_from in *;
  repeat match goal with
  | H : _ ∈ strip _ |- _ => apply (infix_elem_of _ _ _ (strip_infix _)) in H
  | H : _ ∈ slice _ _ _ |- _ => apply (infix_elem_of _ _ _ (slice_infix _ _ _)) in H
  | H : _ ∈ _ ++ _ |- _ => apply elem_of_app in H as [H|H]
  end; done.

Lemma cleanLine_Some b line0 b' line :
  cleanLine b line0 = (b', Some line) ->
  line <> [] /\ forall c, c ∈ line -> c ∈ dropLineComment (strip line0).
Proof.
  unfold cleanLine. destruct (strip line0) as [|c r] eqn:Hs; [done|].
  case_ifs; try done;
    try (intros (-> & -> & Hne)%keepNonEmpty_Some; split; [done|]; intros x Hx; kept_chars).
  intros [= <- <-]. split; [|done]. bool_props.
  apply dropLineComment_not_nil; [by apply (strip_head line0 c r)|done].
Qed.

(** Inside a block comment, a line without ["*/"] is dropped and the
    comment stays open. *)
Lemma cleanLine_inside line0 :
  contains line0 (py "*/") = false -> cleanLine true line0 = (true, None).
Proof.
  intros Hno. unfold cleanLine. case_ifs; try done.
  assert (infix (dropLineComment (strip line0)) line0) as Hinf
    by (eapply infix_trans; [apply dropLineComment_infix|apply strip_infix]).
  by rewrite (infix_contains _ _ _ Hinf E1) in Hno.
Qed.

(** Every line of [cleanLines] is the cleaned form of one raw line. *)
Lemma cleanLines_elem_of (b : bool) (lines : list pystr) line :
  line ∈ cleanLines b lines -> exists b0 line0 b', cleanLine b0 line0 = (b', Some line).
Proof.
  revert b. induction lines as [|line0 lines IH]; intros b; simpl; [set_solver|].
  destruct (cleanLine b line0) as [b' [l|]] eqn:Hc; [|apply IH].
  rewrite elem_of_cons. intros [->|Hin]; [eauto|by eapply IH].
Qed.

(** ** Theorems *)

(** C11: every line the preprocessor passes on is non-empty, so [line[0]]
    at line 133 never raises [IndexError], and holds no ["#"]: line
    comments never reach the parser. *)
Theorem cleanLines_clean (b : bool) (lines : list pystr) :
  Forall (fun line => line <> [] /\ 35 ∉ line) (cleanLines b lines).
Proof.
  apply list.Forall_forall. intros line (b0 & line0 & b' & Hc)%cleanLines_elem_of.
  apply cleanLine_Some in Hc as [Hne Hsub]. split; [done|].
  intros Hin. by apply (dropLineComment_no_hash (strip line0)), Hsub.
Qed.

(** C21: inside an open block comment, lines without ["*/"] produce no
    cleaned line, and the comment stays open after them. *)
Theorem cleanLines_inside_comment (lines : list pystr) :
  Forall (fun line => contains line (py "*/") = false) lines -> cleanLines true lines = [].
Proof. induction 1 as [|line0 lines Hno _ IH]; [done|]. simpl. by rewrite cleanLine_inside. Qed.

(** A block comment spanning lines, an inline block comment, a comment
    line and a trailing line comment, cleaned as section 4.1 says. *)
Example cleanLines_comments :
  cleanLines false [py "q0 /* open"; py "inside"; py "close */ q1"; py "  # note";
                    py "q2 # trailing"; py "q3 /* inline */ q4"] =
  [py "q0"; py "q1"; py "q2"; py "q3  q4"].
Proof. reflexivity. Qed.

(** C27: after a line that closes a block comment, the text after its last
    [*/] is passed on as it is, even when it opens a new [/*] (lines
    121-126 do not search it), and the following lines are cleaned as
    outside any comment. *)
Theorem cleanLines_after_close (line0 : pystr) lines :
  let l := dropLineComment (strip line0) in
  let rest := strip (slice_from l (rfind l (py "*/") + 2)) in
  isComment (strip line0) = false -> contains l (py "*/") = true -> rest <> [] ->
  cleanLines true (line0 :: lines) = rest :: cleanLines false lines.
Proof.
  intros l rest Hc Hend Hne. simpl. unfold cleanLine. fold l.
  destruct (strip line0) as [|c r] eqn:Hs; [by vm_compute in Hend|].
  rewrite Hc. simpl. fold l. rewrite Hend. fold rest.
  unfold keepNonEmpty, isEmptyLine. by rewrite bool_decide_false.
Qed.

(** C26: a line outside a comment whose last [/*] comes after its last [*/]
    is kept whole, [/*] and all, where section 4.1 keeps only the text
    before [/*] (line 96 truncates only when there is no [*/]), and the
    following lines are taken to be inside a comment. *)
Theorem cleanLines_reopen_kept (line0 : pystr) lines :
  let l := dropLineComment (strip line0) in
  isComment (strip line0) = false -> contains l (py "/*") = true -> contains l (py "*/") = true ->
  rfind l (py "*/") < rfind l (py "/*") ->
  cleanLines false (line0 :: lines) = l :: cleanLines true lines.
Proof.
  intros l Hc Hopen Hend Hlt. simpl. unfold cleanLine. fold l.
  destruct (strip line0) as [|c r] eqn:Hs; [by vm_compute in Hend|].
  rewrite Hc. simpl. fold l. rewrite Hopen, Hend.
  rewrite (proj2 (Z.ltb_ge _ _)) by lia.
  unfold keepNonEmpty, isEmptyLine. rewrite bool_decide_false; [done|].
  by intros Hl; rewrite Hl in Hend.
Qed.

(** ** Witnesses *)

Lemma cleanLines_inside_comment_witness :
  cleanLines true [py "q0, a, epsilon, Z, q0"; py "# note"] = [].
Proof. apply cleanLines_inside_comment. repeat constructor. Defined.

Lemma cleanLines_after_close_witness :
  isComment (strip (py "x */ a /* b")) = false /\
  contains (dropLineComment (strip (py "x */ a /* b"))) (py "*/") = true /\
  cleanLines true [py "x */ a /* b"; py "c"] = py "a /* b" :: cleanLines false [py "c"].
Proof.
  split_and!; [reflexivity|reflexivity|].
  apply (cleanLines_after_close (py "x */ a /* b") [py "c"]); [reflexivity|reflexivity|discriminate].
Defined.

Lemma cleanLines_reopen_kept_witness :
  rfind (py "a */ b /* c") (py "*/") < rfind (py "a */ b /* c") (py "/*") /\
  cleanLines false [py "a */ b /* c"; py "q0"] = py "a */ b /* c" :: cleanLines true [py "q0"].
Proof.
  split; [vm_compute; reflexivity|].
  apply (cleanLines_reopen_kept (py "a */ b /* c") [py "q0"]);
    [reflexivity|reflexivity|reflexivity|vm_compute; reflexivity].
Defined.
