(* ===== verification/PyDict.v ===== *)
(** Python's [dict] as the program uses it: a map that remembers the
    order in which its keys were first inserted.  [d[k] = v] on a present
    key replaces the value in place; on a new key it appends the pair.
    Iteration ([for k in d]) follows that order, which fixes which error
    [isPDAValid] reports first.  The model is the association list of the
    dictionary's items in iteration order. *)

From S2P Require Import Prelude.

Section Dict.
Context {K V : Type} `{EqDecision K}.

Definition dict := list (K * V).

(** [d.get(k)]: [d[k]] when [k in d]. *)
Fixpoint dict_get (d : dict) (k : K) : option V :=
  match d with
  | [] => None
  | (k', v) :: d' => if decide (k = k') then Some v else dict_get d' k
  end.

(** [k in d] *)
Definition dict_mem (d : dict) (k : K) : bool :=
  match dict_get d k with Some _ => true | None => false end.

(** [d[k] = v] *)
Fixpoint dict_set (d : dict) (k : K) (v : V) : dict :=
  match d with
  | [] => [(k, v)]
  | (k', v') :: d' =>
      if decide (k = k') then (k, v) :: d' else (k', v') :: dict_set d' k v
  end.

Definition dict_keys (d : dict) : list K := map fst d.

(** Keys of a dictionary are distinct. *)
Definition dict_wf (d : dict) : Prop := NoDup (dict_keys d).

Lemma dict_get_set_eq (d : dict) k v : dict_get (dict_set d k v) k = Some v.
Proof.
  induction d as [|[k' v'] d IH]; simpl; [by rewrite decide_True|].
  destruct (decide (k = k')) as [->|Hne]; simpl; [by rewrite decide_True|].
  by rewrite decide_False.
Qed.

Lemma dict_get_set_ne (d : dict) k k' v :
  k <> k' -> dict_get (dict_set d k v) k' = dict_get d k'.
Proof.
  intros Hne. induction d as [|[k'' v'] d IH]; simpl.
  - by rewrite decide_False.
  - destruct (decide (k = k'')) as [->|Hne']; simpl.
    + by rewrite !decide_False.
    + by rewrite IH.
Qed.

Lemma dict_get_set (d : dict) k k' v :
  dict_get (dict_set d k v) k' = if decide (k' = k) then Some v else dict_get d k'.
Proof.
  case_decide; [subst; apply dict_get_set_eq|]. apply dict_get_set_ne. congruence.
Qed.

Lemma dict_get_elem_of (d : dict) k v : dict_get d k = Some v -> (k, v) ∈ d.
Proof.
  induction d as [|[k' v'] d IH]; simpl; [done|].
  case_decide; [intros [=<-]; subst; left|intros; right; auto].
Qed.

(** On a dictionary with distinct keys, an item is what [d[k]] reads. *)
Lemma dict_elem_of_get (d : dict) k v : dict_wf d -> (k, v) ∈ d -> dict_get d k = Some v.
Proof.
  unfold dict_wf, dict_keys. induction d as [|[k' v'] d IH]; simpl; [set_solver|].
  rewrite list.NoDup_cons, elem_of_cons. intros [Hk Hnd] [[=-> ->]|Hin].
  - by rewrite decide_True.
  - rewrite decide_False; [auto|]. intros ->. apply Hk.
    apply list_elem_of_fmap. exists (k', v). auto.
Qed.

Lemma dict_keys_set (d : dict) k v :
  dict_keys (dict_set d k v) =
  if dict_mem d k then dict_keys d else dict_keys d ++ [k].
Proof.
  unfold dict_mem. induction d as [|[k' v'] d IH]; simpl; [done|].
  destruct (decide (k = k')) as [->|Hne]; simpl; [done|].
  rewrite IH. destruct (dict_get d k); done.
Qed.

Lemma dict_mem_spec (d : dict) k : dict_mem d k = true <-> k ∈ dict_keys d.
Proof.
  unfold dict_mem, dict_keys. induction d as [|[k' v'] d IH]; simpl.
  - set_solver.
  - rewrite elem_of_cons, <- IH. case_decide; [subst; tauto|].
    destruct (dict_get d k); naive_solver.
Qed.

(** Assignment keeps the keys distinct. *)
Lemma dict_set_wf (d : dict) k v : dict_wf d -> dict_wf (dict_set d k v).
Proof.
  unfold dict_wf. rewrite dict_keys_set. destruct (dict_mem d k) eqn:Hm; [done|].
  intros Hnd. apply list.NoDup_app. split; [done|]. split; [|apply NoDup_singleton].
  intros x Hx ->%list_elem_of_singleton. apply dict_mem_spec in Hx. congruence.
Qed.

(** Every item of [d[k] = v] is the new pair or an item of [d]. *)
Lemma dict_set_elem_of (d : dict) k v kv :
  kv ∈ dict_set d k v -> kv = (k, v) \/ kv ∈ d.
Proof.
  induction d as [|[k' v'] d IH]; simpl.
  - set_solver.
  - case_decide; rewrite !elem_of_cons; [tauto|]. intros [->|Hin]; [tauto|].
    destruct (IH Hin); tauto.
Qed.

(** Every key satisfies [kv] and every value [vv]. *)
Definition dict_valid (kv : K -> bool) (vv : V -> bool) (d : dict) : bool :=
  forallb (fun item => kv item.1 && vv item.2) d.

Lemma dict_valid_set kv vv (d : dict) k v :
  dict_valid kv vv d = true -> kv k = true -> vv v = true -> dict_valid kv vv (dict_set d k v) = true.
Proof.
  unfold dict_valid. rewrite !forallb_forall. intros Hd Hk Hv item Hin.
  apply list_elem_of_In, dict_set_elem_of in Hin as [->|Hin]; [simpl; by rewrite Hk, Hv|].
  by apply Hd, list_elem_of_In.
Qed.

Lemma dict_valid_get kv vv (d : dict) k v :
  dict_valid kv vv d = true -> dict_get d k = Some v -> vv v = true.
Proof.
  unfold dict_valid. rewrite forallb_forall. intros Hd Hg.
  apply dict_get_elem_of, list_elem_of_In, Hd in Hg. simpl in Hg. by apply andb_prop in Hg as [_ ?].
Qed.
End Dict.

Arguments dict : clear implicits.
#[export] Hint Resolve dict_set_wf : pda.
