(* ===== verification/Automaton.v ===== *)
(** The data of [PDA.py]: its exceptions, a rule entry, the three-level
    rule dictionary, the automaton 6-tuple, and the interface through
    which the engine reads the rules ([RuleTable]).  The interface has two
    instances: the nested dictionary the code builds, and the flat finite
    map keyed by [(state, symbol, popSymbol)] that the specification talks
    about; [flatten] turns the first into the second. *)

From S2P Require Import Prelude PyStr PyDict.

(** ** Exceptions (lines 1-31) *)

(** Which alphabet an [UndefinedAlphabetError] is about. *)
Inductive alphabet_kind := InputAlphabet | StackAlphabet.

(** Which reference an [InvalidStateError] is about (the four messages). *)
Inductive state_role := StartRole | AcceptRole | SourceRole | DestinationRole.

(** Which field of a rule an [InvalidSymbolError] or an
    [EpsilonTransitionError] is about. *)
Inductive symbol_role := InputSymbol | PopSymbol | PushSymbol.

(** The subclasses of [PDAError], [InputStringError], the [ValueError]
    Python raises when a [Rules] line does not unpack into five fields, and
    the [IndexError] of [line[0]] on an empty line (line 133). *)
Inductive pda_error :=
| PDAError
| UndefinedStartStateError
| UndefinedAcceptStatesError
| UndefinedAlphabetError (which : alphabet_kind)
| InvalidStateError (role : state_role) (q : pystr)
| InvalidSymbolError (role : symbol_role) (a : pystr)
| EpsilonTransitionError (role : symbol_role)
| InputStringError
| ValueError (fields : nat)
| IndexError.

#[export] Instance alphabet_kind_eq_dec : EqDecision alphabet_kind.
Proof. solve_decision. Defined.
#[export] Instance state_role_eq_dec : EqDecision state_role.
Proof. solve_decision. Defined.
#[export] Instance symbol_role_eq_dec : EqDecision symbol_role.
Proof. solve_decision. Defined.
#[export] Instance pda_error_eq_dec : EqDecision pda_error.
Proof. solve_decision. Defined.

(** ** Rules and the automaton *)

(** The entry [{"push": pushSymbol, "nextState": destinationState}]. *)
Record entry := mkEntry { push : pystr; nextState : pystr }.

#[export] Instance entry_eq_dec : EqDecision entry.
Proof. solve_decision. Defined.

(** [rules[sourceState][symbol][popSymbol]] *)
Definition popdict := dict pystr entry.
Definition symdict := dict pystr popdict.
Definition ruledict := dict pystr symdict.

(** The tuple [(states, sigma, stackSigma, rules, start, accept)]. *)
Record pda := mkPDA {
  states : list pystr;
  sigma : list pystr;
  stackSigma : list pystr;
  rules : ruledict;
  start : pystr;
  accept : list pystr
}.

(** The internal spelling of the empty symbol, the sign, and the
    placeholder ["None"] of an unset start state and of "no section". *)
Definition EPSILON : pystr := py "epsilon".
Definition EPSILON_SIGN : pystr := [949%Z].
Definition NONE : pystr := py "None".

(** [x in ["epsilon", "ε"]] *)
Definition is_epsilon_name (x : pystr) : bool := py_in x [EPSILON; EPSILON_SIGN].

(** [stack.append(pushSymbol)] unless [pushSymbol == "epsilon"]. *)
Definition push_symbol (pushSymbol : pystr) (stack : list pystr) : list pystr :=
  if bool_decide (pushSymbol = EPSILON) then stack else stack ++ [pushSymbol].

(** ** The rule-table interface *)

(** What the engine asks of the rules: [q in rules], [a in rules[q]] (only
    asked once [q in rules]), and the entry [rules[q][a][p]] if any. *)
Class RuleTable (T : Type) := {
  rt_has_state : T -> pystr -> bool;
  rt_has_symbol : T -> pystr -> pystr -> bool;
  rt_get : T -> pystr -> pystr -> pystr -> option entry
}.

(** A table that has no rule from [q] has no rule from [q] on [a], and one
    with no rule from [q] on [a] has no entry under [(q, a, p)]. *)
Class RuleTableLaws (T : Type) `{RuleTable T} := {
  rt_no_state_no_symbol t q a : rt_has_state t q = false -> rt_has_symbol t q a = false;
  rt_no_symbol_no_entry t q a p : rt_has_symbol t q a = false -> rt_get t q a p = None
}.

(** The code's nested dictionary. *)
#[export] Instance ruledict_table : RuleTable ruledict := {
  rt_has_state r q := dict_mem r q;
  rt_has_symbol r q a :=
    match dict_get r q with Some sd => dict_mem sd a | None => false end;
  rt_get r q a p :=
    match dict_get r q with
    | Some sd => match dict_get sd a with Some pd => dict_get pd p | None => None end
    | None => None
    end
}.

#[export] Instance ruledict_table_laws : RuleTableLaws ruledict.
Proof.
  split; simpl; unfold dict_mem.
  - intros t q a. by destruct (dict_get t q).
  - intros t q a p. destruct (dict_get t q) as [sd|]; [|done].
    by destruct (dict_get sd a).
Qed.

(** The specification's flat map. *)
Abbreviation flatmap := (gmap (pystr * pystr * pystr) entry).

#[export] Instance flatmap_table : RuleTable flatmap := {
  rt_has_state m q := existsb (fun kv => bool_decide (kv.1.1.1 = q)) (map_to_list m);
  rt_has_symbol m q a :=
    existsb (fun kv => bool_decide (kv.1.1.1 = q /\ kv.1.1.2 = a)) (map_to_list m);
  rt_get m q a p := m !! (q, a, p)
}.

#[export] Instance flatmap_table_laws : RuleTableLaws flatmap.
Proof.
  split; simpl.
  - intros m q a. rewrite <- !not_true_iff_false, !existsb_exists.
    intros Hno ((k & v) & Hin & Hk). apply Hno. exists (k, v).
    split; [done|]. bool_props. apply bool_decide_eq_true. tauto.
  - intros m q a p. rewrite <- not_true_iff_false, existsb_exists. intros Hno.
    destruct (m !! (q, a, p)) as [e|] eqn:He; [|done]. exfalso. apply Hno.
    exists ((q, a, p), e). split; [|by apply bool_decide_eq_true].
    by apply list_elem_of_In, elem_of_map_to_list.
Qed.

(** ** From the nested dictionary to the flat map *)

(** The items [((q, a, p), entry)] of the rules, in iteration order. *)
Definition rule_items (r : ruledict) : list (pystr * pystr * pystr * entry) :=
  r ≫= (fun '(q, sd) => sd ≫= (fun '(a, pd) => (fun '(p, e) => ((q, a, p), e)) <$> pd)).

Definition flatten (r : ruledict) : flatmap := list_to_map (rule_items r).

(** Every level of the rule dictionary has distinct keys. *)
Definition rules_wf (r : ruledict) : Prop :=
  dict_wf r /\
  forall q sd, (q, sd) ∈ r -> dict_wf sd /\ forall a pd, (a, pd) ∈ sd -> dict_wf pd.

(** The rules never mention the sign [ε] as an input, pop or push symbol:
    [parseFile] rewrites it to ["epsilon"] in these three fields. *)
Definition normalized_rules (r : ruledict) : Prop :=
  forall q sd a pd x e, (q, sd) ∈ r -> (a, pd) ∈ sd -> (x, e) ∈ pd ->
    a <> EPSILON_SIGN /\ x <> EPSILON_SIGN /\ push e <> EPSILON_SIGN.

(** Boolean checkers of the two conditions, for concrete automata. *)
Definition rules_wfb (r : ruledict) : bool :=
  bool_decide (NoDup (dict_keys r)) &&
  forallb (fun '(_, sd) =>
    bool_decide (NoDup (dict_keys sd)) &&
    forallb (fun '(_, pd) => bool_decide (NoDup (dict_keys (V:=entry) pd))) sd) r.

Definition normalized_rulesb (r : ruledict) : bool :=
  forallb (fun '((_, a, x), e) =>
    bool_decide (a <> EPSILON_SIGN /\ x <> EPSILON_SIGN /\ push e <> EPSILON_SIGN))
    (rule_items r).

(** ** Lemmas *)

Lemma rule_items_elem_of (r : ruledict) q a p e :
  ((q, a, p), e) ∈ rule_items r <->
  exists sd pd, (q, sd) ∈ r /\ (a, pd) ∈ sd /\ (p, e) ∈ pd.
Proof.
  unfold rule_items. rewrite list_elem_of_bind. split.
  - intros ([q' sd] & Hin & Hr). apply list_elem_of_bind in Hin as ([a' pd] & Hin & Hsd).
    apply list_elem_of_fmap in Hin as ([p' e'] & [=-> -> -> ->] & Hpd). eauto 10.
  - intros (sd & pd & Hr & Hsd & Hpd). exists (q, sd). split; [|done].
    apply list_elem_of_bind. exists (a, pd). split; [|done].
    apply list_elem_of_fmap. exists (p, e). done.
Qed.

(** A lookup through the three levels finds an item of each level; on
    well-formed rules, the items determine the lookup. *)
Lemma rt_get_ruledict_Some (r : ruledict) q a p e :
  rt_get r q a p = Some e -> exists sd pd, (q, sd) ∈ r /\ (a, pd) ∈ sd /\ (p, e) ∈ pd.
Proof.
  simpl. destruct (dict_get r q) as [sd|] eqn:Hq; [|done].
  destruct (dict_get sd a) as [pd|] eqn:Ha; [|done]. intros Hp.
  exists sd, pd. split_and!; by apply dict_get_elem_of.
Qed.

Lemma rt_get_ruledict_elem_of (r : ruledict) q a p e sd pd :
  rules_wf r -> (q, sd) ∈ r -> (a, pd) ∈ sd -> (p, e) ∈ pd -> rt_get r q a p = Some e.
Proof.
  intros [Hr Hin] Hq Ha Hp. destruct (Hin q sd Hq) as [Hsd Hpd]. simpl.
  rewrite (dict_elem_of_get _ _ _ Hr Hq), (dict_elem_of_get _ _ _ Hsd Ha).
  by apply dict_elem_of_get; [apply (Hpd a)|].
Qed.

(** On well-formed rules, the flat map reads what the nested dictionary
    reads: [flatten] is a faithful change of representation. *)
Lemma flatten_lookup (r : ruledict) q a p :
  rules_wf r -> flatten r !! (q, a, p) = rt_get r q a p.
Proof.
  intros Hwf. unfold flatten. destruct (rt_get r q a p) as [e|] eqn:He.
  - apply elem_of_list_to_map_1'.
    + intros e' (sd & pd & ?&?&?)%rule_items_elem_of.
      rewrite (rt_get_ruledict_elem_of r q a p e' sd pd) in He by done. congruence.
    + apply rule_items_elem_of, rt_get_ruledict_Some, He.
  - apply not_elem_of_list_to_map_1. intros ([k e'] & Hk & Hin)%list_elem_of_fmap.
    simpl in Hk. subst k. apply rule_items_elem_of in Hin as (sd & pd & ?&?&?).
    rewrite (rt_get_ruledict_elem_of r q a p e' sd pd) in He by done. done.
Qed.

Lemma rules_wfb_spec (r : ruledict) : rules_wfb r = true -> rules_wf r.
Proof.
  unfold rules_wfb, rules_wf, dict_wf. intros [Hr Hall]%andb_prop.
  split; [by apply bool_decide_eq_true in Hr|]. intros q sd Hq.
  rewrite forallb_forall in Hall. apply list_elem_of_In in Hq.
  apply Hall, andb_prop in Hq as [Hsd Hpds].
  split; [by apply bool_decide_eq_true in Hsd|]. intros a pd Ha.
  rewrite forallb_forall in Hpds. apply list_elem_of_In in Ha.
  apply Hpds in Ha. by apply bool_decide_eq_true in Ha.
Qed.

Lemma normalized_rulesb_spec (r : ruledict) :
  normalized_rulesb r = true -> normalized_rules r.
Proof.
  unfold normalized_rulesb. rewrite forallb_forall. intros Hall q sd a pd x e Hq Ha Hx.
  assert (((q, a, x), e) ∈ rule_items r) as Hin by (apply rule_items_elem_of; eauto).
  apply list_elem_of_In, Hall in Hin. by apply bool_decide_eq_true in Hin.
Qed.
