(* ===== verification/Examples.v ===== *)
(** Concrete automata, written as [parseFile] would build them from a
    definition file, on which the theorems of the other files are
    instantiated: the automaton of the specification's scenarios A and B,
    the one of scenario E, and automata that exercise the cases the code
    treats unexpectedly.  Then the texts of definition files: scenario A
    with comments and both epsilon spellings, scenario D with a
    four-field rule, a UTF-8 file read as Latin-1, and names holding
    quotes and a control character with the automaton they parse to. *)

From S2P Require Import Prelude PyStr PyDict Automaton.

(** Scenario A/B: push [Z] on [a], pop it on [b]. *)
Definition scenarioA : pda := {|
  states := [py "q0"; py "q1"];
  sigma := [py "a"; py "b"];
  stackSigma := [py "Z"];
  rules := [(py "q0", [(py "a", [(EPSILON, mkEntry (py "Z") (py "q0"))]);
                       (py "b", [(py "Z", mkEntry EPSILON (py "q1"))])])];
  start := py "q0";
  accept := [py "q1"] |}.

(** Scenario E: an epsilon move from [q0] to [q1] that needs no stack. *)
Definition scenarioE : pda := {|
  states := [py "q0"; py "q1"];
  sigma := [py "a"];
  stackSigma := [py "Z"];
  rules := [(py "q0", [(EPSILON, [(EPSILON, mkEntry EPSILON (py "q1"))])])];
  start := py "q0";
  accept := [py "q1"] |}.

(** An epsilon move in the middle of the word: [a] leads to [q1], the
    epsilon move from [q1] to [q2], and [b] from [q2] to [q3]. *)
Definition middleEpsilon : pda := {|
  states := [py "q0"; py "q1"; py "q2"; py "q3"];
  sigma := [py "a"; py "b"];
  stackSigma := [py "Z"];
  rules := [(py "q0", [(py "a", [(EPSILON, mkEntry EPSILON (py "q1"))])]);
            (py "q1", [(EPSILON, [(EPSILON, mkEntry EPSILON (py "q2"))])]);
            (py "q2", [(py "b", [(EPSILON, mkEntry EPSILON (py "q3"))])])];
  start := py "q0";
  accept := [py "q3"] |}.

(** ["epsilon"] declared in the stack alphabet, and a rule popping it. *)
Definition declaredEpsilonPop : pda := {|
  states := [py "q0"];
  sigma := [py "a"];
  stackSigma := [py "Z"; EPSILON];
  rules := [(py "q0", [(py "a", [(EPSILON, mkEntry (py "Z") (py "q0"))])])];
  start := py "q0";
  accept := [py "q0"] |}.

(** ["epsilon"] declared in the stack alphabet, and a rule pushing it. *)
Definition declaredEpsilonPush : pda := {|
  states := [py "q0"];
  sigma := [py "a"];
  stackSigma := [py "Z"; EPSILON];
  rules := [(py "q0", [(py "a", [(py "Z", mkEntry EPSILON (py "q0"))])])];
  start := py "q0";
  accept := [py "q0"] |}.

(** A rule that leads to an undeclared state. *)
Definition badDestination : pda := {|
  states := [py "q0"; py "q1"];
  sigma := [py "a"];
  stackSigma := [py "Z"];
  rules := [(py "q0", [(py "a", [(EPSILON, mkEntry (py "Z") (py "q9"))])])];
  start := py "q0";
  accept := [py "q1"] |}.

(** A state named ["None"] as the start state. *)
Definition startNamedNone : pda := {|
  states := [NONE];
  sigma := [py "a"];
  stackSigma := [py "Z"];
  rules := [];
  start := NONE;
  accept := [NONE] |}.

(** ** Definition files *)

(** The text of a file with the given lines, each ended by ["\n"]. *)
Definition file_text (lines : list pystr) : pystr := concat (map (fun l => l ++ [10%Z]) lines).

(** The definition of scenario A, with a line comment, a block comment,
    the spelling ["Epsilon"] and the sign ["ε"] (as the code point
    U+03B5). *)
Definition scenarioA_file : pystr := file_text [
  py "# scenario A: push Z on a, pop it on b";
  py "[States]"; py "q0"; py "q1"; py "End";
  py "[Sigma]"; py "a"; py "b"; py "End";
  py "/* the stack alphabet"; py "   spans a block comment */ [Stack Sigma]"; py "Z"; py "End";
  py "[Rules]";
  py "q0, a, Epsilon, Z, q0";
  py "q0, b, Z, " ++ EPSILON_SIGN ++ py ", q1   # pop";
  py "End";
  py "[Start]"; py "q0"; py "End";
  py "[Accept]"; py "q1"; py "End"].

(** Scenario D of the specification: a [Rules] line with four fields. *)
Definition scenarioD_file : pystr := file_text [
  py "[States]"; py "q0"; py "End";
  py "[Rules]"; py "q0, a, Z, q0"; py "End"].

(** A UTF-8 file read as Latin-1: the state ["qé"] arrives as the three
    characters ["q"], U+00C3, U+00A9 in every section. *)
Definition mojibakeState_file : pystr := file_text [
  py "[States]"; py "q" ++ [195; 169]%Z; py "End";
  py "[Sigma]"; py "a"; py "End";
  py "[Stack Sigma]"; py "Z"; py "End";
  py "[Rules]"; py "q" ++ [195; 169]%Z ++ py ", a, epsilon, epsilon, q" ++ [195; 169]%Z; py "End";
  py "[Start]"; py "q" ++ [195; 169]%Z; py "End";
  py "[Accept]"; py "q" ++ [195; 169]%Z; py "End"].

(** A definition whose names hold quotes and a control character: the
    state ["it's"], the state of [q], a double quote (code point 34) and
    [1], and the state of [q] and BEL (code point 7); two accept states. *)
Definition quotes_file : pystr := file_text [
  py "[States]"; py "it's"; py "q" ++ [34%Z] ++ py "1"; py "q" ++ [7%Z]; py "End";
  py "[Sigma]"; py "a"; py "End";
  py "[Stack Sigma]"; py "Z"; py "End";
  py "[Rules]"; py "it's, a, epsilon, Z, q" ++ [34%Z] ++ py "1"; py "End";
  py "[Start]"; py "it's"; py "End";
  py "[Accept]"; py "it's"; py "q" ++ [34%Z] ++ py "1"; py "End"].

(** The automaton of [quotes_file]. *)
Definition quotes_pda : pda := {|
  states := [py "it's"; py "q" ++ [34%Z] ++ py "1"; py "q" ++ [7%Z]];
  sigma := [py "a"];
  stackSigma := [py "Z"];
  rules := [(py "it's", [(py "a", [(EPSILON, mkEntry (py "Z") (py "q" ++ [34%Z] ++ py "1"))])])];
  start := py "it's";
  accept := [py "it's"; py "q" ++ [34%Z] ++ py "1"] |}.
