(* ===== verification/Repr.v ===== *)
(** What [printPDADataStructures] ([PDA.py] lines 278-290) prints, and
    the built-in conversions its f-strings call: [repr] of a [str]
    (CPython's [unicode_repr]), of a [list] and of a [dict].  A printed
    line is returned as a [pystr], like the trace of [runPDA].

    [repr] keeps a non-ASCII character when [str.isprintable] holds for
    it and escapes it otherwise; that predicate is the Unicode database's,
    so it is the parameter [isprintable] of the section.  [isprintable_bmp0]
    is the database's answer below [U+0400] (Latin, IPA, Greek), which is
    all the scenarios use. *)

From S2P Require Import Prelude PyStr PyDict Automaton.

Local Open Scope Z_scope.

(** ** Hexadecimal digits *)

(** [Py_hexdigits[d]], lower case. *)
Definition hexdigit (d : Z) : Z := if d <? 10 then 48 + d else 87 + d.

(** The [n] digits [Py_hexdigits[(ch >> 4 * i) & 0xf]] for [i = n-1]
    down to [0], as [unicode_repr] writes them after [\x], [\u], [\U]. *)
Fixpoint hex_n (n : nat) (ch : Z) : pystr :=
  match n with
  | O => []
  | S i => hexdigit (Z.land (Z.shiftr ch (4 * Z.of_nat i)) 15) :: hex_n i ch
  end.

(** ** [repr] of a string *)

Section Repr.
Variable isprintable : Z -> bool.

(** One character of the body of [repr(s)] with the quote [quote]
    (the second loop of [unicode_repr]). *)
Definition repr_char (quote ch : Z) : pystr :=
  if (ch =? quote) || (ch =? 92) then [92; ch]
  else if ch =? 9 then [92; 116]
  else if ch =? 10 then [92; 110]
  else if ch =? 13 then [92; 114]
  else if (ch <? 32) || (ch =? 127) then 92 :: 120 :: hex_n 2 ch
  else if ch <? 127 then [ch]
  else if isprintable ch then [ch]
  else if ch <=? 255 then 92 :: 120 :: hex_n 2 ch
  else if ch <=? 65535 then 92 :: 117 :: hex_n 4 ch
  else 92 :: 85 :: hex_n 8 ch.

(** The quote: ['"'] when the string holds a ['\''] and no ['"'],
    ['\''] otherwise. *)
Definition repr_quote (s : pystr) : Z :=
  if bool_decide (39 ∈ s) && negb (bool_decide (34 ∈ s)) then 34 else 39.

(** [repr(s)] for a [str] [s]. *)
Definition str_repr (s : pystr) : pystr :=
  let quote := repr_quote s in
  quote :: concat (map (repr_char quote) s) ++ [quote].

(** [repr(xs)] for a [list], each item by [item]. *)
Definition list_repr {A} (item : A -> pystr) (xs : list A) : pystr :=
  py "[" ++ join (py ", ") (map item xs) ++ py "]".

(** [repr(d)] for a [dict], keys by [key] and values by [value]. *)
Definition dict_repr {K V} (key : K -> pystr) (value : V -> pystr) (d : dict K V) : pystr :=
  py "{" ++ join (py ", ") (map (fun kv => key kv.1 ++ py ": " ++ value kv.2) d) ++ py "}".

(** [repr] of the entry [{"push": pushSymbol, "nextState": destinationState}]
    of lines 185-188, a [dict] with these two keys in this order. *)
Definition entry_repr (e : entry) : pystr :=
  dict_repr str_repr str_repr [(py "push", push e); (py "nextState", nextState e)].

(** [repr(rules)], the three nested dictionaries. *)
Definition rules_repr (rules : ruledict) : pystr :=
  dict_repr str_repr (dict_repr str_repr (dict_repr str_repr entry_repr)) rules.

(** Lines 278-290: the six lines printed.  The f-strings format the
    lists and the dictionary by [repr] and the start state and the single
    accept state as themselves. *)
Definition printPDADataStructures (PDA : pda) : list pystr :=
  let '(mkPDA states sigma stackSigma rules start accept) := PDA in
  [py "States : " ++ list_repr str_repr states;
   py "Alphabet : " ++ list_repr str_repr sigma;
   py "Stack Alphabet: " ++ list_repr str_repr stackSigma;
   py "Rules : " ++ rules_repr rules;
   py "Start state : " ++ start;
   match accept with
   | [a] => py "Accept state: " ++ a
   | _ => py "Accept states : " ++ list_repr str_repr accept
   end].

End Repr.

(** [str.isprintable] below [U+0400]: false on the controls, on U+00A0
    and U+00AD, and on the unassigned points of the Greek block; the
    scenarios use no character above. *)
Definition isprintable_bmp0 (ch : Z) : bool :=
  negb ((ch <? 32) || ((127 <=? ch) && (ch <=? 160)) || (ch =? 173)
        || (ch =? 888) || (ch =? 889) || ((896 <=? ch) && (ch <=? 899))
        || (ch =? 907) || (ch =? 909) || (ch =? 930)).
