(* ===== verification/Dump.v ===== *)
(** Reading back what [printPDADataStructures] prints.  A reference
    reader of Python's literal syntax: [str_unrepr] reads a quoted string
    literal with the escapes [repr] writes, [seq_unrepr] a bracketed list
    of items separated by [", "]; [undump] reads the six printed lines.
    The reader is a specification, not code of the repository: its
    theorems say that the printing loses nothing ([str_unrepr] inverts
    [str_repr], [undump] inverts [printPDADataStructures]), so two
    automata that print the same are the same.

    The encoders and their readers come as a [codec]: the printer, the
    reader, the values it applies to, and the round-trip law; the codecs
    of lists and dictionaries are built from those of their items. *)

From S2P Require Import Prelude PyStr PyDict Automaton Examples Repr.

Local Open Scope Z_scope.

(** A reader: the value read and the rest of the input. *)
Definition reader (A : Type) := pystr -> option (A * pystr).

(** ** Strings *)

(** A hexadecimal digit, either case. *)
Definition hexval (d : Z) : option Z :=
  if (48 <=? d) && (d <=? 57) then Some (d - 48)
  else if (97 <=? d) && (d <=? 102) then Some (d - 87)
  else if (65 <=? d) && (d <=? 70) then Some (d - 55)
  else None.

(** [n] hexadecimal digits, most significant first, onto [acc]. *)
Fixpoint read_hex (n : nat) (s : pystr) (acc : Z) : option (Z * pystr) :=
  match n, s with
  | O, _ => Some (acc, s)
  | S n', d :: s' => v ← hexval d; read_hex n' s' (16 * acc + v)
  | S _, [] => None
  end.

(** The character an escape after a backslash stands for. *)
Definition unescape (s : pystr) : option (Z * pystr) :=
  match s with
  | [] => None
  | e :: s' =>
      if (e =? 92) || (e =? 39) || (e =? 34) then Some (e, s')
      else if e =? 116 then Some (9, s')
      else if e =? 110 then Some (10, s')
      else if e =? 114 then Some (13, s')
      else if e =? 120 then read_hex 2 s' 0
      else if e =? 117 then read_hex 4 s' 0
      else if e =? 85 then read_hex 8 s' 0
      else None
  end.

(** The body of a literal up to its closing [quote], one step per
    character read. *)
Fixpoint unquote (fuel : nat) (quote : Z) (s : pystr) : option (pystr * pystr) :=
  match fuel, s with
  | O, _ | _, [] => None
  | S f, c :: s' =>
      if c =? quote then Some ([], s')
      else if c =? 92 then
        '(ch, s'') ← unescape s'; '(body, rest) ← unquote f quote s''; Some (ch :: body, rest)
      else '(body, rest) ← unquote f quote s'; Some (c :: body, rest)
  end.

(** A string literal in single or double quotes. *)
Definition str_unrepr : reader pystr := fun s =>
  match s with
  | q :: s' => if (q =? 39) || (q =? 34) then unquote (length s') q s' else None
  | [] => None
  end.

(** ** Lemmas on strings *)

Lemma hexval_hexdigit d : 0 <= d < 16 -> hexval (hexdigit d) = Some d.
Proof.
  intros Hd. unfold hexval, hexdigit.
  destruct (Z.ltb_spec d 10); zbool; simpl; f_equal; lia.
Qed.

Lemma hex_digit_bound ch k : 0 <= Z.land (Z.shiftr ch k) 15 < 16.
Proof.
  change 15 with (Z.ones 4). rewrite Z.land_ones by lia.
  apply Z.mod_pos_bound. lia.
Qed.

Lemma read_hex_hex_n n ch r acc :
  0 <= ch ->
  read_hex n (hex_n n ch ++ r) acc =
    Some (acc * 16 ^ Z.of_nat n + ch mod 16 ^ Z.of_nat n, r).
Proof.
  intros Hch. revert acc. induction n as [|n IH]; intros acc; simpl.
  - rewrite Z.mod_1_r. do 2 f_equal. lia.
  - rewrite hexval_hexdigit by apply hex_digit_bound. simpl. rewrite IH. f_equal. f_equal.
    change 15 with (Z.ones 4). rewrite Z.land_ones, Z.shiftr_div_pow2 by lia.
    rewrite Z.pow_mul_r by lia. change (2 ^ 4) with 16.
    rewrite Nat2Z.inj_succ, Z.pow_succ_r, (Z.mul_comm 16 (16 ^ _)) by lia.
    rewrite (Z.rem_mul_r ch (16 ^ Z.of_nat n) 16) by (pose proof (Z.pow_pos_nonneg 16 (Z.of_nat n)); lia).
    lia.
Qed.

(** Reading back the digits of a code point that fits in them. *)
Lemma read_hex_code n ch r :
  0 <= ch < 16 ^ Z.of_nat n -> read_hex n (hex_n n ch ++ r) 0 = Some (ch, r).
Proof. intros Hch. rewrite read_hex_hex_n by lia. rewrite Z.mod_small by lia. done. Qed.

Lemma repr_quote_cases s : repr_quote s = 39 \/ repr_quote s = 34.
Proof. unfold repr_quote. repeat case_match; auto. Qed.

Lemma repr_char_not_nil isprintable q ch : repr_char isprintable q ch <> [].
Proof. unfold repr_char. by case_ifs. Qed.

Lemma unescape_x s : unescape (120 :: s) = read_hex 2 s 0.
Proof. reflexivity. Qed.
Lemma unescape_u s : unescape (117 :: s) = read_hex 4 s 0.
Proof. reflexivity. Qed.
Lemma unescape_U s : unescape (85 :: s) = read_hex 8 s 0.
Proof. reflexivity. Qed.

Section Unquote.
Variable isprintable : Z -> bool.
Variable q : Z.
Hypothesis Hq : q = 39 \/ q = 34.

Lemma unquote_backslash t ch f r :
  unescape (t ++ r) = Some (ch, r) ->
  unquote (S f) q ((92 :: t) ++ r) = '(body, rest) ← unquote f q r; Some (ch :: body, rest).
Proof.
  intros Ht. cbn [unquote app]. rewrite (proj2 (Z.eqb_neq 92 q)) by lia.
  rewrite Z.eqb_refl, Ht. done.
Qed.

Lemma unquote_plain ch f r :
  ch <> q -> ch <> 92 ->
  unquote (S f) q ([ch] ++ r) = '(body, rest) ← unquote f q r; Some (ch :: body, rest).
Proof. intros. cbn [unquote app]. by zbool. Qed.

(** Every character comes back from what [repr] writes for it. *)
Lemma unquote_repr_char ch f r :
  code_point ch = true ->
  unquote (S f) q (repr_char isprintable q ch ++ r) =
    '(body, rest) ← unquote f q r; Some (ch :: body, rest).
Proof.
  unfold code_point. intros Hch. bool_props. zprops. unfold repr_char.
  case_ifs; bool_props; zprops; subst;
    first [ apply unquote_plain; lia
          | apply unquote_backslash; cbn [app];
            first [ rewrite unescape_x | rewrite unescape_u | rewrite unescape_U
                  | (simpl; by zbool) | (destruct Hq; subst; simpl; by zbool) ];
            apply read_hex_code; simpl; lia ].
Qed.

Lemma unquote_repr_body s f r :
  code_points s = true -> (length s < f)%nat ->
  unquote f q (concat (map (repr_char isprintable q) s) ++ q :: r) = Some (s, r).
Proof.
  revert f. induction s as [|ch s IH]; intros f Hs Hf; simpl in *.
  - destruct f as [|f]; [lia|]. simpl. by rewrite Z.eqb_refl.
  - apply andb_prop in Hs as [Hch Hs]. destruct f as [|f]; [lia|].
    rewrite <- app_assoc, unquote_repr_char by done. rewrite IH by (done || lia). done.
Qed.

End Unquote.

Lemma repr_body_length isprintable q s :
  (length s <= length (concat (map (repr_char isprintable q) s)))%nat.
Proof.
  induction s as [|ch s IH]; simpl; [lia|]. rewrite length_app.
  pose proof (repr_char_not_nil isprintable q ch). destruct (repr_char _ _ _); simpl; [done|lia].
Qed.

(** [str_unrepr] reads back [str_repr]: the round trip of [repr]. *)
Lemma str_unrepr_repr isprintable s r :
  code_points s = true -> str_unrepr (str_repr isprintable s ++ r) = Some (s, r).
Proof.
  intros Hs. unfold str_repr, str_unrepr. simpl.
  destruct (repr_quote_cases s) as [Hq|Hq]; rewrite Hq; simpl;
    rewrite <- app_assoc; apply unquote_repr_body; try (by auto);
    rewrite length_app; pose proof (repr_body_length isprintable (repr_quote s) s);
    rewrite Hq in *; simpl; lia.
Qed.

(** ** Codecs *)

(** A printer, its reader, the values it is meant for, and the laws: the
    reader gives back every such value and leaves the rest of the input,
    and a printed value starts with a character that closes no bracket. *)
Record codec (A : Type) := Codec {
  enc : A -> pystr;
  dec : reader A;
  valid : A -> bool;
  dec_enc : forall x r, valid x = true -> dec (enc x ++ r) = Some (x, r);
  enc_start : forall x, valid x = true -> exists c t, enc x = c :: t /\ c <> 93 /\ c <> 125
}.
Arguments Codec {A} _ _ _ _ _.
Arguments enc {A} _ _.
Arguments dec {A} _ _.
Arguments valid {A} _ _.
Arguments dec_enc {A} _ _ _ _.
Arguments enc_start {A} _ _ _.

(** Bracketed items separated by [", "], after the first item: the
    items and the rest after [close]. *)
Fixpoint seq_items {A} (fuel : nat) (item : reader A) (close : Z) (s : pystr) :
    option (list A * pystr) :=
  match fuel with
  | O => None
  | S f =>
      '(x, s1) ← item s;
      match s1 with
      | c :: s2 =>
          if c =? close then Some ([x], s2)
          else if c =? 44 then
            match s2 with
            | 32 :: s3 => '(xs, r) ← seq_items f item close s3; Some (x :: xs, r)
            | _ => None
            end
          else None
      | [] => None
      end
  end.

(** [[...]] with [op = '['], [close = ']'], or [{...}] with ['{'], ['}']. *)
Definition seq_unrepr {A} (op close : Z) (item : reader A) : reader (list A) := fun s =>
  match s with
  | c :: s1 =>
      if c =? op then
        match s1 with
        | c' :: s2 => if c' =? close then Some ([], s2) else seq_items (length s1) item close s1
        | [] => None
        end
      else None
  | [] => None
  end.

(** The text after the prefix [p]. *)
Definition after (p s : pystr) : option pystr :=
  if startswith s p then Some (drop (length p) s) else None.

(** A reader that must use the whole input. *)
Definition full {A} (rd : reader A) (s : pystr) : option A :=
  match rd s with Some (x, []) => Some x | _ => None end.

(** ** Lemmas on sequences *)

Lemma join_cons2 (sep x y : pystr) ys : join sep (x :: y :: ys) = x ++ sep ++ join sep (y :: ys).
Proof. done. Qed.

Section Seq.
Context {A : Type} (c : codec A) (close : Z).
Hypothesis Hclose : close = 93 \/ close = 125.

Lemma seq_items_enc xs f r :
  forallb (valid c) xs = true -> xs <> [] -> (length xs <= f)%nat ->
  seq_items f (dec c) close (join (py ", ") (map (enc c) xs) ++ close :: r) = Some (xs, r).
Proof.
  revert f. induction xs as [|x [|y ys] IH]; intros f Hv Hne Hf; [done| |];
    destruct f as [|f]; simpl in Hf; try lia; simpl in Hv; bool_props.
  - simpl. rewrite dec_enc by done. simpl. by rewrite Z.eqb_refl.
  - cbn [map]. rewrite join_cons2, <- !app_assoc. cbn [seq_items]. rewrite dec_enc by done. simpl.
    assert (Hrec : seq_items f (dec c) close (join (py ", ") (map (enc c) (y :: ys)) ++ close :: r)
                   = Some (y :: ys, r)) by (apply IH; [simpl; by rewrite H0, H1 | done | simpl in *; lia]).
    destruct Hclose as [-> | ->]; simpl in *; by rewrite Hrec.
Qed.

Lemma join_enc_length xs :
  forallb (valid c) xs = true -> (length xs <= length (join (py ", ") (map (enc c) xs)))%nat.
Proof.
  induction xs as [|x [|y ys] IH]; intros Hv; [simpl; lia| |];
    simpl in Hv; bool_props; destruct (enc_start c x) as (ch & t & Hx & _); try done.
  - simpl. rewrite Hx. simpl. lia.
  - assert (IH' := IH ltac:(simpl; by rewrite H0, H1)).
    cbn [map] in *. rewrite join_cons2, !length_app, Hx. cbn [length] in *. lia.
Qed.

Lemma seq_unrepr_enc op xs r :
  forallb (valid c) xs = true ->
  seq_unrepr op close (dec c) ([op] ++ join (py ", ") (map (enc c) xs) ++ [close] ++ r) =
    Some (xs, r).
Proof.
  intros Hv. unfold seq_unrepr.
  destruct xs as [|x xs]; [cbn [map join app]; by rewrite !Z.eqb_refl|].
  pose proof (join_enc_length (x :: xs) Hv) as Hlen.
  pose proof Hv as Hx. simpl in Hx. bool_props.
  destruct (enc_start c x) as (ch & t & Hxe & Hch93 & Hch125); [done|].
  destruct (join (py ", ") (map (enc c) (x :: xs))) as [|ch' t'] eqn:Hj; [simpl in Hlen; lia|].
  assert (ch' = ch) as ->.
  { destruct xs; cbn [map] in Hj; [|rewrite join_cons2 in Hj]; rewrite Hxe in Hj; simpl in Hj; congruence. }
  cbn [app]. rewrite Z.eqb_refl, (proj2 (Z.eqb_neq ch close)) by lia. cbn iota.
  rewrite !app_comm_cons, <- Hj. apply seq_items_enc; [done|done|].
  rewrite length_app, Hj. simpl. simpl in Hlen. lia.
Qed.

End Seq.

(** ** The codecs of the printed values *)

Section Codecs.
Variable isprintable : Z -> bool.

Lemma str_repr_start s :
  exists c t, str_repr isprintable s = c :: t /\ c <> 93 /\ c <> 125.
Proof. unfold str_repr. destruct (repr_quote_cases s) as [-> | ->]; eauto. Qed.

Definition str_codec : codec pystr :=
  Codec (str_repr isprintable) str_unrepr code_points
    (fun s r Hs => str_unrepr_repr isprintable s r Hs) (fun s _ => str_repr_start s).

(** [key: value], an item of a dictionary. *)
Definition pair_unrepr {K V} (key : reader K) (value : reader V) : reader (K * V) := fun s =>
  '(k, s1) ← key s; s2 ← after (py ": ") s1; '(v, s3) ← value s2; Some ((k, v), s3).

Lemma pair_unrepr_enc {K V} (ck : codec K) (cv : codec V) kv r :
  valid ck kv.1 && valid cv kv.2 = true ->
  pair_unrepr (dec ck) (dec cv) ((enc ck kv.1 ++ py ": " ++ enc cv kv.2) ++ r) = Some (kv, r).
Proof.
  destruct kv as [k v]. cbn [fst snd]. intros Hv. bool_props. unfold pair_unrepr, after.
  rewrite <- !app_assoc, dec_enc by done. cbn -[py]. rewrite startswith_app. cbn -[py].
  rewrite drop_app_length, dec_enc by done. done.
Qed.

Lemma pair_start {K V} (ck : codec K) (cv : codec V) kv :
  valid ck kv.1 && valid cv kv.2 = true ->
  exists c t, enc ck kv.1 ++ py ": " ++ enc cv kv.2 = c :: t /\ c <> 93 /\ c <> 125.
Proof.
  intros Hv. bool_props. destruct (enc_start ck kv.1) as (c & t & -> & Hc); [done|]. eauto.
Qed.

Definition pair_codec {K V} (ck : codec K) (cv : codec V) : codec (K * V) :=
  Codec (fun kv => enc ck kv.1 ++ py ": " ++ enc cv kv.2) (pair_unrepr (dec ck) (dec cv))
    (fun kv => valid ck kv.1 && valid cv kv.2) (pair_unrepr_enc ck cv) (pair_start ck cv).

Lemma bracket_dec_enc {A} (c : codec A) op close xs r :
  close = 93 \/ close = 125 -> forallb (valid c) xs = true ->
  seq_unrepr op close (dec c) (([op] ++ join (py ", ") (map (enc c) xs) ++ [close]) ++ r) =
    Some (xs, r).
Proof. intros Hc Hv. rewrite <- !app_assoc. by apply seq_unrepr_enc. Qed.

Lemma bracket_start {A} (c : codec A) op close xs :
  op <> 93 /\ op <> 125 ->
  exists ch t, [op] ++ join (py ", ") (map (enc c) xs) ++ [close] = ch :: t /\ ch <> 93 /\ ch <> 125.
Proof. intros Hop. by exists op, (join (py ", ") (map (enc c) xs) ++ [close]). Qed.

(** Items between [op] and [close], separated by [", "]: the [repr] of
    a [list] ([op = '[']) and of a [dict] ([op = '{']). *)
Definition bracket_codec {A} (op close : Z) (Hclose : close = 93 \/ close = 125)
    (Hop : op <> 93 /\ op <> 125) (c : codec A) : codec (list A) :=
  Codec (fun xs => [op] ++ join (py ", ") (map (enc c) xs) ++ [close])
    (seq_unrepr op close (dec c)) (forallb (valid c))
    (fun xs r Hv => bracket_dec_enc c op close xs r Hclose Hv)
    (fun xs _ => bracket_start c op close xs Hop).

Lemma list_brackets : (93 = 93 \/ 93 = 125) /\ (91 <> 93 /\ 91 <> 125).
Proof. lia. Qed.

Lemma dict_brackets : (125 = 93 \/ 125 = 125) /\ (123 <> 93 /\ 123 <> 125).
Proof. lia. Qed.

Definition list_codec {A} (c : codec A) : codec (list A) :=
  bracket_codec 91 93 (proj1 list_brackets) (proj2 list_brackets) c.

Definition dict_codec {K V} (ck : codec K) (cv : codec V) : codec (dict K V) :=
  bracket_codec 123 125 (proj1 dict_brackets) (proj2 dict_brackets) (pair_codec ck cv).

(** The entry of a rule: a dictionary with the keys ["push"] and
    ["nextState"], in this order. *)
Definition entry_unrepr : reader entry := fun s =>
  '(d, r) ← seq_unrepr 123 125 (pair_unrepr str_unrepr str_unrepr) s;
  match d with
  | [(k1, p); (k2, n)] =>
      if bool_decide (k1 = py "push" /\ k2 = py "nextState") then Some (mkEntry p n, r) else None
  | _ => None
  end.

Definition entry_valid (e : entry) : bool := code_points (push e) && code_points (nextState e).

Lemma entry_unrepr_enc e r :
  entry_valid e = true -> entry_unrepr (entry_repr isprintable e ++ r) = Some (e, r).
Proof.
  destruct e as [p n]. unfold entry_valid. cbn [push nextState]. intros Hv. bool_props. unfold entry_unrepr.
  change (entry_repr isprintable (mkEntry p n))
    with (enc (dict_codec str_codec str_codec) [(py "push", p); (py "nextState", n)]).
  change (seq_unrepr 123 125 (pair_unrepr str_unrepr str_unrepr))
    with (dec (dict_codec str_codec str_codec)).
  rewrite dec_enc by (simpl; by rewrite H, H0). cbn -[py]. by rewrite bool_decide_true.
Qed.

Lemma entry_start e :
  exists c t, entry_repr isprintable e = c :: t /\ c <> 93 /\ c <> 125.
Proof. eexists 123, _. split; [reflexivity|lia]. Qed.

Definition entry_codec : codec entry :=
  Codec (entry_repr isprintable) entry_unrepr entry_valid entry_unrepr_enc
    (fun e _ => entry_start e).

(** [repr(rules)]. *)
Definition rules_codec : codec ruledict :=
  dict_codec str_codec (dict_codec str_codec (dict_codec str_codec entry_codec)).

Lemma rules_repr_enc rules : rules_repr isprintable rules = enc rules_codec rules.
Proof. reflexivity. Qed.

Lemma list_repr_enc xs : list_repr (str_repr isprintable) xs = enc (list_codec str_codec) xs.
Proof. reflexivity. Qed.

End Codecs.

(** ** Reading the six lines back *)

Definition strs_unrepr : reader (list pystr) := seq_unrepr 91 93 str_unrepr.

Definition rules_unrepr : reader ruledict :=
  seq_unrepr 123 125 (pair_unrepr str_unrepr
    (seq_unrepr 123 125 (pair_unrepr str_unrepr
      (seq_unrepr 123 125 (pair_unrepr str_unrepr entry_unrepr))))).

(** The automaton from the lines [printPDADataStructures] prints. *)
Definition undump (lines : list pystr) : option pda :=
  match lines with
  | [l1; l2; l3; l4; l5; l6] =>
      states ← after (py "States : ") l1 ≫= full strs_unrepr;
      sigma ← after (py "Alphabet : ") l2 ≫= full strs_unrepr;
      stackSigma ← after (py "Stack Alphabet: ") l3 ≫= full strs_unrepr;
      rules ← after (py "Rules : ") l4 ≫= full rules_unrepr;
      start ← after (py "Start state : ") l5;
      accept ← match after (py "Accept state: ") l6 with
               | Some a => Some [a]
               | None => after (py "Accept states : ") l6 ≫= full strs_unrepr
               end;
      Some (mkPDA states sigma stackSigma rules start accept)
  | _ => None
  end.

(** The strings of an automaton are made of code points, the values
    [repr] is defined on. *)
Definition rules_valid (rules : ruledict) : bool :=
  dict_valid code_points (dict_valid code_points (dict_valid code_points entry_valid)) rules.

Definition dump_valid (p : pda) : bool :=
  forallb code_points (states p) && forallb code_points (sigma p) &&
  forallb code_points (stackSigma p) && rules_valid (rules p) && forallb code_points (accept p).

(** ** Lemmas on the dump *)

Lemma after_app p x : after p (p ++ x) = Some x.
Proof. unfold after. by rewrite startswith_app, drop_app_length. Qed.

Lemma full_enc {A} (c : codec A) x : valid c x = true -> full (dec c) (enc c x) = Some x.
Proof. intros Hv. unfold full. by rewrite <- (app_nil_r (enc c x)), dec_enc. Qed.

Lemma after_accept_states x : after (py "Accept state: ") (py "Accept states : " ++ x) = None.
Proof. reflexivity. Qed.

Lemma read_line {A} (c : codec A) p x :
  valid c x = true -> after p (p ++ enc c x) ≫= full (dec c) = Some x.
Proof. intros Hv. rewrite after_app. simpl. by apply full_enc. Qed.

Lemma read_strs isprintable p xs :
  forallb code_points xs = true ->
  after p (p ++ list_repr (str_repr isprintable) xs) ≫= full strs_unrepr = Some xs.
Proof. exact (read_line (list_codec (str_codec isprintable)) p xs). Qed.

Lemma read_rules isprintable p rules :
  rules_valid rules = true ->
  after p (p ++ rules_repr isprintable rules) ≫= full rules_unrepr = Some rules.
Proof. exact (read_line (rules_codec isprintable) p rules). Qed.

(** ** Theorems *)

(** The six printed lines give the automaton back. *)
Theorem undump_printPDADataStructures isprintable p :
  dump_valid p = true -> undump (printPDADataStructures isprintable p) = Some p.
Proof.
  destruct p as [st sg ss ru s0 acc]. unfold dump_valid. cbn [states sigma stackSigma rules accept].
  intros Hv. bool_props. cbn [printPDADataStructures undump].
  rewrite !read_strs, read_rules by done. cbn [mbind option_bind]. rewrite after_app.
  cbn [mbind option_bind].
  destruct acc as [|a [|b l]];
    [rewrite after_accept_states, read_strs | rewrite after_app | rewrite after_accept_states, read_strs];
    done.
Qed.

(** What [printPDADataStructures] prints determines the automaton:
    two automata whose strings are code points and that print the same
    six lines are equal. *)
Theorem printPDADataStructures_inj isprintable p1 p2 :
  dump_valid p1 = true -> dump_valid p2 = true ->
  printPDADataStructures isprintable p1 = printPDADataStructures isprintable p2 -> p1 = p2.
Proof.
  intros H1 H2 Heq. apply (inj Some).
  by rewrite <- (undump_printPDADataStructures isprintable p1 H1), Heq,
    undump_printPDADataStructures.
Qed.

(** ** Witnesses *)

Lemma undump_printPDADataStructures_witness :
  dump_valid scenarioA = true /\
  undump (printPDADataStructures isprintable_bmp0 scenarioA) = Some scenarioA.
Proof. split; [reflexivity|]. apply undump_printPDADataStructures. reflexivity. Defined.

