(* ===== verification/Validator.v ===== *)
(** [isPDAValid] ([PDA.py] lines 213-276): the checks on a parsed
    automaton, in the code's order, each raising the code's exception.
    [valid_pda] states declaratively what the checks accept, and
    [error_cause] what each raised exception reports about the automaton. *)

From S2P Require Import Prelude PyStr PyDict Automaton Examples.

(** ** The checks *)

(** Lines 256-274: the body of [for popSymbol in rules[src][symbol]].
    Line 260 tests [symbol] and [sigma], as the code does. *)
Definition checkPopSymbol (p : pda) (symbol : pystr) (item : pystr * entry) :
    result pda_error unit :=
  let '(popSymbol, ent) := item in
  if negb (py_in popSymbol (stackSigma p)) && negb (is_epsilon_name popSymbol) then
    raise (InvalidSymbolError PopSymbol popSymbol)
  else if is_epsilon_name symbol && py_in symbol (sigma p) then
    raise (EpsilonTransitionError PopSymbol)
  else
    let pushSymbol := push ent in
    if negb (py_in pushSymbol (stackSigma p)) && negb (is_epsilon_name pushSymbol) then
      raise (InvalidSymbolError PushSymbol pushSymbol)
    else if is_epsilon_name pushSymbol && py_in pushSymbol (stackSigma p) then
      raise (EpsilonTransitionError PushSymbol)
    else
      let destinationState := nextState ent in
      if negb (py_in destinationState (states p)) then
        raise (InvalidStateError DestinationRole destinationState)
      else Ok tt.

(** Lines 248-256: the body of [for symbol in rules[src]]. *)
Definition checkSymbol (p : pda) (item : pystr * popdict) : result pda_error unit :=
  let '(symbol, pd) := item in
  if negb (py_in symbol (sigma p)) && negb (is_epsilon_name symbol) then
    raise (InvalidSymbolError InputSymbol symbol)
  else if is_epsilon_name symbol && py_in symbol (sigma p) then
    raise (EpsilonTransitionError InputSymbol)
  else for_each (checkPopSymbol p symbol) pd.

(** Lines 242-248: the body of [for sourceState in rules]. *)
Definition checkSourceState (p : pda) (item : pystr * symdict) : result pda_error unit :=
  let '(sourceState, sd) := item in
  if negb (py_in sourceState (states p)) then
    raise (InvalidStateError SourceRole sourceState)
  else for_each (checkSymbol p) sd.

(** Lines 236-239: the body of [for acceptState in accept]. *)
Definition checkAcceptState (p : pda) (acceptState : pystr) : result pda_error unit :=
  if negb (py_in acceptState (states p)) then
    raise (InvalidStateError AcceptRole acceptState)
  else Ok tt.

(** Lines 213-276.  The function returns [True] or raises: none of its
    [return False] lines can run. *)
Definition isPDAValid (p : pda) : result pda_error bool :=
  if bool_decide (length (sigma p) = 0%nat) then
    raise (UndefinedAlphabetError InputAlphabet)
  else if bool_decide (length (stackSigma p) = 0%nat) then
    raise (UndefinedAlphabetError StackAlphabet)
  else if bool_decide (start p = NONE) then
    raise UndefinedStartStateError
  else if negb (py_in (start p) (states p)) then
    raise (InvalidStateError StartRole (start p))
  else if bool_decide (length (accept p) = 0%nat) then
    raise UndefinedAcceptStatesError
  else
    let* _ := for_each (checkAcceptState p) (accept p) in
    let* _ := for_each (checkSourceState p) (rules p) in
    Ok true.

(** ** What the checks accept *)

(** [x in ["epsilon", "ε"]] as a proposition. *)
Definition eps_name (x : pystr) : Prop := x ∈ [EPSILON; EPSILON_SIGN].

(** One rule [src, symbol, popSymbol -> entry] as the checks see it. *)
Definition entry_ok (p : pda) (popSymbol : pystr) (e : entry) : Prop :=
  (popSymbol ∈ stackSigma p \/ eps_name popSymbol) /\
  (push e ∈ stackSigma p \/ eps_name (push e)) /\
  ~ (eps_name (push e) /\ push e ∈ stackSigma p) /\
  nextState e ∈ states p.

Definition symbol_ok (p : pda) (symbol : pystr) : Prop :=
  (symbol ∈ sigma p \/ eps_name symbol) /\ ~ (eps_name symbol /\ symbol ∈ sigma p).

(** The invariants of a validated automaton, as [isPDAValid] checks them. *)
Record valid_pda (p : pda) : Prop := {
  vp_sigma : sigma p <> [];
  vp_stack_sigma : stackSigma p <> [];
  vp_start_set : start p <> NONE;
  vp_start : start p ∈ states p;
  vp_accept_nonempty : accept p <> [];
  vp_accept : forall q, q ∈ accept p -> q ∈ states p;
  vp_rules : forall q sd, (q, sd) ∈ rules p ->
    q ∈ states p /\
    forall a pd, (a, pd) ∈ sd -> symbol_ok p a /\ forall x e, (x, e) ∈ pd -> entry_ok p x e
}.

(** What a raised exception says about the automaton: the offending
    item exists.  An [EpsilonTransitionError] about a pop symbol has no
    cause: the check of line 260 repeats the one of line 253. *)
Definition error_cause (p : pda) (err : pda_error) : Prop :=
  match err with
  | UndefinedAlphabetError InputAlphabet => sigma p = []
  | UndefinedAlphabetError StackAlphabet => stackSigma p = []
  | UndefinedStartStateError => start p = NONE
  | UndefinedAcceptStatesError => accept p = []
  | InvalidStateError StartRole q => q = start p /\ q ∉ states p
  | InvalidStateError AcceptRole q => q ∈ accept p /\ q ∉ states p
  | InvalidStateError SourceRole q => q ∈ dict_keys (rules p) /\ q ∉ states p
  | InvalidStateError DestinationRole q =>
      (q ∉ states p) /\ (exists s sd a pd x e,
        (s, sd) ∈ rules p /\ (a, pd) ∈ sd /\ (x, e) ∈ pd /\ nextState e = q)
  | InvalidSymbolError InputSymbol a =>
      (a ∉ sigma p) /\ (~ eps_name a) /\ (exists s sd pd, (s, sd) ∈ rules p /\ (a, pd) ∈ sd)
  | InvalidSymbolError PopSymbol x =>
      (x ∉ stackSigma p) /\ (~ eps_name x) /\ (exists s sd a pd e,
        (s, sd) ∈ rules p /\ (a, pd) ∈ sd /\ (x, e) ∈ pd)
  | InvalidSymbolError PushSymbol y =>
      (y ∉ stackSigma p) /\ (~ eps_name y) /\ (exists s sd a pd x e,
        (s, sd) ∈ rules p /\ (a, pd) ∈ sd /\ (x, e) ∈ pd /\ push e = y)
  | EpsilonTransitionError InputSymbol =>
      exists s sd a pd, (s, sd) ∈ rules p /\ (a, pd) ∈ sd /\ eps_name a /\ a ∈ sigma p
  | EpsilonTransitionError PopSymbol => False
  | EpsilonTransitionError PushSymbol =>
      exists s sd a pd x e, (s, sd) ∈ rules p /\ (a, pd) ∈ sd /\ (x, e) ∈ pd /\
        eps_name (push e) /\ push e ∈ stackSigma p
  | PDAError | InputStringError | ValueError _ | IndexError => False
  end.

(** ** Theorems *)

(** Decide every membership test of a check, then reduce its [if]s. *)
Ltac decide_checks :=
  unfold eps_name, is_epsilon_name, py_in in *;
  repeat case_bool_decide; simpl.

Lemma checkPopSymbol_Ok (p : pda) symbol x e :
  ~ (eps_name symbol /\ symbol ∈ sigma p) ->
  checkPopSymbol p symbol (x, e) = Ok tt <-> entry_ok p x e.
Proof. unfold checkPopSymbol, entry_ok. decide_checks; naive_solver. Qed.

(** The two guards of lines 250-255 both fail exactly on a [symbol_ok]
    symbol. *)
Lemma symbol_guards (p : pda) a :
  symbol_ok p a <->
  negb (py_in a (sigma p)) && negb (is_epsilon_name a) = false /\
  is_epsilon_name a && py_in a (sigma p) = false.
Proof. unfold symbol_ok. decide_checks; naive_solver. Qed.

Lemma checkSymbol_Ok (p : pda) a (pd : popdict) :
  checkSymbol p (a, pd) = Ok tt <->
  symbol_ok p a /\ forall x e, (x, e) ∈ pd -> entry_ok p x e.
Proof.
  unfold checkSymbol. rewrite symbol_guards.
  destruct (negb _ && negb _), (is_epsilon_name a && _) eqn:E2; simpl; try naive_solver.
  assert (~ (eps_name a /\ a ∈ sigma p)) as Hnot.
  { unfold eps_name, is_epsilon_name, py_in in *. bool_props; naive_solver. }
  rewrite for_each_Ok. split.
  - intros Hall. split; [done|]. intros x e Hin. by apply (checkPopSymbol_Ok p a), (Hall (x, e)).
  - intros [_ Hall] [x e] Hin. by apply checkPopSymbol_Ok, Hall.
Qed.

Lemma checkSourceState_Ok (p : pda) q (sd : symdict) :
  checkSourceState p (q, sd) = Ok tt <->
  q ∈ states p /\ forall a pd, (a, pd) ∈ sd ->
    symbol_ok p a /\ forall x e, (x, e) ∈ pd -> entry_ok p x e.
Proof.
  unfold checkSourceState, py_in.
  case_bool_decide; simpl; [|naive_solver]. rewrite for_each_Ok. split.
  - intros Hall. split; [done|]. intros a pd Hin. apply checkSymbol_Ok, (Hall (a, pd)), Hin.
  - intros [_ Hall] [a pd] Hin. by apply checkSymbol_Ok, Hall.
Qed.

Lemma checkAcceptState_Ok (p : pda) q : checkAcceptState p q = Ok tt <-> q ∈ states p.
Proof. unfold checkAcceptState, py_in. case_bool_decide; simpl; naive_solver. Qed.

(** The checks that pass: the automaton satisfies the invariants. *)
Lemma isPDAValid_sound (p : pda) : isPDAValid p = Ok true -> valid_pda p.
Proof.
  unfold isPDAValid, py_in.
  repeat case_bool_decide; simpl; try done.
  intros ([] & Hacc & Hrest)%bind_Ok. apply bind_Ok in Hrest as ([] & Hrules & _).
  rewrite for_each_Ok in Hacc. rewrite for_each_Ok in Hrules.
  split; rewrite ?length_zero_iff_nil in *; try done.
  - intros q Hq. by apply checkAcceptState_Ok, Hacc.
  - intros q sd Hq. by apply checkSourceState_Ok, (Hrules (q, sd)).
Qed.

(** The invariants hold: every check passes. *)
Lemma isPDAValid_complete (p : pda) : valid_pda p -> isPDAValid p = Ok true.
Proof.
  intros []. unfold isPDAValid, py_in.
  repeat case_bool_decide; simpl; rewrite ?length_zero_iff_nil in *; try done.
  apply bind_Ok. exists tt. split.
  { apply for_each_Ok. intros q Hq. by apply checkAcceptState_Ok, vp_accept0. }
  apply bind_Ok. exists tt. split; [|done]. apply for_each_Ok. intros [q sd] Hq.
  by apply checkSourceState_Ok, vp_rules0.
Qed.

(** [isPDAValid] returns [True] or raises. *)
Lemma isPDAValid_Ok_true (p : pda) b : isPDAValid p = Ok b -> b = true.
Proof.
  unfold isPDAValid. repeat case_match; try done.
  destruct (for_each (checkAcceptState p) (accept p)) as [[]|]; simpl; [|done].
  by destruct (for_each (checkSourceState p) (rules p)) as [[]|]; simpl; [intros [=]|].
Qed.

(** C9: [isPDAValid] returns [True] exactly on the automata that satisfy the
    invariants of the specification's data model, as the code checks them. *)
Theorem isPDAValid_ok_iff (p : pda) : isPDAValid p = Ok true <-> valid_pda p.
Proof. split; [apply isPDAValid_sound|apply isPDAValid_complete]. Qed.

(** After splitting the [if]s of a check that raised [err], turn the
    tests into propositions and name the offending item. *)
Ltac raised_cause :=
  intros Herr; inversion Herr; subst; clear Herr; simpl;
  unfold eps_name, is_epsilon_name, py_in in *; bool_props; naive_solver.

Lemma checkPopSymbol_Err (p : pda) s sd a pd x e err :
  (s, sd) ∈ rules p -> (a, pd) ∈ sd -> (x, e) ∈ pd ->
  ~ (eps_name a /\ a ∈ sigma p) ->
  checkPopSymbol p a (x, e) = Err err -> error_cause p err.
Proof.
  intros Hs Ha Hx Hsym. unfold checkPopSymbol. case_ifs; try done; raised_cause.
Qed.

Lemma checkSymbol_Err (p : pda) s sd a pd err :
  (s, sd) ∈ rules p -> (a, pd) ∈ sd -> checkSymbol p (a, pd) = Err err -> error_cause p err.
Proof.
  intros Hs Ha. unfold checkSymbol. case_ifs; [raised_cause|raised_cause|].
  intros ([x e] & Hx & Herr)%for_each_Err.
  apply (checkPopSymbol_Err p s sd a pd x e); [done..| |done].
  unfold eps_name, is_epsilon_name, py_in in *. bool_props; naive_solver.
Qed.

(** C10: every exception [isPDAValid] raises reports a real defect of the
    automaton: the offending state or symbol is where the message says.
    In particular it never raises the pop-symbol [EpsilonTransitionError]. *)
Theorem isPDAValid_error_cause (p : pda) err : isPDAValid p = Err err -> error_cause p err.
Proof.
  unfold isPDAValid, py_in. repeat case_bool_decide; simpl;
    try (intros [=<-]; simpl; rewrite ?length_zero_iff_nil in *; naive_solver).
  intros [Hacc | ([] & _ & Hrules)]%bind_Err.
  - apply for_each_Err in Hacc as (q & Hq & Herr). revert Herr.
    unfold checkAcceptState, py_in. case_bool_decide; simpl; [done|].
    intros [=<-]. simpl. done.
  - apply bind_Err in Hrules as [Hrules | (? & _ & [=])].
    apply for_each_Err in Hrules as ([q sd] & Hq & Herr). revert Herr.
    unfold checkSourceState, py_in. case_bool_decide; simpl.
    + intros ([a pd] & Ha & Herr)%for_each_Err. by eapply checkSymbol_Err.
    + intros [=<-]. simpl. split; [|done].
      apply list_elem_of_fmap. exists (q, sd). done.
Qed.

(** C15: [isPDAValid] never returns [False]: it returns [True] or raises, so
    the [raise PDAError("PDA not valid")] of [runPDA] (line 371) and the
    [return False] of [parseFile] (line 202) cannot run. *)
Theorem isPDAValid_not_false (p : pda) : isPDAValid p <> Ok false.
Proof. intros Hf. by apply isPDAValid_Ok_true in Hf. Qed.

(** ** Witnesses: the theorems above on the automata of [Examples] *)

Lemma scenarioA_valid : valid_pda scenarioA.
Proof. apply isPDAValid_sound. reflexivity. Qed.

Lemma isPDAValid_error_cause_witness :
  isPDAValid badDestination = Err (InvalidStateError DestinationRole (py "q9")) /\
  error_cause badDestination (InvalidStateError DestinationRole (py "q9")).
Proof.
  assert (isPDAValid badDestination = Err (InvalidStateError DestinationRole (py "q9")))
    as Herr by reflexivity.
  split; [exact Herr|]. apply (isPDAValid_error_cause badDestination _ Herr).
Defined.
