(* ===== verification/Parser.v ===== *)
(** [parseFile] ([PDA.py] lines 62-205): the lines of the file, cleaned
    by [cleanLine] ([Comments.v]), then dispatched on the current section
    into the six parts of the automaton, the [Rules] lines inserted into
    the nested rule dictionary, and the result validated by [isPDAValid].
    The parser state is the current section and the automaton being
    built.  The theorems: the code's single loop is the specification's
    pipeline (preprocessor, then parser); the dispatch on the section's
    name refines [spec_parse], the parser of section 4.2 over a closed
    variant of sections; the only exception the loop
    raises is the [ValueError] of a [Rules] line without five fields; a
    [Rules] line overwrites the entry of its key (last write wins) under
    the normalised epsilon spellings; the rule dictionary the parser
    builds always has distinct keys and no ["ε"]; and an automaton
    [parseFile] returns satisfies everything the engine's theorems
    assume.  [parseFile_io] adds what line 200 prints
    ([printPDADataStructures], [Repr.v]): on a file [parseFile] accepts
    those are the six lines of the automaton it returns, which [undump]
    ([Dump.v]) reads back when the file is made of code points (then so is
    the automaton: [parseLines_valid]). *)

From S2P Require Import Prelude PyStr Utf8 PyDict Automaton Examples Repr Dump Validator Comments.

Local Open Scope Z_scope.

(** ** Reading the file *)

(** [inputPDAFile.readlines()] (line 63) on the text of the file, after
    the newline translation of text mode: the lines, each with its
    ["\n"], the last one without it when the text does not end in one. *)
Fixpoint readlines_from (cur : pystr) (text : pystr) : list pystr :=
  match text with
  | [] => if bool_decide (cur = []) then [] else [cur]
  | c :: text' =>
      if c =? 10 then (cur ++ [c]) :: readlines_from [] text'
      else readlines_from (cur ++ [c]) text'
  end.
Definition readlines (text : pystr) : list pystr := readlines_from [] text.

(** ** A [Rules] line *)

(** Lines 168-169 (and 177-178, 182-183): ["ε"] or any capitalisation of
    ["epsilon"] becomes ["epsilon"]. *)
Definition is_epsilon_spelling (x : pystr) : bool :=
  bool_decide (x = EPSILON_SIGN) || bool_decide (lower x = EPSILON).
Definition normalizeEpsilon (x : pystr) : pystr :=
  if is_epsilon_spelling x then EPSILON else x.

(** [d[k]] once [k in d] holds. *)
Definition subdict {V} (d : dict pystr (dict pystr V)) (k : pystr) : dict pystr V :=
  default [] (dict_get d k).

(** Lines 162-188: the nested insertion, creating [rules[sourceState]]
    and [rules[sourceState][symbol]] when absent.  The placeholder [{}]
    that line 180 stores is replaced at line 185 before anything reads
    it, under the same key, so only the final store is written. *)
Definition addRule (rules : ruledict)
    (sourceState symbol popSymbol pushSymbol destinationState : pystr) : ruledict :=
  let rules := if dict_mem rules sourceState then rules else dict_set rules sourceState [] in
  let symbol := normalizeEpsilon symbol in
  let rules :=
    if dict_mem (subdict rules sourceState) symbol then rules
    else dict_set rules sourceState (dict_set (subdict rules sourceState) symbol []) in
  let popSymbol := normalizeEpsilon popSymbol in
  let pushSymbol := normalizeEpsilon pushSymbol in
  let symdict := subdict rules sourceState in
  dict_set rules sourceState
    (dict_set symdict symbol
       (dict_set (subdict symdict symbol) popSymbol (mkEntry pushSymbol destinationState))).

(** Lines 151-188: unpack the five fields (Python raises [ValueError]
    for any other count), repair and strip each in the code's order
    (repair then strip for the two states, strip then repair for the
    three symbols), and insert the rule. *)
Definition parseRule (rules : ruledict) (line : pystr) : result pda_error ruledict :=
  match split line (py ",") with
  | [sourceState; symbol; popSymbol; pushSymbol; destinationState] =>
      let sourceState := strip (fixUtf8Corruption sourceState) in
      let symbol := fixUtf8Corruption (strip symbol) in
      let popSymbol := fixUtf8Corruption (strip popSymbol) in
      let pushSymbol := fixUtf8Corruption (strip pushSymbol) in
      let destinationState := strip (fixUtf8Corruption destinationState) in
      Ok (addRule rules sourceState symbol popSymbol pushSymbol destinationState)
  | fields => raise (ValueError (length fields))
  end.

(** ** The section dispatch *)

(** The local variables of [parseFile] other than the comment flag: the
    current section and the six parts of the automaton (line 199). *)
Record parser_state := mkParserState { currentSection : pystr; draft : pda }.

(** Lines 64-71 *)
Definition initial_state : parser_state :=
  mkParserState NONE (mkPDA [] [] [] [] NONE []).

Definition with_states (p : pda) xs := mkPDA xs (sigma p) (stackSigma p) (rules p) (start p) (accept p).
Definition with_sigma (p : pda) xs := mkPDA (states p) xs (stackSigma p) (rules p) (start p) (accept p).
Definition with_stackSigma (p : pda) xs := mkPDA (states p) (sigma p) xs (rules p) (start p) (accept p).
Definition with_rules (p : pda) r := mkPDA (states p) (sigma p) (stackSigma p) r (start p) (accept p).
Definition with_start (p : pda) x := mkPDA (states p) (sigma p) (stackSigma p) (rules p) x (accept p).
Definition with_accept (p : pda) xs := mkPDA (states p) (sigma p) (stackSigma p) (rules p) (start p) xs.

(** Lines 133-195, on a cleaned line.  The [Stack Sigma] and [Rules]
    branches have no [continue]: they fall through the later tests, which
    cannot match the same section. *)
Definition parseLine (st : parser_state) (line : pystr) : result pda_error parser_state :=
  match line with
  | [] => raise IndexError
  | c :: _ =>
      if bool_decide (c = 91) then Ok (mkParserState (slice line 1 (-1)) (draft st))
      else if bool_decide (line = py "End") then Ok (mkParserState NONE (draft st))
      else
        let sec := currentSection st in
        let p := draft st in
        if bool_decide (sec = NONE) then Ok st
        else if bool_decide (sec = py "States") then
          Ok (mkParserState sec (with_states p (states p ++ [line])))
        else if bool_decide (sec = py "Sigma") then
          Ok (mkParserState sec (with_sigma p (sigma p ++ [line])))
        else
          let p := if bool_decide (sec = py "Stack Sigma")
                   then with_stackSigma p (stackSigma p ++ [line]) else p in
          let* p := if bool_decide (sec = py "Rules")
                    then let* r := parseRule (rules p) line in Ok (with_rules p r)
                    else Ok p in
          if bool_decide (sec = py "Start") then Ok (mkParserState sec (with_start p line))
          else if bool_decide (sec = py "Accept") then
            Ok (mkParserState sec (with_accept p (accept p ++ [line])))
          else Ok (mkParserState sec p)
  end.

(** ** The file *)

(** Lines 72-196: the loop, cleaning each line and dispatching the lines
    that are not skipped. *)
Fixpoint parseLines (inMultipleLineComment : bool) (st : parser_state) (lines : list pystr) :
    result pda_error parser_state :=
  match lines with
  | [] => Ok st
  | line :: rest =>
      let '(flag, out) := cleanLine inMultipleLineComment line in
      match out with
      | Some l => let* st' := parseLine st l in parseLines flag st' rest
      | None => parseLines flag st rest
      end
  end.

(** Lines 62-205 on the text of the file: [False] is [Ok None], the
    automaton [Ok (Some p)]; printing the data structures (line 200) is
    output only. *)
Definition parseFile (text : pystr) : result pda_error (option pda) :=
  let* st := parseLines false initial_state (readlines text) in
  let PDA := draft st in
  let* valid := isPDAValid PDA in
  if negb valid then Ok None else Ok (Some PDA).

(** Lines 62-205 with what they print: line 200 prints the data
    structures of the automaton the loop built, before [isPDAValid] runs;
    an exception of the loop comes before any printing.  [isprintable] is
    [str.isprintable], which [repr] consults. *)
Definition parseFile_io (isprintable : Z -> bool) (text : pystr) :
    list pystr * result pda_error (option pda) :=
  match parseLines false initial_state (readlines text) with
  | Err e => ([], Err e)
  | Ok st =>
      let PDA := draft st in
      (printPDADataStructures isprintable PDA,
       let* valid := isPDAValid PDA in if negb valid then Ok None else Ok (Some PDA))
  end.

(** The specification's parser (section 4.2) on the preprocessor's
    output: the dispatch over the cleaned lines, in order. *)
Fixpoint parseCleaned (st : parser_state) (lines : list pystr) : result pda_error parser_state :=
  match lines with
  | [] => Ok st
  | l :: rest => let* st' := parseLine st l in parseCleaned st' rest
  end.

(** ** The specification's parser *)

(** Section 4.2 with the dispatch of section 9: the six known sections as
    a closed variant, the other names kept but ignored.  ["None"] is the
    code's marker for no section (line 64); a header [[None]] and no
    section both ignore their lines. *)
Inductive section :=
| NoSection | StatesSection | SigmaSection | StackSigmaSection
| RulesSection | StartSection | AcceptSection | OtherSection (name : pystr).

Definition section_of (name : pystr) : section :=
  if bool_decide (name = NONE) then NoSection
  else if bool_decide (name = py "States") then StatesSection
  else if bool_decide (name = py "Sigma") then SigmaSection
  else if bool_decide (name = py "Stack Sigma") then StackSigmaSection
  else if bool_decide (name = py "Rules") then RulesSection
  else if bool_decide (name = py "Start") then StartSection
  else if bool_decide (name = py "Accept") then AcceptSection
  else OtherSection name.

(** One cleaned line: a header opens a section, [End] closes it, and the
    line goes to the part of the automaton of the open section. *)
Definition spec_dispatch (sec : section) (p : pda) (line : pystr) :
    result pda_error (section * pda) :=
  match line with
  | [] => raise IndexError
  | c :: _ =>
      if bool_decide (c = 91) then Ok (section_of (slice line 1 (-1)), p)
      else if bool_decide (line = py "End") then Ok (NoSection, p)
      else
        match sec with
        | NoSection | OtherSection _ => Ok (sec, p)
        | StatesSection => Ok (sec, with_states p (states p ++ [line]))
        | SigmaSection => Ok (sec, with_sigma p (sigma p ++ [line]))
        | StackSigmaSection => Ok (sec, with_stackSigma p (stackSigma p ++ [line]))
        | RulesSection => let* r := parseRule (rules p) line in Ok (sec, with_rules p r)
        | StartSection => Ok (sec, with_start p line)
        | AcceptSection => Ok (sec, with_accept p (accept p ++ [line]))
        end
  end.

Fixpoint spec_parse (sec : section) (p : pda) (lines : list pystr) :
    result pda_error (section * pda) :=
  match lines with
  | [] => Ok (sec, p)
  | l :: rest => let* r := spec_dispatch sec p l in spec_parse r.1 r.2 rest
  end.

(** The parser state seen by the specification. *)
Definition abs_state (st : parser_state) : section * pda :=
  (section_of (currentSection st), draft st).

(** ** The parser's invariant: distinct keys and no [ε] *)

Definition popdict_norm (pd : popdict) : Prop :=
  forall x e, (x, e) ∈ pd -> x <> EPSILON_SIGN /\ push e <> EPSILON_SIGN.

Definition symdict_wf (sd : symdict) : Prop :=
  dict_wf sd /\ forall a pd, (a, pd) ∈ sd -> dict_wf pd.

Definition symdict_norm (sd : symdict) : Prop :=
  forall a pd, (a, pd) ∈ sd -> a <> EPSILON_SIGN /\ popdict_norm pd.

(** The parser keeps a stronger form of [normalized_rules]: also the
    symbols under which no rule is stored yet are not ["ε"]. *)
Definition rules_norm (r : ruledict) : Prop := forall q sd, (q, sd) ∈ r -> symdict_norm sd.

(** What the parser keeps true of the automaton it builds. *)
Definition parser_inv (st : parser_state) : Prop :=
  rules_wf (rules (draft st)) /\ rules_norm (rules (draft st)).

(** ** Lemmas *)

Lemma readlines_from_concat (cur text : pystr) : concat (readlines_from cur text) = cur ++ text.
Proof.
  revert cur. induction text as [|c text IH]; intros cur; simpl.
  - case_bool_decide; simpl; by rewrite ?app_nil_r.
  - case_if_eq E; simpl; rewrite IH; by rewrite <- app_assoc.
Qed.

(** The loop raises only what the dispatch of a cleaned line raises. *)
Lemma parseLines_parseCleaned (b : bool) (st : parser_state) (lines : list pystr) :
  parseLines b st lines = parseCleaned st (cleanLines b lines).
Proof.
  revert b st. induction lines as [|line lines IH]; intros b st; simpl; [done|].
  destruct (cleanLine b line) as [b' [l|]]; simpl; [|apply IH].
  destruct (parseLine st l); simpl; [apply IH|done].
Qed.

Lemma parseRule_Err (r : ruledict) line e :
  parseRule r line = Err e -> e = ValueError (length (split line (py ","))) /\
                              length (split line (py ",")) <> 5%nat.
Proof.
  unfold parseRule. destruct (split line (py ",")) as [|? [|? [|? [|? [|? [|? ?]]]]]];
    simpl; by intros [=<-].
Qed.

(** On a non-empty line, the dispatch raises only the [ValueError] of a
    [Rules] line. *)
Lemma parseLine_Err (st : parser_state) line e :
  line <> [] -> parseLine st line = Err e -> exists n, e = ValueError n /\ n <> 5%nat.
Proof.
  intros Hne. unfold parseLine. destruct line as [|c l]; [done|].
  case_ifs; try done; intros Herr.
  all: repeat match goal with
         | H : bind ?m _ = Err _ |- _ =>
             apply bind_Err in H as [H|(? & _ & H)]; simpl in H; try done
         | H : Ok _ = Err _ |- _ => done
         | H : parseRule _ _ = Err _ |- _ => apply parseRule_Err in H as [-> ?]; by eexists
         end.
Qed.

Lemma parseCleaned_Err (st : parser_state) lines e :
  Forall (fun l => l <> []) lines -> parseCleaned st lines = Err e ->
  exists n, e = ValueError n /\ n <> 5%nat.
Proof.
  intros Hall. revert st. induction Hall as [|l lines Hl _ IH]; intros st; simpl; [done|].
  intros [Herr | (st' & _ & Herr)]%bind_Err; [by eapply parseLine_Err|by eapply IH].
Qed.

(** *** Lookups after an insertion *)

Lemma subdict_Some {V} (d : dict pystr (dict pystr V)) k sd :
  dict_get d k = Some sd -> subdict d k = sd.
Proof. unfold subdict. by intros ->. Qed.

(** Storing an empty dictionary under an absent state (line 163), or
    under an absent symbol of a state (line 175), adds no rule. *)
Lemma rt_get_new_state (r : ruledict) s q a x :
  rt_get (if dict_mem r s then r else dict_set r s []) q a x = rt_get r q a x.
Proof.
  case_if_eq E; [done|]. simpl. rewrite dict_get_set. unfold dict_mem in E.
  case_decide; [subst|done]. by destruct (dict_get r s).
Qed.

Lemma rt_get_new_symbol (r : ruledict) s a q a' x :
  rt_get (if dict_mem (subdict r s) a then r
          else dict_set r s (dict_set (subdict r s) a [])) q a' x = rt_get r q a' x.
Proof.
  case_if_eq E; [done|]. simpl. rewrite dict_get_set. case_decide; [subst|done].
  unfold dict_mem, subdict in *. rewrite dict_get_set. unfold ruledict, symdict, popdict in *.
  destruct (dict_get r s) as [sd|]; simpl in *; case_decide; subst; try done.
  by destruct (dict_get sd a).
Qed.

(** [rules[s][a][x] = e] on the nested dictionary. *)
Lemma rt_get_set_path (r : ruledict) s a x e q a' x' :
  rt_get (dict_set r s (dict_set (subdict r s) a (dict_set (subdict (subdict r s) a) x e)))
    q a' x' =
  if decide ((q, a', x') = (s, a, x)) then Some e else rt_get r q a' x'.
Proof.
  unfold subdict. simpl. rewrite dict_get_set.
  destruct (decide (q = s)) as [->|Hq]; [|case_decide; [simplify_eq|done]].
  rewrite dict_get_set. destruct (decide (a' = a)) as [->|Ha].
  - rewrite dict_get_set. destruct (decide (x' = x)) as [->|Hx]; [by rewrite decide_True|].
    rewrite decide_False by congruence. unfold ruledict, symdict, popdict in *.
    destruct (dict_get r s) as [sd|]; simpl; [|done]. by destruct (dict_get sd a).
  - rewrite decide_False by congruence. unfold ruledict, symdict, popdict in *.
    by destruct (dict_get r s).
Qed.

Lemma addRule_rt_get (r : ruledict) s a x y d q a' x' :
  rt_get (addRule r s a x y d) q a' x' =
  if decide ((q, a', x') = (s, normalizeEpsilon a, normalizeEpsilon x))
  then Some (mkEntry (normalizeEpsilon y) d) else rt_get r q a' x'.
Proof.
  unfold addRule. rewrite rt_get_set_path. case_decide; [done|].
  by rewrite rt_get_new_symbol, rt_get_new_state.
Qed.

(** *** The rule dictionary stays well formed *)

Lemma dict_wf_nil {V} : dict_wf (V:=V) (K:=pystr) [].
Proof. constructor. Qed.

Lemma rules_wf_set (r : ruledict) s sd :
  rules_wf r -> symdict_wf sd -> rules_wf (dict_set r s sd).
Proof.
  intros [Hr Hin] Hsd. split; [by apply dict_set_wf|].
  intros q sd' [[=-> ->]|Hm]%dict_set_elem_of; [done|by apply (Hin q)].
Qed.

Lemma symdict_wf_set (sd : symdict) a pd :
  symdict_wf sd -> dict_wf pd -> symdict_wf (dict_set sd a pd).
Proof.
  intros [Hsd Hin] Hpd. split; [by apply dict_set_wf|].
  intros a' pd' [[=-> ->]|Hm]%dict_set_elem_of; [done|by apply (Hin a')].
Qed.

Lemma subdict_rules_wf (r : ruledict) s : rules_wf r -> symdict_wf (subdict r s).
Proof.
  intros [_ Hin]. unfold subdict, ruledict, symdict, popdict in *. destruct (dict_get r s) as [sd|] eqn:Hs; simpl.
  - apply (Hin s), dict_get_elem_of, Hs.
  - split; [apply dict_wf_nil|set_solver].
Qed.

Lemma subdict_symdict_wf (sd : symdict) a : symdict_wf sd -> dict_wf (subdict sd a).
Proof.
  intros [_ Hin]. unfold subdict, ruledict, symdict, popdict in *. destruct (dict_get sd a) as [pd|] eqn:Ha; simpl.
  - apply (Hin a), dict_get_elem_of, Ha.
  - apply dict_wf_nil.
Qed.

Lemma rules_norm_normalized (r : ruledict) : rules_norm r -> normalized_rules r.
Proof.
  intros Hr q sd a pd x e Hq Ha Hx. destruct (Hr q sd Hq a pd Ha) as [? Hpd].
  destruct (Hpd x e Hx). done.
Qed.

Lemma rules_norm_set (r : ruledict) s sd :
  rules_norm r -> symdict_norm sd -> rules_norm (dict_set r s sd).
Proof. intros Hr Hsd q sd' [[=-> ->]|Hm]%dict_set_elem_of; [done|by apply (Hr q)]. Qed.

Lemma symdict_norm_set (sd : symdict) a pd :
  symdict_norm sd -> a <> EPSILON_SIGN -> popdict_norm pd -> symdict_norm (dict_set sd a pd).
Proof. intros Hsd Ha Hpd a' pd' [[=-> ->]|Hm]%dict_set_elem_of; [done|by apply Hsd]. Qed.

Lemma popdict_norm_set (pd : popdict) x e :
  popdict_norm pd -> x <> EPSILON_SIGN -> push e <> EPSILON_SIGN -> popdict_norm (dict_set pd x e).
Proof. intros Hpd Hx He x' e' [[=-> ->]|Hm]%dict_set_elem_of; [done|by apply Hpd]. Qed.

Lemma subdict_rules_norm (r : ruledict) s : rules_norm r -> symdict_norm (subdict r s).
Proof.
  intros Hr. unfold subdict, ruledict, symdict, popdict in *.
  destruct (dict_get r s) as [sd|] eqn:Hs; simpl; [|unfold symdict_norm; set_solver].
  apply (Hr s), dict_get_elem_of, Hs.
Qed.

Lemma subdict_symdict_norm (sd : symdict) a : symdict_norm sd -> popdict_norm (subdict sd a).
Proof.
  intros Hsd. unfold subdict, ruledict, symdict, popdict in *.
  destruct (dict_get sd a) as [pd|] eqn:Ha; simpl; [|unfold popdict_norm; set_solver].
  apply (Hsd a), dict_get_elem_of, Ha.
Qed.

Lemma normalizeEpsilon_not_sign (x : pystr) : normalizeEpsilon x <> EPSILON_SIGN.
Proof.
  unfold normalizeEpsilon, is_epsilon_spelling. case_if_eq E; [done|]. bool_props. done.
Qed.

#[local] Hint Resolve rules_wf_set symdict_wf_set dict_set_wf subdict_rules_wf subdict_symdict_wf
  rules_norm_set symdict_norm_set popdict_norm_set subdict_rules_norm subdict_symdict_norm
  normalizeEpsilon_not_sign dict_wf_nil : parser.

Lemma addRule_wf (r : ruledict) s a x y d :
  rules_wf r -> rules_norm r -> rules_wf (addRule r s a x y d) /\ rules_norm (addRule r s a x y d).
Proof.
  intros Hwf Hn. unfold addRule.
  assert (symdict_wf [] /\ symdict_norm []) as [Hw0 Hn0]
    by (split; [split; [apply dict_wf_nil|set_solver]|unfold symdict_norm; set_solver]).
  assert (popdict_norm []) as Hp0 by (unfold popdict_norm; set_solver).
  set (r1 := if dict_mem r s then r else dict_set r s []).
  assert (rules_wf r1 /\ rules_norm r1) as [Hw1 Hn1]
    by (subst r1; case_match; eauto with parser).
  set (r2 := if dict_mem (subdict r1 s) (normalizeEpsilon a) then r1 else _).
  assert (rules_wf r2 /\ rules_norm r2) as [Hw2 Hn2]
    by (subst r2; case_match; split; eauto 7 with parser).
  split; eauto 7 with parser.
Qed.

(** *** The parser state *)

Lemma initial_state_inv : parser_inv initial_state.
Proof. split; [split; [apply dict_wf_nil|set_solver]|unfold rules_norm; set_solver]. Qed.

Lemma parseRule_Ok (r : ruledict) line r' :
  parseRule r line = Ok r' ->
  exists s a x y d, r' = addRule r s a x y d.
Proof.
  unfold parseRule. destruct (split line (py ",")) as [|? [|? [|? [|? [|? [|? ?]]]]]];
    simpl; try done. intros [=<-]. eauto 10.
Qed.

Lemma parseLine_inv (st st' : parser_state) line :
  parser_inv st -> parseLine st line = Ok st' -> parser_inv st'.
Proof.
  intros [Hwf Hn]. unfold parseLine. destruct line as [|c l]; [done|].
  case_ifs; intros Hok; try (injection Hok as <-; by split);
    apply bind_Ok in Hok as (p & Hp & Hok); revert Hok;
    repeat case_if_eq E; intros [=<-]; revert Hp; repeat case_if_eq E';
    try (intros [=<-]; by split);
    intros (r' & Hr & [=<-])%bind_Ok; apply parseRule_Ok in Hr as (s & a & x & y & d & ->);
    by apply addRule_wf.
Qed.

Lemma parseCleaned_inv (st st' : parser_state) lines :
  parser_inv st -> parseCleaned st lines = Ok st' -> parser_inv st'.
Proof.
  revert st. induction lines as [|l lines IH]; intros st Hst; simpl; [by intros [=<-]|].
  intros (st1 & H1 & H2)%bind_Ok. apply (IH st1); [by eapply parseLine_inv|done].
Qed.

(** *** The dispatch refines the specification's *)

Lemma section_of_cases (name : pystr) :
  (name = NONE /\ section_of name = NoSection) \/
  (name <> NONE /\ name = py "States" /\ section_of name = StatesSection) \/
  (name <> NONE /\ name <> py "States" /\ name = py "Sigma" /\ section_of name = SigmaSection) \/
  (name <> NONE /\ name <> py "States" /\ name <> py "Sigma" /\
   ((name = py "Stack Sigma" /\ section_of name = StackSigmaSection) \/
    (name = py "Rules" /\ section_of name = RulesSection) \/
    (name = py "Start" /\ section_of name = StartSection) \/
    (name = py "Accept" /\ section_of name = AcceptSection) \/
    (name <> py "Stack Sigma" /\ name <> py "Rules" /\ name <> py "Start" /\
     name <> py "Accept" /\ section_of name = OtherSection name))).
Proof. unfold section_of. repeat case_bool_decide; naive_solver. Qed.

Lemma parseLine_refines (st : parser_state) line :
  (let* st' := parseLine st line in Ok (abs_state st')) =
  spec_dispatch (section_of (currentSection st)) (draft st) line.
Proof.
  unfold parseLine, spec_dispatch, abs_state. destruct line as [|c l]; [done|].
  case_bool_decide; [done|]. case_bool_decide; [reflexivity|].
  destruct st as [sec p]; simpl.
  repeat case_bool_decide; subst; simpl; try reflexivity;
    try (exfalso; match goal with H : py _ = py _ |- _ => vm_compute in H; discriminate H end).
  all: try (destruct (parseRule _ _); simpl; [|done]).
  all: unfold section_of; repeat (case_bool_decide; try congruence); done.
Qed.

(** The loop raises nothing but the [ValueError] of a [Rules] line. *)
Lemma parseLines_ValueError (b : bool) (st : parser_state) lines e :
  parseLines b st lines = Err e -> exists n, e = ValueError n /\ n <> 5%nat.
Proof.
  rewrite parseLines_parseCleaned. apply parseCleaned_Err.
  apply list.Forall_forall. intros l (b0 & l0 & b' & Hc)%cleanLines_elem_of.
  by apply cleanLine_Some in Hc as [? _].
Qed.

(** What [parseFile] returns has passed the validator and keeps the
    parser's invariant. *)
Lemma parseFile_Some (text : pystr) (p : pda) :
  parseFile text = Ok (Some p) -> isPDAValid p = Ok true /\ rules_wf (rules p) /\ rules_norm (rules p).
Proof.
  unfold parseFile. intros (st & Hst & Hrest)%bind_Ok.
  apply bind_Ok in Hrest as (v & Hv & Hret). destruct v; simpl in Hret; [|done].
  injection Hret as <-. rewrite parseLines_parseCleaned in Hst.
  destruct (parseCleaned_inv _ _ _ initial_state_inv Hst) as [Hwf Hn]. done.
Qed.

(** [parseFile] never returns [False]. *)
Lemma parseFile_not_false (text : pystr) : parseFile text <> Ok None.
Proof.
  unfold parseFile. destruct (parseLines _ _ _) as [st|]; simpl; [|done].
  destruct (isPDAValid (draft st)) as [b|] eqn:Hv; simpl; [|done].
  apply isPDAValid_Ok_true in Hv as ->. done.
Qed.

(** *** Every string is made of code points *)

Lemma readlines_code_points (text : pystr) :
  code_points text = true -> forallb code_points (readlines text) = true.
Proof. intros Ht. rewrite <- code_points_concat. unfold readlines. by rewrite readlines_from_concat. Qed.

Lemma cleanLine_code_points b line0 b' line :
  cleanLine b line0 = (b', Some line) -> code_points line0 = true -> code_points line = true.
Proof.
  intros (_ & Hsub)%cleanLine_Some. apply code_points_incl. intros c Hc.
  eapply infix_elem_of; [|exact (Hsub c Hc)].
  eapply infix_trans; [apply dropLineComment_infix|apply strip_infix].
Qed.

Lemma join_code_points (sep : pystr) parts :
  code_points (join sep parts) = true -> forallb code_points parts = true.
Proof.
  induction parts as [|p [|q ps] IH]; simpl; [done|by intros ->|].
  rewrite !code_points_app. intros Hj. bool_props. rewrite H. simpl. by apply IH.
Qed.

Lemma strip_code_points (s : pystr) : code_points s = true -> code_points (strip s) = true.
Proof. apply code_points_infix, strip_infix. Qed.

Lemma normalizeEpsilon_code_points (x : pystr) :
  code_points x = true -> code_points (normalizeEpsilon x) = true.
Proof. unfold normalizeEpsilon. by case_match. Qed.

Lemma subdict_valid {V} kv (vv : V -> bool) (d : dict pystr (dict pystr V)) k :
  dict_valid kv (dict_valid kv vv) d = true -> dict_valid kv vv (subdict d k) = true.
Proof.
  intros Hd. unfold subdict. destruct (dict_get d k) eqn:Hg; [|done].
  by eapply dict_valid_get.
Qed.

#[local] Hint Resolve dict_valid_set subdict_valid normalizeEpsilon_code_points
  strip_code_points fixUtf8Corruption_code_points : parser.

Lemma addRule_valid (r : ruledict) s a x y d :
  rules_valid r = true -> code_points s = true -> code_points a = true -> code_points x = true ->
  code_points y = true -> code_points d = true -> rules_valid (addRule r s a x y d) = true.
Proof.
  unfold rules_valid, addRule. intros Hr Hs Ha Hx Hy Hd.
  assert (entry_valid (mkEntry (normalizeEpsilon y) d) = true)
    by (unfold entry_valid; simpl; by rewrite normalizeEpsilon_code_points).
  set (r1 := if dict_mem r s then r else dict_set r s []).
  assert (H1 : dict_valid code_points (dict_valid code_points (dict_valid code_points entry_valid)) r1 = true)
    by (subst r1; case_match; [done|by apply dict_valid_set]).
  set (r2 := if dict_mem (subdict r1 s) (normalizeEpsilon a) then r1 else _).
  assert (H2 : dict_valid code_points (dict_valid code_points (dict_valid code_points entry_valid)) r2 = true)
    by (subst r2; case_match; [done|apply dict_valid_set; auto with parser]).
  apply dict_valid_set; [done|done|].
  apply dict_valid_set; [auto with parser|auto with parser|].
  apply dict_valid_set; [do 2 apply subdict_valid; done|auto with parser|done].
Qed.

Lemma parseRule_valid (r r' : ruledict) line :
  rules_valid r = true -> code_points line = true -> parseRule r line = Ok r' -> rules_valid r' = true.
Proof.
  intros Hr Hl. unfold parseRule.
  pose proof (join_code_points (py ",") (split line (py ","))) as Hf.
  rewrite join_split in Hf by done. specialize (Hf Hl).
  destruct (split line (py ",")) as [|f1 [|f2 [|f3 [|f4 [|f5 [|? ?]]]]]]; try done.
  intros [=<-]. simpl in Hf. bool_props. apply addRule_valid; auto with parser.
Qed.

#[local] Arguments code_points : simpl never.

Ltac dump_valid_step :=
  unfold dump_valid, with_states, with_sigma, with_stackSigma, with_rules, with_start, with_accept in *;
  cbn [draft states sigma stackSigma rules accept] in *; rewrite ?forallb_app; bool_props; simpl;
  repeat match goal with H : _ = true |- _ => rewrite H end; rewrite ?andb_true_r; try done.

Lemma parseLine_valid (st st' : parser_state) line :
  dump_valid (draft st) = true -> code_points line = true ->
  parseLine st line = Ok st' -> dump_valid (draft st') = true.
Proof.
  intros Hv Hl. unfold parseLine. destruct line as [|c l]; [done|].
  case_ifs; intros Hok; try (injection Hok as <-; dump_valid_step; fail);
    apply bind_Ok in Hok as (p & Hp & Hok); revert Hok;
    repeat case_if_eq E; intros [=<-]; revert Hp; repeat case_if_eq E';
    try (intros [=<-]; dump_valid_step; fail);
    intros (r' & Hr & [=<-])%bind_Ok; dump_valid_step;
    (eapply parseRule_valid; [|exact Hl|exact Hr]); dump_valid_step.
Qed.

Lemma parseLines_valid (b : bool) (st st' : parser_state) lines :
  dump_valid (draft st) = true -> forallb code_points lines = true ->
  parseLines b st lines = Ok st' -> dump_valid (draft st') = true.
Proof.
  revert b st. induction lines as [|line lines IH]; intros b st Hv Hl; simpl; [by intros [=<-]|].
  simpl in Hl. apply andb_prop in Hl as [Hl0 Hls].
  destruct (cleanLine b line) as [flag [l|]] eqn:Hc; [|by apply IH].
  intros (st1 & H1 & H2)%bind_Ok. eapply IH; [|exact Hls|exact H2].
  eapply parseLine_valid; [exact Hv| |exact H1]. by eapply cleanLine_code_points.
Qed.

(** What [parseFile] returns is the automaton the loop built. *)
Lemma parseFile_draft (text : pystr) (p : pda) :
  parseFile text = Ok (Some p) ->
  exists st, parseLines false initial_state (readlines text) = Ok st /\ p = draft st.
Proof.
  unfold parseFile. intros (st & Hst & Hrest)%bind_Ok. exists st. split; [done|].
  apply bind_Ok in Hrest as ([|] & _ & Hret); simpl in Hret; congruence.
Qed.

(** The value part of [parseFile_io] is [parseFile]. *)
Lemma parseFile_io_parseFile isprintable (text : pystr) :
  (parseFile_io isprintable text).2 = parseFile text.
Proof. unfold parseFile_io, parseFile. by destruct (parseLines _ _ _). Qed.

(** On a file [parseFile] accepts, line 200 prints the automaton it
    returns. *)
Lemma parseFile_io_Some isprintable (text : pystr) (p : pda) :
  parseFile text = Ok (Some p) ->
  parseFile_io isprintable text = (printPDADataStructures isprintable p, Ok (Some p)).
Proof.
  intros Hp. pose proof Hp as (st & Hst & ->)%parseFile_draft.
  rewrite <- Hp, <- (parseFile_io_parseFile isprintable). unfold parseFile_io. by rewrite Hst.
Qed.

(** ** Theorems *)

(** [readlines] loses nothing: the lines put back together are the
    text of the file. *)
Theorem readlines_roundtrip (text : pystr) : concat (readlines text) = text.
Proof. apply readlines_from_concat. Qed.

(** The single loop of [parseFile], which cleans and dispatches each
    line in turn, is the pipeline of the specification: the preprocessor
    over all the lines, then the parser over the cleaned lines, then the
    validator. *)
Theorem parseFile_pipeline (text : pystr) :
  parseFile text =
  (let* st := parseCleaned initial_state (cleanLines false (readlines text)) in
   let* valid := isPDAValid (draft st) in
   if negb valid then Ok None else Ok (Some (draft st))).
Proof. unfold parseFile. by rewrite parseLines_parseCleaned. Qed.

(** C7: the section dispatch refines the specification's parser: on any
    cleaned lines, dispatching on the section's name as the code does and
    on the closed variant of sections as section 4.2 does build the same
    automaton, raise the same exception, and leave the same section
    open. *)
Theorem parseCleaned_refines (st : parser_state) lines :
  (let* st' := parseCleaned st lines in Ok (abs_state st')) =
  spec_parse (section_of (currentSection st)) (draft st) lines.
Proof.
  revert st. induction lines as [|l lines IH]; intros st; simpl; [done|].
  rewrite <- parseLine_refines. destruct (parseLine st l) as [st'|e]; simpl; [apply IH|done].
Qed.

(** C12: [parseFile] raises only the [ValueError] of a [Rules] line without
    five fields (never the [IndexError] of [line[0]]), or the exception
    [isPDAValid] raises on the automaton the loop built. *)
Theorem parseFile_Err (text : pystr) e :
  parseFile text = Err e ->
  (exists n, e = ValueError n /\ n <> 5%nat) \/
  (exists st, parseLines false initial_state (readlines text) = Ok st /\
              isPDAValid (draft st) = Err e).
Proof.
  unfold parseFile. destruct (parseLines false initial_state _) as [st|e'] eqn:Hst; simpl.
  - intros Herr. right. exists st. split; [done|].
    destruct (isPDAValid (draft st)) as [[]|]; simpl in Herr; by simplify_eq.
  - intros [=<-]. left. by apply (parseLines_ValueError false initial_state (readlines text)).
Qed.

(** C6: a [Rules] line with five fields always goes through, and then the
    rule table maps its key, with the epsilon spellings normalised, to its
    entry and leaves every other key as it was: a later line for the same
    key replaces the earlier one (last write wins). *)
Theorem parseRule_last_write_wins (r : ruledict) line f1 f2 f3 f4 f5 q a x :
  split line (py ",") = [f1; f2; f3; f4; f5] ->
  exists r', parseRule r line = Ok r' /\
    rt_get r' q a x =
    if decide ((q, a, x) = (strip (fixUtf8Corruption f1),
                            normalizeEpsilon (fixUtf8Corruption (strip f2)),
                            normalizeEpsilon (fixUtf8Corruption (strip f3))))
    then Some (mkEntry (normalizeEpsilon (fixUtf8Corruption (strip f4)))
                       (strip (fixUtf8Corruption f5)))
    else rt_get r q a x.
Proof. intros Hs. unfold parseRule. rewrite Hs. eexists. split; [done|]. apply addRule_rt_get. Qed.

(** C5: an automaton [parseFile] returns satisfies every assumption of the
    engine's theorems: it is valid, its dictionaries have distinct keys,
    and no rule uses the sign ["ε"] (every spelling became ["epsilon"]). *)
Theorem parseFile_Ok (text : pystr) (p : pda) :
  parseFile text = Ok (Some p) -> valid_pda p /\ rules_wf (rules p) /\ normalized_rules (rules p).
Proof.
  intros (Hv & Hwf & Hn)%parseFile_Some.
  split_and!; [by apply isPDAValid_sound|done|by apply rules_norm_normalized].
Qed.

(** The definition file of scenario A, with its comments and the
    spellings ["Epsilon"] and ["ε"], parses to the automaton of scenario A. *)
Example parse_scenarioA : parseFile scenarioA_file = Ok (Some scenarioA).
Proof. vm_compute. reflexivity. Qed.

(** Scenario D: a [Rules] line with four fields raises [ValueError]
    while the file is read, before any validation. *)
Example parse_scenarioD : parseFile scenarioD_file = Err (ValueError 4).
Proof. vm_compute. reflexivity. Qed.

(** [fixUtf8Corruption] repairs the states of [Rules] lines but not the
    lines of [States], [Start] and [Accept]: a UTF-8 file read as Latin-1
    whose state is ["qé"] is rejected, the repaired source state ["qé"] of
    its rule being undeclared. *)
Example parse_mojibake_state :
  parseFile mojibakeState_file = Err (InvalidStateError SourceRole (py "q" ++ [233])).
Proof. vm_compute. reflexivity. Qed.

(** A section header needs no closing bracket: ["[States"] opens the
    section ["State"], whose lines are then ignored. *)
Example section_header_unclosed :
  parseLine initial_state (py "[States") =
  Ok (mkParserState (py "State") (draft initial_state)).
Proof. reflexivity. Qed.

(** C8: on a file [parseFile] accepts, line 200 prints the six lines of
    the automaton it returns, and they give that automaton back. *)
Theorem parseFile_io_dump isprintable (text : pystr) (p : pda) :
  code_points text = true -> parseFile text = Ok (Some p) ->
  parseFile_io isprintable text = (printPDADataStructures isprintable p, Ok (Some p)) /\
  undump (printPDADataStructures isprintable p) = Some p.
Proof.
  intros Ht Hp. split; [by apply parseFile_io_Some|].
  apply parseFile_draft in Hp as (st & Hst & ->). apply undump_printPDADataStructures.
  eapply (parseLines_valid false initial_state); [reflexivity|by apply readlines_code_points|exact Hst].
Qed.

(** Scenario A: the lines [parseFile] prints, character for character
    what CPython prints for this file. *)
Example parseFile_io_scenarioA :
  (parseFile_io isprintable_bmp0 scenarioA_file).1 =
  [py "States : ['q0', 'q1']"; py "Alphabet : ['a', 'b']"; py "Stack Alphabet: ['Z']";
   py "Rules : {'q0': {'a': {'epsilon': {'push': 'Z', 'nextState': 'q0'}}, 'b': {'Z': {'push': 'epsilon', 'nextState': 'q1'}}}}";
   py "Start state : q0"; py "Accept state: q1"].
Proof. vm_compute. reflexivity. Qed.

(** Names with quotes and a control character are printed as CPython
    prints them: [repr] switches to double
    quotes for ["it's"], keeps a double quote inside single quotes and
    writes BEL as [\x07]; the start state is printed as it is, and two
    accept states as a list. *)
Example parseFile_io_quotes :
  let dq := [34%Z] in
  (parseFile_io isprintable_bmp0 quotes_file).1 =
  [py "States : [" ++ dq ++ py "it's" ++ dq ++ py ", 'q" ++ dq ++ py "1', 'q\x07']";
   py "Alphabet : ['a']"; py "Stack Alphabet: ['Z']";
   py "Rules : {" ++ dq ++ py "it's" ++ dq ++ py ": {'a': {'epsilon': {'push': 'Z', 'nextState': 'q" ++ dq ++ py "1'}}}}";
   py "Start state : it's";
   py "Accept states : [" ++ dq ++ py "it's" ++ dq ++ py ", 'q" ++ dq ++ py "1']"].
Proof. vm_compute. reflexivity. Qed.

(** ** Witnesses *)

Lemma parseRule_last_write_wins_witness :
  exists r', parseRule (rules scenarioA) (py "q0, a, EPSILON, Y, q1") = Ok r' /\
    rt_get r' (py "q0") (py "a") EPSILON = Some (mkEntry (py "Y") (py "q1")).
Proof.
  destruct (parseRule_last_write_wins (rules scenarioA) (py "q0, a, EPSILON, Y, q1")
              (py "q0") (py " a") (py " EPSILON") (py " Y") (py " q1")
              (py "q0") (py "a") EPSILON ltac:(reflexivity)) as (r' & Hr & Hget).
  exists r'. split; [exact Hr|]. rewrite Hget. vm_compute. reflexivity.
Defined.

Lemma parseFile_Ok_witness :
  valid_pda scenarioA /\ rules_wf (rules scenarioA) /\ normalized_rules (rules scenarioA).
Proof. apply (parseFile_Ok scenarioA_file). vm_compute. reflexivity. Defined.

Lemma parseFile_Err_witness :
  (exists n, ValueError 4 = ValueError n /\ n <> 5%nat) \/
  (exists st, parseLines false initial_state (readlines scenarioD_file) = Ok st /\
              isPDAValid (draft st) = Err (ValueError 4)).
Proof. apply (parseFile_Err scenarioD_file). vm_compute. reflexivity. Defined.

Lemma parseFile_io_dump_witness :
  code_points quotes_file = true /\
  parseFile_io isprintable_bmp0 quotes_file = (printPDADataStructures isprintable_bmp0 quotes_pda, Ok (Some quotes_pda)) /\
  undump (printPDADataStructures isprintable_bmp0 quotes_pda) = Some quotes_pda.
Proof.
  assert (Ht : code_points quotes_file = true) by (vm_compute; reflexivity).
  split; [exact Ht|]. apply parseFile_io_dump; [exact Ht|vm_compute; reflexivity].
Defined.
