(* ===== verification/Engine.v ===== *)
(** The execution engine of [PDA.py] (lines 207-211 and 292-403): one
    step on an input symbol ([getNextState]), the single epsilon step
    ([epsilonClosure]), the tokenisation of the input
    ([splitIncludingNoSeparator], [isStringValid]) and the run
    ([runPDA]).  The stack is the Python list: its top is the last
    element, [append] adds at the end and [pop] removes the last element.
    The lines [print] writes when [printPDASteps] is set are returned as
    the list [out].  [getNextState] and [epsilonClosure] read the rules
    through the [RuleTable] interface, so their theorems hold for the
    code's nested dictionary and for the specification's flat map. *)

From S2P Require Import Prelude PyStr PyDict Automaton Validator.

(** Lines 207-208 *)
Definition isEmpty (stack : list pystr) : bool :=
  match stack with [] => true | _ :: _ => false end.

(** Lines 210-211: [stack[-1]]; every caller has checked that the stack
    is not empty. *)
Definition top (stack : list pystr) : pystr := List.last stack [].

(** [stack.pop()], its value unused. *)
Definition pop (stack : list pystr) : list pystr := removelast stack.

(** Lines 328-332: with the empty separator the string is iterated
    character by character, otherwise it is split on the separator. *)
Definition splitIncludingNoSeparator (s separator : pystr) : list pystr :=
  if bool_decide (separator = []) then map (fun c => [c]) s else split s separator.

(** Lines 292-297 *)
Definition isStringValid (s stringSeparator : pystr) (sigma : list pystr) : bool :=
  forallb (fun symbol => py_in symbol sigma) (splitIncludingNoSeparator s stringSeparator).

Section Engine.
Context {T : Type} `{RuleTable T}.

(** Lines 299-324 *)
Definition getNextState (currentState currentSymbol : pystr) (rules : T)
    (stack : list pystr) : pystr * list pystr :=
  if negb (rt_has_state rules currentState) then (currentState, stack)
  else if negb (rt_has_symbol rules currentState currentSymbol) then (currentState, stack)
  else
    match rt_get rules currentState currentSymbol EPSILON with
    | None =>
        if isEmpty stack then (currentState, stack)
        else
          match rt_get rules currentState currentSymbol (top stack) with
          | None => (currentState, stack)
          | Some e => (nextState e, push_symbol (push e) (pop stack))
          end
    | Some e => (nextState e, push_symbol (push e) stack)
    end.

(** Lines 334-358: at most one epsilon move, preferring the entry keyed
    on the top of the stack to the one that pops nothing. *)
Definition epsilonClosure (currentState : pystr) (rules : T) (stack : list pystr) :
    pystr * list pystr :=
  if negb (rt_has_state rules currentState) then (currentState, stack)
  else if rt_has_symbol rules currentState EPSILON then
    if isEmpty stack then
      match rt_get rules currentState EPSILON EPSILON with
      | Some e => (nextState e, push_symbol (push e) stack)
      | None => (currentState, stack)
      end
    else
      match rt_get rules currentState EPSILON (top stack) with
      | Some e => (nextState e, push_symbol (push e) (pop stack))
      | None =>
          match rt_get rules currentState EPSILON EPSILON with
          | Some e => (nextState e, push_symbol (push e) stack)
          | None => (currentState, stack)
          end
      end
  else (currentState, stack).

(** Lines 385-394: the loop over the input symbols, with the lines it
    prints (the symbol, then the new state). *)
Fixpoint runSymbols (rules : T) (printPDASteps : bool) (currentState : pystr)
    (stack : list pystr) (symbols : list pystr) : pystr * list pystr * list pystr :=
  match symbols with
  | [] => (currentState, stack, [])
  | currentSymbol :: rest =>
      let '(currentState', stack') := getNextState currentState currentSymbol rules stack in
      let '(finalState, finalStack, out) :=
        runSymbols rules printPDASteps currentState' stack' rest in
      (finalState, finalStack,
       (if printPDASteps then [currentSymbol; currentState'] else []) ++ out)
  end.

(** Lines 377-399: from the start state and the empty stack, one
    epsilon move, the loop, one more epsilon move; with the printed
    lines. *)
Definition simulate (rules : T) (printPDASteps : bool) (start : pystr)
    (symbols : list pystr) : pystr * list pystr * list pystr :=
  let out0 := if printPDASteps then [start] else [] in
  let '(currentState, stack) := epsilonClosure start rules [] in
  let '(currentState, stack, out1) :=
    runSymbols rules printPDASteps currentState stack symbols in
  let stateBeforeEpsilon := currentState in
  let '(currentState, stack) := epsilonClosure currentState rules stack in
  let out2 :=
    if bool_decide (stateBeforeEpsilon <> currentState) && printPDASteps
    then [currentState] else [] in
  (currentState, stack, out0 ++ out1 ++ out2).
End Engine.

(** Lines 361-403.  The result is the acceptance and the printed lines. *)
Definition runPDA (p : pda) (inputString stringSeparator : pystr) (printPDASteps : bool) :
    result pda_error (bool * list pystr) :=
  let* valid := isPDAValid p in
  if negb valid then raise PDAError
  else
    let inputString := strip inputString in
    if negb (isStringValid inputString stringSeparator (sigma p)) then raise InputStringError
    else
      let '(currentState, _, out) :=
        simulate (rules p) printPDASteps (start p)
          (splitIncludingNoSeparator inputString stringSeparator) in
      Ok (py_in currentState (accept p), out).

(** ** Stack and tokenisation lemmas *)

Lemma top_snoc (st : list pystr) t : top (st ++ [t]) = t.
Proof. apply last_last. Qed.

Lemma pop_snoc (st : list pystr) t : pop (st ++ [t]) = st.
Proof. apply removelast_snoc. Qed.

Lemma isEmpty_snoc (st : list pystr) t : isEmpty (st ++ [t]) = false.
Proof. by destruct st. Qed.

Create Rewrite HintDb stack_rw.
#[export] Hint Rewrite top_snoc pop_snoc isEmpty_snoc : stack_rw.

(** A stack is empty or is some stack with a top pushed on it. *)
Lemma stack_cases (st : list pystr) : st = [] \/ exists st' t, st = st' ++ [t].
Proof.
  destruct st as [|x st]; [by left|right].
  destruct (exists_last (l := x :: st)) as (st' & t & ->); [done|eauto].
Qed.

Lemma push_symbol_length (x : pystr) st : length (push_symbol x st) <= S (length st).
Proof. unfold push_symbol. case_bool_decide; rewrite ?length_app; simpl; lia. Qed.

Lemma push_symbol_elem_of (x : pystr) st y : y ∈ push_symbol x st -> y ∈ st \/ (y = x /\ x <> EPSILON).
Proof. unfold push_symbol. case_bool_decide; [auto|]. rewrite elem_of_app, list_elem_of_singleton. tauto. Qed.

(** With tracing off the loop and the run print nothing. *)
Lemma runSymbols_quiet `{RuleTable T} (t : T) q st w : (runSymbols t false q st w).2 = [].
Proof.
  revert q st. induction w as [|a w IH]; intros q st; simpl; [done|].
  destruct (getNextState q a t st) as [q1 st1]. specialize (IH q1 st1).
  by destruct (runSymbols t false q1 st1 w) as [[q2 st2] out].
Qed.

Lemma simulate_quiet `{RuleTable T} (t : T) s w : (simulate t false s w).2 = [].
Proof.
  unfold simulate. destruct (epsilonClosure s t []) as [q0 st0].
  pose proof (runSymbols_quiet t q0 st0 w) as Hq.
  destruct (runSymbols t false q0 st0 w) as [[q1 st1] out1]. simpl in Hq. subst out1.
  destruct (epsilonClosure q1 t st1). simpl. by rewrite andb_false_r.
Qed.

(** Tokenisation loses nothing: with the empty separator the symbols
    are the characters of the string, otherwise joining the symbols with
    the separator gives the string back. *)
Theorem splitIncludingNoSeparator_roundtrip (s sep : pystr) :
  (if bool_decide (sep = []) then @concat Z else join sep) (splitIncludingNoSeparator s sep) = s.
Proof.
  unfold splitIncludingNoSeparator. case_bool_decide.
  - induction s as [|c s IH]; simpl; [done|]. by rewrite IH.
  - by apply join_split.
Qed.
