(* ===== verification/Spec.v ===== *)
(** The abstract machine of the specification and the refinement of the
    engine into it.  The machine is keyed by a transition lookup [look]
    (the specification's partial map from [(state, input symbol or
    epsilon, pop symbol or epsilon)] to an entry), and its configurations
    are a state and a stack (top at the end).  [sym_step] is the move on
    one input symbol of section 4.4, [eps_step] the single epsilon move,
    [run_word] the moves over a word and [accepts] acceptance, with the
    epsilon move exactly at the two ends of the run.  The refinement
    theorems say that [getNextState], [epsilonClosure], [runSymbols] and
    [runPDA] compute exactly these relations, for any rule table obeying
    the interface; [flatten] makes the code's nested dictionary the
    specification's flat map. *)

From S2P Require Import Prelude PyStr PyDict Automaton Examples Validator Engine.

Section Machine.
Variable look : pystr -> pystr -> pystr -> option entry.

(** The move on one input symbol [a]. *)
Inductive sym_step : pystr -> list pystr -> pystr -> pystr -> list pystr -> Prop :=
| sym_step_no_rule q st a :
    (forall x, look q a x = None) -> sym_step q st a q st
| sym_step_eps_pop q st a e :
    look q a EPSILON = Some e ->
    sym_step q st a (nextState e) (push_symbol (push e) st)
| sym_step_pop q st t a e :
    look q a EPSILON = None -> look q a t = Some e ->
    sym_step q (st ++ [t]) a (nextState e) (push_symbol (push e) st)
| sym_step_empty q a :
    look q a EPSILON = None -> sym_step q [] a q []
| sym_step_no_top q st t a :
    look q a EPSILON = None -> look q a t = None ->
    sym_step q (st ++ [t]) a q (st ++ [t]).

(** The single epsilon move: an entry keyed on the top of the stack
    first, then the entry that pops nothing, else no move. *)
Inductive eps_step : pystr -> list pystr -> pystr -> list pystr -> Prop :=
| eps_step_top q st t e :
    look q EPSILON t = Some e ->
    eps_step q (st ++ [t]) (nextState e) (push_symbol (push e) st)
| eps_step_pop_nothing q st e :
    look q EPSILON EPSILON = Some e ->
    (forall st' t, st = st' ++ [t] -> look q EPSILON t = None) ->
    eps_step q st (nextState e) (push_symbol (push e) st)
| eps_step_none q st :
    look q EPSILON EPSILON = None ->
    (forall st' t, st = st' ++ [t] -> look q EPSILON t = None) ->
    eps_step q st q st.

(** The moves over a word, one symbol at a time, with no epsilon move in
    between. *)
Inductive run_word : pystr -> list pystr -> list pystr -> pystr -> list pystr -> Prop :=
| run_word_nil q st : run_word q st [] q st
| run_word_cons q st a w q1 st1 q2 st2 :
    sym_step q st a q1 st1 -> run_word q1 st1 w q2 st2 -> run_word q st (a :: w) q2 st2.

(** Acceptance: an epsilon move from the start state on the empty
    stack, the word, an epsilon move, and an accepting final state. *)
Definition accepts (start : pystr) (acc : list pystr) (w : list pystr) : Prop :=
  exists q0 st0 q1 st1 qf stf,
    eps_step start [] q0 st0 /\ run_word q0 st0 w q1 st1 /\ eps_step q1 st1 qf stf /\
    qf ∈ acc.
End Machine.

(** ** The moves as functions of the lookup alone *)

(** The reference move: what section 4.4 prescribes, read off the lookup. *)
Definition next_by_lookup (look : pystr -> pystr -> pystr -> option entry)
    (q a : pystr) (st : list pystr) : pystr * list pystr :=
  match look q a EPSILON with
  | Some e => (nextState e, push_symbol (push e) st)
  | None =>
      if isEmpty st then (q, st)
      else match look q a (top st) with
           | Some e => (nextState e, push_symbol (push e) (pop st))
           | None => (q, st)
           end
  end.

Definition eps_by_lookup (look : pystr -> pystr -> pystr -> option entry)
    (q : pystr) (st : list pystr) : pystr * list pystr :=
  match (if isEmpty st then None else look q EPSILON (top st)) with
  | Some e => (nextState e, push_symbol (push e) (pop st))
  | None =>
      match look q EPSILON EPSILON with
      | Some e => (nextState e, push_symbol (push e) st)
      | None => (q, st)
      end
  end.

Section Lookup.
Variable look : pystr -> pystr -> pystr -> option entry.

Lemma sym_step_next q st a q' st' :
  sym_step look q st a q' st' -> (q', st') = next_by_lookup look q a st.
Proof.
  unfold next_by_lookup. intros []; intros; autorewrite with stack_rw;
    repeat match goal with H : look _ _ _ = _ |- _ => rewrite H end; try done.
  rewrite !H. by destruct (isEmpty st0).
Qed.

Lemma next_sym_step q st a : sym_step look q st a (next_by_lookup look q a st).1
                                  (next_by_lookup look q a st).2.
Proof.
  unfold next_by_lookup. destruct (look q a EPSILON) eqn:He; [by constructor|].
  destruct (stack_cases st) as [->|(s1 & t & ->)]; simpl; [by constructor|].
  autorewrite with stack_rw. destruct (look q a t) eqn:Ht; by constructor.
Qed.

Lemma eps_step_eps q st q' st' :
  eps_step look q st q' st' -> (q', st') = eps_by_lookup look q st.
Proof.
  unfold eps_by_lookup. intros []; intros.
  - autorewrite with stack_rw. by rewrite H.
  - destruct (stack_cases st0) as [->|(s1 & t & ->)]; simpl; [by rewrite H|].
    autorewrite with stack_rw. by rewrite (H0 s1 t), H.
  - destruct (stack_cases st0) as [->|(s1 & t & ->)]; simpl; [by rewrite H|].
    autorewrite with stack_rw. by rewrite (H0 s1 t), H.
Qed.

Lemma eps_eps_step q st : eps_step look q st (eps_by_lookup look q st).1
                             (eps_by_lookup look q st).2.
Proof.
  unfold eps_by_lookup.
  destruct (stack_cases st) as [->|(s1 & t & ->)]; simpl.
  - assert (forall st'' t', [] = st'' ++ [t'] -> look q EPSILON t' = None)
      by (intros ? ? Hnil; by destruct (app_cons_not_nil _ _ _ Hnil)).
    destruct (look q EPSILON EPSILON) eqn:He; simpl;
      [by apply eps_step_pop_nothing|by apply eps_step_none].
  - autorewrite with stack_rw. destruct (look q EPSILON t) eqn:Ht; [by constructor|].
    assert (forall st'' t', s1 ++ [t] = st'' ++ [t'] -> look q EPSILON t' = None)
      by (intros ? ? [_ <-]%app_inj_tail; done).
    destruct (look q EPSILON EPSILON) eqn:He; simpl;
      [by apply eps_step_pop_nothing|by apply eps_step_none].
Qed.

Lemma sym_step_iff q st a q' st' :
  sym_step look q st a q' st' <-> (q', st') = next_by_lookup look q a st.
Proof.
  split; [apply sym_step_next|]. intros Heq.
  pose proof (next_sym_step q st a) as Hs. by rewrite <- Heq in Hs.
Qed.

Lemma eps_step_iff q st q' st' :
  eps_step look q st q' st' <-> (q', st') = eps_by_lookup look q st.
Proof.
  split; [apply eps_step_eps|]. intros Heq.
  pose proof (eps_eps_step q st) as Hs. by rewrite <- Heq in Hs.
Qed.
End Lookup.

Lemma next_by_lookup_none look q a st :
  (forall x, look q a x = None) -> next_by_lookup look q a st = (q, st).
Proof. intros Hn. unfold next_by_lookup. rewrite !Hn. by destruct (isEmpty st). Qed.

Lemma eps_by_lookup_none look q st :
  (forall x, look q EPSILON x = None) -> eps_by_lookup look q st = (q, st).
Proof. intros Hn. unfold eps_by_lookup. rewrite !Hn. by destruct (isEmpty st). Qed.

(** The reference moves only read the lookup at points. *)
Lemma next_by_lookup_ext (l1 l2 : pystr -> pystr -> pystr -> option entry) q a st :
  (forall q a x, l1 q a x = l2 q a x) -> next_by_lookup l1 q a st = next_by_lookup l2 q a st.
Proof. intros Heq. unfold next_by_lookup. by rewrite !Heq. Qed.

Lemma eps_by_lookup_ext (l1 l2 : pystr -> pystr -> pystr -> option entry) q st :
  (forall q a x, l1 q a x = l2 q a x) -> eps_by_lookup l1 q st = eps_by_lookup l2 q st.
Proof. intros Heq. unfold eps_by_lookup. by rewrite !Heq. Qed.

(** The machine only reads its lookup at points. *)
Lemma run_word_ext (l1 l2 : pystr -> pystr -> pystr -> option entry) q st w q' st' :
  (forall q a x, l1 q a x = l2 q a x) -> run_word l1 q st w q' st' -> run_word l2 q st w q' st'.
Proof.
  intros Heq. induction 1 as [|q st a w q1 st1 q2 st2 Hs _ IH]; [constructor|].
  econstructor; [|exact IH]. apply sym_step_iff.
  rewrite <- (next_by_lookup_ext l1 l2) by done. by apply sym_step_iff.
Qed.

Lemma accepts_ext_1 (l1 l2 : pystr -> pystr -> pystr -> option entry) s acc w :
  (forall q a x, l1 q a x = l2 q a x) -> accepts l1 s acc w -> accepts l2 s acc w.
Proof.
  intros Heq (q0 & st0 & q1 & st1 & qf & stf & H0 & H1 & H2 & Hf).
  exists q0, st0, q1, st1, qf, stf. split_and!; [|by eapply run_word_ext| |done].
  all: apply eps_step_iff; rewrite <- (eps_by_lookup_ext l1 l2) by done; by apply eps_step_iff.
Qed.

Lemma accepts_ext (l1 l2 : pystr -> pystr -> pystr -> option entry) s acc w :
  (forall q a x, l1 q a x = l2 q a x) -> accepts l1 s acc w <-> accepts l2 s acc w.
Proof. intros Heq. split; apply accepts_ext_1; [done|]. intros. by rewrite Heq. Qed.

(** ** Refinement: the engine computes the machine's moves *)

Section Refinement.
Context {T : Type} `{RuleTableLaws T}.

(** The membership tests of [getNextState] are shortcuts: the move is
    the reference move on the lookup. *)
Lemma getNextState_by_lookup (t : T) q a st :
  getNextState q a t st = next_by_lookup (rt_get t) q a st.
Proof.
  unfold getNextState. destruct (rt_has_state t q) eqn:Hq; simpl.
  - destruct (rt_has_symbol t q a) eqn:Ha; simpl; [done|].
    symmetry. apply next_by_lookup_none. intros x. by apply rt_no_symbol_no_entry.
  - symmetry. apply next_by_lookup_none. intros x.
    by apply rt_no_symbol_no_entry, rt_no_state_no_symbol.
Qed.

Lemma epsilonClosure_by_lookup (t : T) q st :
  epsilonClosure q t st = eps_by_lookup (rt_get t) q st.
Proof.
  unfold epsilonClosure, eps_by_lookup. destruct (rt_has_state t q) eqn:Hq; simpl.
  - destruct (rt_has_symbol t q EPSILON) eqn:Ha; [by destruct (isEmpty st)|].
    rewrite !rt_no_symbol_no_entry by done. by destruct (isEmpty st).
  - rewrite !rt_no_symbol_no_entry by (by apply rt_no_state_no_symbol).
    by destruct (isEmpty st).
Qed.

(** C3: [getNextState] refines the move on one input symbol of the
    specification: it returns [(q', st')] exactly when the machine keyed
    by the table's lookup moves from [(q, st)] on [a] to [(q', st')]. *)
Theorem getNextState_refines (t : T) q a st q' st' :
  getNextState q a t st = (q', st') <-> sym_step (rt_get t) q st a q' st'.
Proof. rewrite sym_step_iff, getNextState_by_lookup. split; auto. Qed.

(** C4: [epsilonClosure] refines the single epsilon move. *)
Theorem epsilonClosure_refines (t : T) q st q' st' :
  epsilonClosure q t st = (q', st') <-> eps_step (rt_get t) q st q' st'.
Proof. rewrite eps_step_iff, epsilonClosure_by_lookup. split; auto. Qed.

Lemma runSymbols_refines (t : T) b q st w q' st' :
  run_word (rt_get t) q st w q' st' <-> exists out, runSymbols t b q st w = (q', st', out).
Proof.
  revert q st. induction w as [|a w IH]; intros q st; simpl.
  - split; [intros Hr; inversion Hr; subst; eauto|intros (out & [=-> ->])]. constructor.
  - destruct (getNextState q a t st) as [q1 st1] eqn:Hs.
    destruct (runSymbols t b q1 st1 w) as [[q2 st2] out] eqn:Hr. split.
    + intros Hw. inversion Hw as [|? ? ? ? q1' st1' ? ? Hstep Hrest]; subst.
      apply sym_step_iff in Hstep. rewrite <- getNextState_by_lookup, Hs in Hstep.
      injection Hstep as <- <-.
      apply IH in Hrest as (out' & Hrest). rewrite Hr in Hrest. injection Hrest as -> -> _.
      eauto.
    + intros (out' & [=-> -> _]). econstructor.
      { apply sym_step_iff. by rewrite <- getNextState_by_lookup, Hs. }
      apply IH. eauto.
Qed.
End Refinement.

(** ** The run *)

Section Run.
Context {T : Type} `{RuleTableLaws T}.

(** The final state of [simulate] is accepting exactly when the machine
    accepts the word. *)
Lemma simulate_accepts (t : T) b s acc w :
  py_in (simulate t b s w).1.1 acc = true <-> accepts (rt_get t) s acc w.
Proof.
  unfold simulate, accepts, py_in.
  destruct (epsilonClosure s t []) as [q0 st0] eqn:E0.
  destruct (runSymbols t b q0 st0 w) as [[q1 st1] out1] eqn:E1.
  destruct (epsilonClosure q1 t st1) as [qf stf] eqn:E2. simpl.
  rewrite bool_decide_eq_true. split.
  - intros Hf. exists q0, st0, q1, st1, qf, stf. split_and!; try done.
    + apply eps_step_iff. by rewrite <- epsilonClosure_by_lookup, E0.
    + apply (runSymbols_refines t b). eauto.
    + apply eps_step_iff. by rewrite <- epsilonClosure_by_lookup, E2.
  - intros (q0' & st0' & q1' & st1' & qf' & stf' & G0 & G1 & G2 & Hin).
    apply eps_step_iff in G0. rewrite <- epsilonClosure_by_lookup, E0 in G0.
    injection G0 as <- <-.
    apply (runSymbols_refines t b) in G1 as (out' & G1). rewrite E1 in G1.
    injection G1 as <- <- _.
    apply eps_step_iff in G2. rewrite <- epsilonClosure_by_lookup, E2 in G2.
    by injection G2 as <- <-.
Qed.
End Run.

(** On well-formed rules the code's nested dictionary and the flat map
    drive the engine the same way. *)
Lemma runSymbols_flatten (r : ruledict) b q st w :
  rules_wf r -> runSymbols r b q st w = runSymbols (flatten r) b q st w.
Proof.
  intros Hwf. revert q st. induction w as [|a w IH]; intros q st; simpl; [done|].
  rewrite !getNextState_by_lookup.
  rewrite (next_by_lookup_ext (rt_get r) (rt_get (flatten r)))
    by (intros; symmetry; by apply flatten_lookup).
  destruct (next_by_lookup _ q a st) as [q1 st1]. by rewrite IH.
Qed.

(** On rules whose dictionaries have distinct keys (as [parseFile]
    builds them), running the code's nested dictionary is running the
    specification's flat transition map: same final configuration and same
    printed lines. *)
Theorem simulate_flatten (r : ruledict) b s w :
  rules_wf r -> simulate r b s w = simulate (flatten r) b s w.
Proof.
  intros Hwf. unfold simulate. rewrite !epsilonClosure_by_lookup.
  rewrite (eps_by_lookup_ext (rt_get r) (rt_get (flatten r)) s)
    by (intros; symmetry; by apply flatten_lookup).
  destruct (eps_by_lookup _ s []) as [q0 st0]. rewrite runSymbols_flatten by done.
  destruct (runSymbols (flatten r) b q0 st0 w) as [[q1 st1] out1].
  rewrite !epsilonClosure_by_lookup.
  by rewrite (eps_by_lookup_ext (rt_get r) (rt_get (flatten r)) q1)
    by (intros; symmetry; by apply flatten_lookup).
Qed.

(** On a valid automaton and an input of declared symbols, [runPDA] is
    the run of [simulate] and the test of line 400. *)
Lemma runPDA_simulate (p : pda) w sep b :
  valid_pda p -> isStringValid (strip w) sep (sigma p) = true ->
  runPDA p w sep b =
  Ok (py_in (simulate (rules p) b (start p) (splitIncludingNoSeparator (strip w) sep)).1.1 (accept p),
      (simulate (rules p) b (start p) (splitIncludingNoSeparator (strip w) sep)).2).
Proof.
  intros Hv Hs. unfold runPDA. rewrite (isPDAValid_complete p Hv). simpl. rewrite Hs. simpl.
  by destruct (simulate _ _ _ _) as [[? ?] ?].
Qed.

(** C14: [runPDA] raises exactly the validator's exception, or
    [InputStringError] when a symbol of the stripped input is outside the
    alphabet of a valid automaton; in particular never [PDAError]. *)
Theorem runPDA_Err (p : pda) w sep b e :
  runPDA p w sep b = Err e <->
  isPDAValid p = Err e \/
  (valid_pda p /\ isStringValid (strip w) sep (sigma p) = false /\ e = InputStringError).
Proof.
  unfold runPDA. pose proof (isPDAValid_Ok_true p) as Htrue.
  pose proof (isPDAValid_complete p) as Hcomplete.
  destruct (isPDAValid p) as [[|]|e'] eqn:Hv; simpl.
  - destruct (isStringValid (strip w) sep (sigma p)) eqn:Hs; simpl.
    + destruct (simulate _ _ _ _) as [[? ?] ?]. split; [done|]. intros [|(_&?&_)]; done.
    + split; [intros [=<-]; right; split_and!; try done; by apply isPDAValid_sound|].
      intros [|(_&_&->)]; done.
  - by specialize (Htrue false eq_refl).
  - split; [intros [=<-]; by left|]. intros [[=<-]|(Hp&_)]; [done|].
    by specialize (Hcomplete Hp).
Qed.

(** C2: on a valid automaton and an input whose symbols are all in the
    alphabet, [runPDA] returns (it terminates without raising) and accepts
    exactly when the specification's machine, keyed by the automaton's
    transition lookup, accepts the tokenised input. *)
Theorem runPDA_accepts (p : pda) w sep b :
  valid_pda p -> isStringValid (strip w) sep (sigma p) = true ->
  exists acc out, runPDA p w sep b = Ok (acc, out) /\
    (acc = true <-> accepts (rt_get (rules p)) (start p) (accept p)
                            (splitIncludingNoSeparator (strip w) sep)).
Proof.
  intros Hv Hs. rewrite runPDA_simulate by done. do 2 eexists. split; [done|].
  apply simulate_accepts.
Qed.

(** ** Witnesses: the theorems above on the automata of [Examples] *)

Lemma runPDA_accepts_witness :
  valid_pda scenarioA /\ isStringValid (strip (py "ab")) [] (sigma scenarioA) = true /\
  exists acc out, runPDA scenarioA (py "ab") [] true = Ok (acc, out) /\
    (acc = true <-> accepts (rt_get (rules scenarioA)) (start scenarioA) (accept scenarioA)
                            (splitIncludingNoSeparator (strip (py "ab")) [])).
Proof.
  split; [exact scenarioA_valid|]. split; [reflexivity|].
  apply (runPDA_accepts scenarioA (py "ab") [] true scenarioA_valid). reflexivity.
Defined.

Lemma getNextState_refines_witness :
  sym_step (rt_get (rules scenarioA)) (py "q0") [] (py "a") (py "q0") [py "Z"].
Proof. apply (getNextState_refines (rules scenarioA)). reflexivity. Defined.

Lemma epsilonClosure_refines_witness :
  eps_step (rt_get (rules scenarioE)) (py "q0") [] (py "q1") [].
Proof. apply (epsilonClosure_refines (rules scenarioE)). reflexivity. Defined.

Lemma simulate_flatten_witness :
  rules_wf (rules scenarioA) /\
  simulate (rules scenarioA) true (start scenarioA) [py "a"; py "b"] =
  simulate (flatten (rules scenarioA)) true (start scenarioA) [py "a"; py "b"].
Proof.
  assert (rules_wf (rules scenarioA)) as Hwf by (apply rules_wfb_spec; reflexivity).
  split; [exact Hwf|]. apply (simulate_flatten (rules scenarioA) true _ _ Hwf).
Defined.
