(* ===== verification/Invariants.v ===== *)
(** Invariants and bounds of a run.  On a validated automaton whose rules
    are normalised (as [parseFile] leaves them) every configuration the
    engine reaches has a declared state and a stack of declared stack
    symbols; on any rule table, ["epsilon"] is never pushed, each move
    grows the stack by at most one symbol, and the printed trace has one
    line for the start state, two per input symbol and at most one more. *)

From S2P Require Import Prelude PyStr PyDict Automaton Examples Validator Engine Spec.

(** A configuration of a run: a declared state, declared stack symbols. *)
Definition config_ok (p : pda) (q : pystr) (st : list pystr) : Prop :=
  q ∈ states p /\ forall x, x ∈ st -> x ∈ stackSigma p.

(** What the reference moves do to the stack, for any lookup. *)
(** An entry a move may take on a valid automaton. *)
Definition entry_fits (p : pda) (e : entry) : Prop :=
  nextState e ∈ states p /\ (push e ∈ stackSigma p \/ push e = EPSILON).

(** What a move does to the stack: it stays, or pushes an entry's
    symbol on the old or the popped stack. *)
Definition stack_move (st st' : list pystr) : Prop :=
  st' = st \/ exists x, st' = push_symbol x st \/ st' = push_symbol x (pop st).

Section Moves.
Variable look : pystr -> pystr -> pystr -> option entry.
Variable P : entry -> Prop.
Hypothesis look_P : forall q a x e, look q a x = Some e -> P e.

(** A move ends in the state of an entry of the table or stays, and its
    stack is the old one, possibly popped, possibly with the entry's
    push symbol on top. *)
Lemma next_by_lookup_cases q a st :
  next_by_lookup look q a st = (q, st) \/
  exists e, P e /\ (next_by_lookup look q a st).1 = nextState e /\
    ((next_by_lookup look q a st).2 = push_symbol (push e) st \/
     (next_by_lookup look q a st).2 = push_symbol (push e) (pop st)).
Proof.
  unfold next_by_lookup. destruct (look q a EPSILON) eqn:He.
  { right. exists e. simpl. eauto. }
  destruct (isEmpty st); [by left|]. destruct (look q a (top st)) eqn:Ht; [|by left].
  right. exists e. simpl. eauto.
Qed.

Lemma eps_by_lookup_cases q st :
  eps_by_lookup look q st = (q, st) \/
  exists e, P e /\ (eps_by_lookup look q st).1 = nextState e /\
    ((eps_by_lookup look q st).2 = push_symbol (push e) st \/
     (eps_by_lookup look q st).2 = push_symbol (push e) (pop st)).
Proof.
  unfold eps_by_lookup. destruct (if isEmpty st then None else look q EPSILON (top st)) eqn:Ht.
  - right. exists e. simpl. split; [|auto]. destruct (isEmpty st); [done|eauto].
  - destruct (look q EPSILON EPSILON) eqn:He; [|by left]. right. exists e. simpl. eauto.
Qed.
End Moves.

Lemma pop_length (st : list pystr) : length (pop st) <= length st.
Proof. unfold pop. rewrite removelast_length. lia. Qed.

Lemma elem_of_pop (st : list pystr) x : x ∈ pop st -> x ∈ st.
Proof. apply elem_of_removelast. Qed.

#[export] Hint Resolve elem_of_pop : pda.

(** ** The configuration invariant *)

Lemma valid_entry (p : pda) q a x e :
  valid_pda p -> normalized_rules (rules p) -> rt_get (rules p) q a x = Some e ->
  entry_fits p e.
Proof.
  intros Hv Hn (sd & pd & Hq & Ha & Hx)%rt_get_ruledict_Some.
  destruct (vp_rules _ Hv q sd Hq) as [_ Hsd]. destruct (Hsd a pd Ha) as [_ Hpd].
  destruct (Hpd x e Hx) as (_ & Hpush & _ & Hnext).
  destruct (Hn q sd a pd x e Hq Ha Hx) as (_ & _ & Hns).
  split; [done|]. destruct Hpush as [|Heps]; [by left|right].
  unfold eps_name in Heps. rewrite elem_of_cons, list_elem_of_singleton in Heps.
  by destruct Heps.
Qed.

(** A move that stays, or takes a fitting entry, keeps the invariant. *)
Lemma move_config_ok (p : pda) q st (r : pystr * list pystr) :
  config_ok p q st ->
  (r = (q, st) \/ exists e, entry_fits p e /\ r.1 = nextState e /\
     (r.2 = push_symbol (push e) st \/ r.2 = push_symbol (push e) (pop st))) ->
  config_ok p r.1 r.2.
Proof.
  intros [Hq Hst] [->|(e & [Hn Hpush] & -> & Hr)]; [done|]. split; [done|].
  intros y. destruct Hr as [-> | ->]; intros [Hy | [-> Hne]]%push_symbol_elem_of;
    eauto with pda; by destruct Hpush.
Qed.

Lemma getNextState_config_ok (p : pda) q a st :
  valid_pda p -> normalized_rules (rules p) -> config_ok p q st ->
  config_ok p (getNextState q a (rules p) st).1 (getNextState q a (rules p) st).2.
Proof.
  intros Hv Hn Hc. rewrite getNextState_by_lookup. apply (move_config_ok p q st); [done|].
  apply (next_by_lookup_cases _ (entry_fits p)). intros. by eapply valid_entry.
Qed.

Lemma epsilonClosure_config_ok (p : pda) q st :
  valid_pda p -> normalized_rules (rules p) -> config_ok p q st ->
  config_ok p (epsilonClosure q (rules p) st).1 (epsilonClosure q (rules p) st).2.
Proof.
  intros Hv Hn Hc. rewrite epsilonClosure_by_lookup. apply (move_config_ok p q st); [done|].
  apply (eps_by_lookup_cases _ (entry_fits p)). intros. by eapply valid_entry.
Qed.

Lemma runSymbols_config_ok (p : pda) b q st w :
  valid_pda p -> normalized_rules (rules p) -> config_ok p q st ->
  config_ok p (runSymbols (rules p) b q st w).1.1 (runSymbols (rules p) b q st w).1.2.
Proof.
  intros Hv Hn. revert q st. induction w as [|a w IH]; intros q st Hc; simpl; [done|].
  pose proof (getNextState_config_ok p q a st Hv Hn Hc) as Hc'.
  destruct (getNextState q a (rules p) st) as [q1 st1].
  specialize (IH q1 st1 Hc'). by destruct (runSymbols (rules p) b q1 st1 w) as [[? ?] ?].
Qed.

(** C16: on a valid automaton with normalised rules, the configuration a run
    ends in (after the trailing epsilon move) has a declared state and a
    stack of declared stack symbols; each move keeps this invariant. *)
Theorem simulate_config_ok (p : pda) b w :
  valid_pda p -> normalized_rules (rules p) ->
  config_ok p (simulate (rules p) b (start p) w).1.1 (simulate (rules p) b (start p) w).1.2.
Proof.
  intros Hv Hn. unfold simulate.
  assert (config_ok p (start p) []) as Hc0 by (split; [apply Hv|set_solver]).
  pose proof (epsilonClosure_config_ok p (start p) [] Hv Hn Hc0) as Hc1.
  destruct (epsilonClosure (start p) (rules p) []) as [q0 st0].
  pose proof (runSymbols_config_ok p b q0 st0 w Hv Hn Hc1) as Hc2.
  destruct (runSymbols (rules p) b q0 st0 w) as [[q1 st1] out1].
  pose proof (epsilonClosure_config_ok p q1 st1 Hv Hn Hc2) as Hc3.
  by destruct (epsilonClosure q1 (rules p) st1).
Qed.

(** ** Safety and bounds on any rule table *)

Section Bounds.
Context {T : Type} `{RuleTableLaws T}.

Lemma getNextState_stack_move (t : T) q a st :
  stack_move st (getNextState q a t st).2.
Proof.
  rewrite getNextState_by_lookup.
  destruct (next_by_lookup_cases (rt_get t) (fun _ => True) ltac:(done) q a st)
    as [-> | (e & _ & _ & Hr)]; [by left|right; eauto].
Qed.

Lemma epsilonClosure_stack_move (t : T) q st :
  stack_move st (epsilonClosure q t st).2.
Proof.
  rewrite epsilonClosure_by_lookup.
  destruct (eps_by_lookup_cases (rt_get t) (fun _ => True) ltac:(done) q st)
    as [-> | (e & _ & _ & Hr)]; [by left|right; eauto].
Qed.

Lemma stack_move_no_epsilon st st' :
  stack_move st st' -> EPSILON ∉ st -> EPSILON ∉ st'.
Proof.
  intros [-> | (x & [-> | ->])] Hst; [done| |];
    intros [Hin | [Heq Hne]]%push_symbol_elem_of; eauto with pda; congruence.
Qed.

Lemma stack_move_length st st' : stack_move st st' -> length st' <= S (length st).
Proof.
  intros [-> | (x & [-> | ->])]; [lia|apply push_symbol_length|].
  pose proof (push_symbol_length x (pop st)). pose proof (pop_length st). lia.
Qed.

Lemma runSymbols_stack (t : T) b q st w :
  (EPSILON ∉ st -> EPSILON ∉ (runSymbols t b q st w).1.2) /\
  length (runSymbols t b q st w).1.2 <= length st + length w.
Proof.
  revert q st. induction w as [|a w IH]; intros q st; simpl; [split; [done|lia]|].
  pose proof (getNextState_stack_move t q a st) as Hm.
  destruct (getNextState q a t st) as [q1 st1]. simpl in Hm.
  destruct (IH q1 st1) as [IHe IHl].
  destruct (runSymbols t b q1 st1 w) as [[q2 st2] out]. simpl in *.
  pose proof (stack_move_length _ _ Hm). split; [|lia].
  intros Hst. apply IHe. by eapply stack_move_no_epsilon.
Qed.

(** C17: ["epsilon"] is never on the stack of a run: a push of
    ["epsilon"] is skipped, and pops only remove symbols. *)
Theorem simulate_no_epsilon_on_stack (t : T) b s w :
  EPSILON ∉ (simulate t b s w).1.2.
Proof.
  unfold simulate.
  pose proof (epsilonClosure_stack_move t s []) as M0.
  destruct (epsilonClosure s t []) as [q0 st0]. simpl in M0.
  destruct (runSymbols_stack t b q0 st0 w) as [R _].
  destruct (runSymbols t b q0 st0 w) as [[q1 st1] out1]. simpl in R.
  pose proof (epsilonClosure_stack_move t q1 st1) as M2.
  destruct (epsilonClosure q1 t st1) as [qf stf]. simpl in *.
  eapply stack_move_no_epsilon; [exact M2|]. apply R.
  eapply stack_move_no_epsilon; [exact M0|]. set_solver.
Qed.

(** C18: the stack of a run on [n] input symbols holds at most [n + 2]
    symbols: each of the [n] moves and of the two epsilon moves pushes at
    most one. *)
Theorem simulate_stack_bound (t : T) b s w :
  length (simulate t b s w).1.2 <= length w + 2.
Proof.
  unfold simulate.
  pose proof (stack_move_length _ _ (epsilonClosure_stack_move t s [])) as M0.
  destruct (epsilonClosure s t []) as [q0 st0]. simpl in M0.
  destruct (runSymbols_stack t b q0 st0 w) as [_ R].
  destruct (runSymbols t b q0 st0 w) as [[q1 st1] out1]. simpl in R.
  pose proof (stack_move_length _ _ (epsilonClosure_stack_move t q1 st1)) as M2.
  destruct (epsilonClosure q1 t st1) as [qf stf]. simpl in *. lia.
Qed.

Lemma runSymbols_out_length (t : T) b q st w :
  length (runSymbols t b q st w).2 = if b then 2 * length w else 0.
Proof.
  revert q st. induction w as [|a w IH]; intros q st; simpl; [by destruct b|].
  destruct (getNextState q a t st) as [q1 st1]. specialize (IH q1 st1).
  destruct (runSymbols t b q1 st1 w) as [[q2 st2] out]. simpl in *.
  rewrite length_app, IH. destruct b; simpl; lia.
Qed.

(** With tracing on, a run on [n] symbols prints [2n + 1] lines (the
    start state, then each symbol and the state after it) and one more
    exactly when the trailing epsilon move changes the state; with
    tracing off it prints nothing. *)
Theorem simulate_out_length (t : T) b s w :
  let '(qf, _, out) := simulate t b s w in
  length out =
    if b then 2 * length w + 1 +
      (if bool_decide ((runSymbols t b (epsilonClosure s t []).1
                          (epsilonClosure s t []).2 w).1.1 = qf) then 0 else 1)
    else 0.
Proof.
  unfold simulate.
  destruct (epsilonClosure s t []) as [q0 st0]. simpl.
  pose proof (runSymbols_out_length t b q0 st0 w) as Hl.
  destruct (runSymbols t b q0 st0 w) as [[q1 st1] out1]. simpl in *.
  destruct (epsilonClosure q1 t st1) as [qf stf].
  rewrite !length_app, Hl. destruct b; simpl; repeat case_bool_decide; simpl; try lia;
    congruence.
Qed.
End Bounds.

(** ** Witnesses: the theorems above on the automata of [Examples] *)

Lemma simulate_config_ok_witness :
  valid_pda scenarioA /\ normalized_rules (rules scenarioA) /\
  config_ok scenarioA (simulate (rules scenarioA) false (start scenarioA) [py "a"; py "a"]).1.1
                      (simulate (rules scenarioA) false (start scenarioA) [py "a"; py "a"]).1.2.
Proof.
  assert (normalized_rules (rules scenarioA)) as Hn by (apply normalized_rulesb_spec; reflexivity).
  split; [exact scenarioA_valid|]. split; [exact Hn|].
  apply (simulate_config_ok scenarioA false _ scenarioA_valid Hn).
Defined.

Lemma simulate_no_epsilon_on_stack_witness :
  EPSILON ∉ (simulate (rules scenarioE) true (start scenarioE) []).1.2.
Proof. apply (simulate_no_epsilon_on_stack (rules scenarioE)). Defined.

Lemma simulate_stack_bound_witness :
  length (simulate (rules scenarioA) false (start scenarioA) [py "a"; py "a"; py "a"]).1.2 <= 5.
Proof. apply (simulate_stack_bound (rules scenarioA) false _ [py "a"; py "a"; py "a"]). Defined.

Lemma simulate_out_length_witness :
  let '(qf, _, out) := simulate (rules middleEpsilon) true (start middleEpsilon) [py "a"] in
  length out =
    2 * 1 + 1 +
    (if bool_decide ((runSymbols (rules middleEpsilon) true
                        (epsilonClosure (start middleEpsilon) (rules middleEpsilon) []).1
                        (epsilonClosure (start middleEpsilon) (rules middleEpsilon) []).2
                        [py "a"]).1.1 = qf) then 0 else 1).
Proof. apply (simulate_out_length (rules middleEpsilon) true _ [py "a"]). Defined.
