(* ===== verification/Scenarios.v ===== *)
(** The testable properties of the specification (section 8) on the
    model: the absent-rule self-loop, the scenarios A, B, C and E on
    concrete automata, and the behaviours where the code departs from
    what the specification or a reader expects (empty input with a
    separator, the untraced first epsilon move, the unchecked redundant
    ["epsilon"] in the stack alphabet, a state named ["None"]). *)

From S2P Require Import Prelude PyStr PyDict Automaton Examples Validator Engine Spec Invariants.

(** ** The absent-rule self-loop *)

Section SelfLoop.
Context {T : Type} `{RuleTableLaws T}.

(** A state with no rule for the input symbol keeps its state and
    its stack on that symbol (an explicit fallback, not a rejection). *)
Theorem getNextState_absent_rule (t : T) q a st :
  (forall x, rt_get t q a x = None) -> getNextState q a t st = (q, st).
Proof. intros Hn. rewrite getNextState_by_lookup. by apply next_by_lookup_none. Qed.
End SelfLoop.

(** ** Tokenising the empty input *)

Lemma split_empty (sep : pystr) : sep <> [] -> split [] sep = [[]].
Proof. intros Hsep. unfold split. simpl. by destruct sep. Qed.

(** C25: with a non-empty separator, an input that is empty after stripping
    is split into one empty symbol, which no alphabet read from a file
    contains: [runPDA] raises [InputStringError] instead of running the
    automaton on the empty word (scenario E works only with the empty
    separator). *)
Theorem runPDA_empty_input_separator (p : pda) w sep b :
  sep <> [] -> strip w = [] -> [] ∉ sigma p -> isPDAValid p = Ok true ->
  runPDA p w sep b = Err InputStringError.
Proof.
  intros Hsep Hw Hnil Hv. unfold runPDA. rewrite Hv. simpl. rewrite Hw.
  unfold isStringValid, splitIncludingNoSeparator, py_in.
  rewrite bool_decide_false by done. rewrite split_empty by done. simpl.
  by rewrite bool_decide_false.
Qed.

(** ** The scenarios of the specification *)

(** Scenario A: on ["ab"] with no separator, [Z] is pushed then popped
    and the run ends in the accepting [q1]; the trace is the start state,
    then each symbol with the state after it. *)
Example scenario_A :
  runPDA scenarioA (py "ab") [] true =
  Ok (true, [py "q0"; py "a"; py "q0"; py "b"; py "q1"]).
Proof. reflexivity. Qed.

(** Scenario B: on ["aab"] two [Z] are pushed and one popped; the run
    accepts in [q1] with one [Z] left: acceptance looks at the state only. *)
Example scenario_B :
  runPDA scenarioA (py "aab") [] false = Ok (true, []) /\
  simulate (rules scenarioA) false (start scenarioA)
    (splitIncludingNoSeparator (py "aab") []) = (py "q1", [py "Z"], []).
Proof. split; reflexivity. Qed.

(** Scenario C: a symbol outside the alphabet raises [InputStringError]
    before anything is printed. *)
Example scenario_C : runPDA scenarioA (py "acb") [] true = Err InputStringError.
Proof. reflexivity. Qed.

(** Scenario E: on the empty input the first epsilon move reaches [q1]
    and the run accepts; the trace shows only the start state, since the
    first epsilon move is not printed. *)
Example scenario_E : runPDA scenarioE [] [] true = Ok (true, [py "q0"]).
Proof. reflexivity. Qed.

(** Epsilon moves happen only before the first and after the last
    symbol: after [a] the automaton is in [q1], whose epsilon move to [q2]
    is not taken before [b], so [b] finds no rule and ["ab"] is rejected;
    the trailing epsilon move then reaches [q2] and is printed. *)
Example middle_epsilon_not_followed :
  runPDA middleEpsilon (py "ab") [] true =
  Ok (false, [py "q0"; py "a"; py "q1"; py "b"; py "q1"; py "q2"]).
Proof. reflexivity. Qed.

(** Declaring ["epsilon"] in the stack alphabet is reported when a rule
    pushes it, but not when a rule pops it: the redundancy check for the
    pop symbol (line 260) tests the input symbol against [sigma]. *)
Example declared_epsilon_pop_unreported :
  isPDAValid declaredEpsilonPop = Ok true /\
  isPDAValid declaredEpsilonPush = Err (EpsilonTransitionError PushSymbol).
Proof. split; reflexivity. Qed.

(** C28: every automaton whose start state is named ["None"] is rejected
    with [UndefinedStartStateError] (line 223), whether or not ["None"]
    is a declared state: the code's marker for an unset start state is a
    name a definition file can use. *)
Theorem start_None_rejected (p : pda) :
  sigma p <> [] -> stackSigma p <> [] -> start p = NONE ->
  isPDAValid p = Err UndefinedStartStateError.
Proof.
  intros Hs Hss Hst. unfold isPDAValid.
  rewrite !bool_decide_false by (rewrite length_zero_iff_nil; done).
  by rewrite bool_decide_true.
Qed.

(** ** Witnesses: the theorems above on the automata of [Examples] *)

Lemma getNextState_absent_rule_witness :
  (forall x, rt_get (rules scenarioA) (py "q1") (py "a") x = None) /\
  getNextState (py "q1") (py "a") (rules scenarioA) [py "Z"] = (py "q1", [py "Z"]).
Proof.
  assert (forall x, rt_get (rules scenarioA) (py "q1") (py "a") x = None) as Hn
    by (intros x; reflexivity).
  split; [exact Hn|]. apply (getNextState_absent_rule (rules scenarioA) _ _ _ Hn).
Defined.

Lemma runPDA_empty_input_separator_witness :
  runPDA scenarioE (py " ") (py ",") false = Err InputStringError.
Proof.
  apply (runPDA_empty_input_separator scenarioE (py " ") (py ",") false);
    [discriminate|reflexivity|vm_compute; set_solver|reflexivity].
Defined.

Lemma start_None_rejected_witness :
  NONE ∈ states startNamedNone /\ isPDAValid startNamedNone = Err UndefinedStartStateError.
Proof.
  split; [left|]. apply start_None_rejected; [discriminate|discriminate|reflexivity].
Defined.
