(* ===== verification/Main.v ===== *)
(** The command-line front end [emulatePDA.py]: the reading of the
    arguments (lines 33-79: interactive answers with no argument, an
    error with one, file names, verbosity and separator otherwise), the
    folders and files it opens, in the code's order, over an explicit
    working directory ([startup]), and the main flow (lines 82-92: parse
    the definition, printing its six lines, run it on the input, print
    the trace and the verdict;
    [emulate] on the texts of the two files, [main] for the whole
    script).  [int] on a string is a parameter: the theorems hold for any
    conversion.  The theorems: the verdict printed is ["Accepted"] exactly
    when the specification's machine, over the flat transition map of the
    parsed file, accepts the tokenised input; the errors are those of
    [parseFile] and [runPDA]; with verbosity off the automaton's lines are
    still printed; and how the arguments set the verbosity and the
    separator, including the fifth argument turning verbosity off.
    [str.isprintable], which the printing of the automaton consults, is
    a parameter too. *)

From S2P Require Import Prelude PyStr Utf8 PyDict Automaton Examples Repr Validator Comments Parser Engine Spec.

Local Open Scope Z_scope.

(** The exceptions of the front end: its own (lines 8-15), the
    [ValueError] of [int], the [EOFError] of [input] when the answers run
    out, the [TypeError] of unpacking [False] in [runPDA] (line 363), and
    those of [PDA.py]. *)
Inductive main_error :=
| PDAFileNotFoundError
| NotEnoughArgummentsError
| DirectoryNotFoundError (directoryPath : pystr)
| IntValueError
| EOFError
| TypeError
| PDAException (e : pda_error).

#[export] Instance main_error_eq_dec : EqDecision main_error.
Proof. solve_decision. Defined.

(** Lines 43-48 and 70-77: the separator argument. *)
Definition separatorOf (arg : pystr) : pystr :=
  if bool_decide (upper arg = py "SPACE") then py " "
  else if bool_decide (upper arg = py "NOSEPARATOR") then []
  else arg.

(** What the arguments set: the two file names, [allowVerbosity] and
    [stringSeparator]. *)
Record invocation := mkInvocation {
  pdaFileName : pystr;
  inputFileName : pystr;
  allowVerbosity : bool;
  stringSeparator : pystr
}.

Section Cli.
(** [int(s)] on a string: the integer, or [None] for its [ValueError]. *)
Variable int_of : pystr -> option Z.

(** [bool(int(s))] (lines 41 and 66). *)
Definition boolOfInt (s : pystr) : result main_error bool :=
  match int_of s with Some n => Ok (negb (n =? 0)) | None => raise IntValueError end.

(** Lines 33-79 on [sys.argv[1:]] and the answers typed at the four
    [input] prompts (used only when there is no argument). *)
Definition readArguments (args answers : list pystr) : result main_error invocation :=
  match args with
  | [] =>
      match answers with
      | pdaName :: inputName :: verbosity :: rest =>
          let* v := boolOfInt verbosity in
          match rest with
          | stringInput :: _ => Ok (mkInvocation pdaName inputName v (separatorOf stringInput))
          | [] => raise EOFError
          end
      | _ => raise EOFError
      end
  | [_] => raise NotEnoughArgummentsError
  | pdaName :: inputName :: rest =>
      let* v := if bool_decide (length args = 3%nat)
                then boolOfInt (nth 2 args []) else Ok false in
      let sep := if bool_decide (length args = 4%nat) then separatorOf (nth 3 args []) else [] in
      Ok (mkInvocation pdaName inputName v sep)
  end.

(** The working directory as the script sees it: which folders exist in
    it, and the text of each file of a folder ([None] is the
    [FileNotFoundError] of [open]). *)
Record file_system := mkFileSystem {
  isdir : pystr -> bool;
  read_file : pystr -> pystr -> option pystr
}.

(** Lines 31-32 *)
Definition PDADefinitionFolder : pystr := py "PDA Definition Files".
Definition inputFolder : pystr := py "Input Files".

(** Lines 17-25: [changeDirectory]; the directory is entered from the
    working directory, to which [os.chdir("..")] returns. *)
Definition changeDirectory (fs : file_system) (directoryPath : pystr) : result main_error unit :=
  if isdir fs directoryPath then Ok tt else raise (DirectoryNotFoundError directoryPath).

(** [open(name, "r")] inside [folder], read to the end; the
    [FileNotFoundError] becomes [PDAFileNotFoundError] (lines 49-50 and
    78-79). *)
Definition openIn (fs : file_system) (folder name : pystr) : result main_error pystr :=
  match read_file fs folder name with Some text => Ok text | None => raise PDAFileNotFoundError end.

(** The [k]-th file name: an argument, or the answer to a prompt when
    there is no argument. *)
Definition fileName (args answers : list pystr) (k : nat) : result main_error pystr :=
  match args with
  | [] => match answers !! k with Some a => Ok a | None => raise EOFError end
  | _ => match args !! k with Some a => Ok a | None => raise NotEnoughArgummentsError end
  end.

(** Lines 33-79 with the files: the folder of definitions, the definition
    file, the folder of inputs, the input file, in this order, then the
    verbosity and the separator. *)
Definition startup (fs : file_system) (args answers : list pystr) :
    result main_error (pystr * pystr * invocation) :=
  if bool_decide (length args = 1%nat) then raise NotEnoughArgummentsError
  else
    let* _ := changeDirectory fs PDADefinitionFolder in
    let* pdaName := fileName args answers 0 in
    let* pdaText := openIn fs PDADefinitionFolder pdaName in
    let* _ := changeDirectory fs inputFolder in
    let* inputName := fileName args answers 1 in
    let* inputString := openIn fs inputFolder inputName in
    let* inv := readArguments args answers in
    Ok (pdaText, inputString, inv).
End Cli.

(** Lines 82-92 on the texts of the two files: the lines printed, those
    of [parseFile] (line 200), the trace of [runPDA], then the verdict.
    An exception ends the run with its error; what was printed before it
    is not kept. *)
Definition emulate (isprintable : Z -> bool) (pdaText inputString : pystr) (inv : invocation) :
    result main_error (list pystr) :=
  let '(printed, parsed) := parseFile_io isprintable pdaText in
  match parsed with
  | Err e => raise (PDAException e)
  | Ok None => raise TypeError
  | Ok (Some pda) =>
      match runPDA pda inputString (stringSeparator inv) (allowVerbosity inv) with
      | Err e => raise (PDAException e)
      | Ok (accepted, out) =>
          Ok (printed ++ out ++ [if accepted then py "Accepted" else py "Rejected"])
      end
  end.

(** [int] on decimal ASCII digits, for the witnesses. *)
Definition digits_int (s : pystr) : option Z :=
  if bool_decide (s <> [] /\ Forall (fun c => 48 <= c <= 57) s)
  then Some (fold_left (fun n c => 10 * n + (c - 48)) s 0) else None.

(** The whole script on a working directory, its arguments and the
    answers typed at its prompts: the lines it prints. *)
Definition main (isprintable : Z -> bool) (int_of : pystr -> option Z) (fs : file_system)
    (args answers : list pystr) : result main_error (list pystr) :=
  let* r := startup int_of fs args answers in
  let '(pdaText, inputString, inv) := r in
  emulate isprintable pdaText inputString inv.

(** ** Lemmas *)

Lemma rejected_not_accepted : py "Rejected" <> py "Accepted".
Proof. by vm_compute. Qed.

(** On a parsed automaton and an input of declared symbols, [emulate]
    prints the automaton, the trace of [simulate] and the verdict of line
    400. *)
Lemma emulate_simulate isprintable (pdaText inputString : pystr) (inv : invocation) (p : pda) :
  parseFile pdaText = Ok (Some p) ->
  isStringValid (strip inputString) (stringSeparator inv) (sigma p) = true ->
  emulate isprintable pdaText inputString inv =
  Ok (printPDADataStructures isprintable p ++ (simulate (rules p) (allowVerbosity inv) (start p)
         (splitIncludingNoSeparator (strip inputString) (stringSeparator inv))).2 ++
      [if py_in (simulate (rules p) (allowVerbosity inv) (start p)
                   (splitIncludingNoSeparator (strip inputString) (stringSeparator inv))).1.1
                (accept p)
       then py "Accepted" else py "Rejected"]).
Proof.
  intros Hp Hs. pose proof Hp as (Hv & _)%parseFile_Some. unfold emulate.
  rewrite (parseFile_io_Some isprintable _ p Hp).
  by rewrite runPDA_simulate by (done || by apply isPDAValid_sound).
Qed.

(** When both folders and both files are there, the script is the main
    flow on the texts of the files. *)
Lemma main_emulate isprintable int_of (fs : file_system) args answers pdaName inputName pdaText inputString :
  length args <> 1%nat ->
  isdir fs PDADefinitionFolder = true -> isdir fs inputFolder = true ->
  fileName args answers 0 = Ok pdaName -> fileName args answers 1 = Ok inputName ->
  read_file fs PDADefinitionFolder pdaName = Some pdaText ->
  read_file fs inputFolder inputName = Some inputString ->
  main isprintable int_of fs args answers =
  let* inv := readArguments int_of args answers in emulate isprintable pdaText inputString inv.
Proof.
  intros Hlen Hd1 Hd2 Hn1 Hn2 Hf1 Hf2. unfold main, startup, changeDirectory, openIn.
  rewrite bool_decide_false by done. rewrite Hd1. simpl. rewrite Hn1. simpl. rewrite Hf1. simpl.
  rewrite Hd2. simpl. rewrite Hn2. simpl. rewrite Hf2. simpl.
  by destruct (readArguments int_of args answers).
Qed.

(** ** Theorems *)

(** C1: the program end to end: on a definition file that [parseFile]
    accepts and an input whose symbols are declared, [emulatePDA.py]
    prints the trace and then ["Accepted"] exactly when the machine of the
    specification, over the flat transition map (state, input symbol, pop
    symbol) -> entry of the file, accepts the tokenised input, and
    ["Rejected"] otherwise. *)
Theorem emulate_verdict isprintable (pdaText inputString : pystr) (inv : invocation) (p : pda) :
  parseFile pdaText = Ok (Some p) ->
  isStringValid (strip inputString) (stringSeparator inv) (sigma p) = true ->
  exists out verdict, emulate isprintable pdaText inputString inv = Ok (out ++ [verdict]) /\
    (verdict = py "Accepted" <->
     accepts (rt_get (flatten (rules p))) (start p) (accept p)
       (splitIncludingNoSeparator (strip inputString) (stringSeparator inv))) /\
    (verdict = py "Accepted" \/ verdict = py "Rejected").
Proof.
  intros Hp Hs. pose proof Hp as (_ & Hwf & _)%parseFile_Some.
  rewrite (emulate_simulate isprintable _ _ _ p), app_assoc by done.
  do 2 eexists. split; [done|].
  rewrite <- (accepts_ext (rt_get (rules p))) by (intros; simpl; by rewrite flatten_lookup).
  rewrite <- (simulate_accepts (rules p) (allowVerbosity inv)). pose proof rejected_not_accepted. destruct (py_in _ _); naive_solver.
Qed.

(** C13: [emulatePDA.py] raises only what [parseFile] raises or, on a parsed
    automaton, [InputStringError]: the [TypeError] of running on [False]
    and the [PDAError] of [runPDA] cannot happen. *)
Theorem emulate_Err isprintable (pdaText inputString : pystr) (inv : invocation) e :
  emulate isprintable pdaText inputString inv = Err e ->
  (exists e', parseFile pdaText = Err e' /\ e = PDAException e') \/
  e = PDAException InputStringError.
Proof.
  unfold emulate. pose proof (parseFile_io_parseFile isprintable pdaText) as Hio.
  destruct (parseFile_io isprintable pdaText) as [printed parsed]. simpl in Hio. subst parsed.
  pose proof (parseFile_not_false pdaText) as Hnf.
  destruct (parseFile pdaText) as [[p|]|e'] eqn:Hp; [|done|intros [=<-]; eauto].
  apply parseFile_Some in Hp as (Hv & _). unfold runPDA. rewrite Hv. simpl.
  destruct (isStringValid _ _ _); simpl; [|intros [=<-]; by right].
  by destruct (simulate _ _ _ _) as [[? ?] ?].
Qed.

(** With verbosity off the script still prints the six lines of the
    automaton, which [parseFile] prints on every call (line 200; the call
    of line 84 is commented out but this one is not), and then only the
    verdict. *)
Theorem emulate_quiet isprintable (pdaText inputString : pystr) (inv : invocation) (p : pda) :
  parseFile pdaText = Ok (Some p) ->
  isStringValid (strip inputString) (stringSeparator inv) (sigma p) = true ->
  allowVerbosity inv = false ->
  exists verdict, emulate isprintable pdaText inputString inv =
    Ok (printPDADataStructures isprintable p ++ [verdict]).
Proof.
  intros Hp Hs Hq. rewrite (emulate_simulate isprintable _ _ _ p) by done.
  rewrite Hq, simulate_quiet. eauto.
Qed.

(** C22: the script fails in the code's order: one argument raises
    [NotEnoughArgummentsError] before any folder is looked at; otherwise
    a missing definitions folder raises [DirectoryNotFoundError] before
    any file is opened, and a missing definition file raises
    [PDAFileNotFoundError] before the input folder is looked at. *)
Theorem main_startup_errors isprintable int_of (fs : file_system) args answers :
  (length args = 1%nat -> main isprintable int_of fs args answers = Err NotEnoughArgummentsError) /\
  (length args <> 1%nat -> isdir fs PDADefinitionFolder = false ->
   main isprintable int_of fs args answers = Err (DirectoryNotFoundError PDADefinitionFolder)) /\
  (forall pdaName, length args <> 1%nat -> isdir fs PDADefinitionFolder = true ->
   fileName args answers 0 = Ok pdaName -> read_file fs PDADefinitionFolder pdaName = None ->
   main isprintable int_of fs args answers = Err PDAFileNotFoundError).
Proof.
  unfold main, startup, changeDirectory, openIn. split_and!.
  - intros Hlen. by rewrite bool_decide_true.
  - intros Hlen Hd. rewrite bool_decide_false by done. by rewrite Hd.
  - intros n Hlen Hd Hn Hf. rewrite bool_decide_false by done. rewrite Hd. simpl.
    rewrite Hn. simpl. by rewrite Hf.
Qed.

(** C24: with a fifth argument (the separator), verbosity is off whatever
    the fourth argument says: line 65 tests for exactly four arguments. *)
Theorem readArguments_separator_disables_verbosity int_of f i v sep answers :
  readArguments int_of [f; i; v; sep] answers = Ok (mkInvocation f i false (separatorOf sep)).
Proof. reflexivity. Qed.

(** C23: the verbosity is [int] of the answer or of the fourth argument,
    non-zero meaning on; the separator is read from the fourth answer, and
    is empty when there is no fifth argument. *)
Theorem readArguments_verbosity int_of f i v sep n answers :
  int_of v = Some n ->
  readArguments int_of [] [f; i; v; sep] = Ok (mkInvocation f i (negb (n =? 0)) (separatorOf sep)) /\
  readArguments int_of [f; i; v] answers = Ok (mkInvocation f i (negb (n =? 0)) []).
Proof. intros Hn. unfold readArguments, boolOfInt. simpl. rewrite Hn. split; reflexivity. Qed.

(** The separator names, in any case: ["space"] is the blank,
    ["NoSeparator"] the empty separator (one symbol per character), any
    other argument the separator itself; Python's [upper] also maps the
    long s of ["ſpace"] to ['S']. *)
Example separator_names :
  separatorOf (py "space") = py " " /\ separatorOf (py "NoSeparator") = [] /\
  separatorOf (py ";") = py ";" /\ separatorOf (383 :: py "pace") = py " ".
Proof. split_and!; reflexivity. Qed.

(** Scenario A end to end: the definition file, the input ["ab\n"] with
    no separator and verbosity on print the six lines of the automaton,
    the trace and ["Accepted"]. *)
Example emulate_scenarioA :
  emulate isprintable_bmp0 scenarioA_file (py "ab" ++ [10])
    (mkInvocation (py "A.pda") (py "ab.txt") true []) =
  Ok [py "States : ['q0', 'q1']"; py "Alphabet : ['a', 'b']"; py "Stack Alphabet: ['Z']";
      py "Rules : {'q0': {'a': {'epsilon': {'push': 'Z', 'nextState': 'q0'}}, 'b': {'Z': {'push': 'epsilon', 'nextState': 'q1'}}}}";
      py "Start state : q0"; py "Accept state: q1";
      py "q0"; py "a"; py "q0"; py "b"; py "q1"; py "Accepted"].
Proof. vm_compute. reflexivity. Qed.

(** A working directory with the definition of scenario A and the input
    ["ab"]. *)
Example main_scenarioA :
  let fs := mkFileSystem (fun d => bool_decide (d = PDADefinitionFolder \/ d = inputFolder))
              (fun d n => if bool_decide (d = PDADefinitionFolder /\ n = py "A.pda")
                          then Some scenarioA_file
                          else if bool_decide (d = inputFolder /\ n = py "ab.txt")
                          then Some (py "ab" ++ [10]) else None) in
  main isprintable_bmp0 digits_int fs [py "A.pda"; py "ab.txt"; py "1"] [] =
    Ok (printPDADataStructures isprintable_bmp0 scenarioA ++
        [py "q0"; py "a"; py "q0"; py "b"; py "q1"; py "Accepted"]) /\
  main isprintable_bmp0 digits_int fs [py "B.pda"; py "ab.txt"; py "1"] [] = Err PDAFileNotFoundError /\
  main isprintable_bmp0 digits_int (mkFileSystem (fun _ => false) (read_file fs)) [py "A.pda"; py "ab.txt"] [] =
    Err (DirectoryNotFoundError PDADefinitionFolder).
Proof. split_and!; vm_compute; reflexivity. Qed.

(** ** Witnesses *)

Lemma emulate_verdict_witness :
  exists out verdict,
    emulate isprintable_bmp0 scenarioA_file (py "ab")
      (mkInvocation (py "A.pda") (py "ab.txt") false []) = Ok (out ++ [verdict]) /\
    (verdict = py "Accepted" <->
     accepts (rt_get (flatten (rules scenarioA))) (start scenarioA) (accept scenarioA)
       (splitIncludingNoSeparator (strip (py "ab")) [])) /\
    (verdict = py "Accepted" \/ verdict = py "Rejected").
Proof.
  apply (emulate_verdict isprintable_bmp0 scenarioA_file (py "ab")
           (mkInvocation (py "A.pda") (py "ab.txt") false []) scenarioA); vm_compute; reflexivity.
Defined.

Lemma emulate_Err_witness :
  (exists e', parseFile scenarioD_file = Err e' /\ PDAException (ValueError 4) = PDAException e') \/
  PDAException (ValueError 4) = PDAException InputStringError.
Proof.
  apply (emulate_Err isprintable_bmp0 scenarioD_file (py "ab") (mkInvocation [] [] false [])).
  vm_compute. reflexivity.
Defined.

Lemma emulate_quiet_witness :
  exists verdict, emulate isprintable_bmp0 scenarioA_file (py "ab")
    (mkInvocation (py "A.pda") (py "ab.txt") false []) =
    Ok (printPDADataStructures isprintable_bmp0 scenarioA ++ [verdict]).
Proof.
  apply (emulate_quiet isprintable_bmp0 scenarioA_file (py "ab")
           (mkInvocation (py "A.pda") (py "ab.txt") false []) scenarioA); vm_compute; reflexivity.
Defined.

Lemma readArguments_verbosity_witness :
  readArguments digits_int [] [py "A.pda"; py "ab.txt"; py "1"; py "SPACE"] =
    Ok (mkInvocation (py "A.pda") (py "ab.txt") true (py " ")) /\
  readArguments digits_int [py "A.pda"; py "ab.txt"; py "1"] [] =
    Ok (mkInvocation (py "A.pda") (py "ab.txt") true []).
Proof.
  apply (readArguments_verbosity digits_int _ _ (py "1") (py "SPACE") 1). vm_compute. reflexivity.
Defined.

Lemma main_startup_errors_witness :
  let fs := mkFileSystem (fun d => bool_decide (d = PDADefinitionFolder))
              (fun _ _ => None) in
  main isprintable_bmp0 digits_int fs [py "A.pda"] [] = Err NotEnoughArgummentsError /\
  main isprintable_bmp0 digits_int (mkFileSystem (fun _ => false) (fun _ _ => None))
    [py "A.pda"; py "ab.txt"] [] = Err (DirectoryNotFoundError PDADefinitionFolder) /\
  main isprintable_bmp0 digits_int fs [py "A.pda"; py "ab.txt"] [] = Err PDAFileNotFoundError.
Proof.
  intros fs. split_and!.
  - apply (proj1 (main_startup_errors isprintable_bmp0 digits_int fs [py "A.pda"] [])). reflexivity.
  - apply (proj1 (proj2 (main_startup_errors isprintable_bmp0 digits_int
             (mkFileSystem (fun _ => false) (fun _ _ => None)) [py "A.pda"; py "ab.txt"] [])));
      [discriminate|reflexivity].
  - apply (proj2 (proj2 (main_startup_errors isprintable_bmp0 digits_int fs
             [py "A.pda"; py "ab.txt"] [])) (py "A.pda"));
      [discriminate|vm_compute; reflexivity|reflexivity|reflexivity].
Defined.
